(** * BIDS field-map post-processing: a shallow embedding of
      [data_to_bids/post_process_core.py] and its properties.

    Modelling conventions.
    - Python [str] values are Rocq strings, compared character by character;
      [sorted] on strings is the lexicographic order of [String.compare].
    - A path is the list of its components below the working directory.
      [os.path.join(p, name)] is [p ++ [name]]; subject, session and file
      names are single components, free of separators and of glob
      metacharacters.
    - The file system is a finite map from paths to nodes.  Printing is
      modelled by a trace of structured events.
    - [glob] and [os.listdir] return the names of a directory's entries;
      the paths of one directory share their prefix, so that sorting them
      is sorting their last components.
    - Python's standard library and pandas are not part of the repository:
      the codecs ([json.load], [json.dump], [pandas.read_csv],
      [DataFrame.to_csv]), the path separator and the operating system's
      refusals are fields of a [platform] record the development is
      parameterised by. *)

From Stdlib Require Import Ascii String.
From stdpp Require Import gmap strings list fin_maps sorting.

Local Open Scope string_scope.

(** ** Python string primitives *)

Module PyStr.

(** [s.startswith(pre)] *)
Fixpoint startswith (s pre : string) {struct pre} : bool :=
  match pre, s with
  | EmptyString, _ => true
  | String a pre', String b s' => if Ascii.eqb a b then startswith s' pre' else false
  | String _ _, EmptyString => false
  end.

(** [s.endswith(suf)] *)
Definition endswith (s suf : string) : bool :=
  startswith (String.rev s) (String.rev suf).

(** [pat in s] *)
Fixpoint contains (pat s : string) : bool :=
  startswith s pat ||
  match s with
  | EmptyString => false
  | String _ s' => contains pat s'
  end.

(** [s.replace(old, new)]: every leftmost non-overlapping occurrence of
    [old] is replaced.  [skip] counts the characters of a matched
    occurrence that are still to be dropped. *)
Fixpoint replace_from (old new : string) (skip : nat) (s : string) : string :=
  match s with
  | EmptyString =>
      match skip, old with
      | O, EmptyString => new
      | _, _ => EmptyString
      end
  | String c s' =>
      match skip with
      | S k => replace_from old new k s'
      | O =>
          if startswith s old then
            match String.length old with
            | O => new ++ String c (replace_from old new 0 s')
            | S k => new ++ replace_from old new k s'
            end
          else String c (replace_from old new 0 s')
      end
  end.

Definition replace (s old new : string) : string := replace_from old new 0 s.

(** [sep.join(parts)] *)
Fixpoint join (sep : string) (parts : list string) : string :=
  match parts with
  | [] => EmptyString
  | [x] => x
  | x :: rest => x ++ sep ++ join sep rest
  end.

End PyStr.

Import PyStr.

(** ** Identifier normalisation *)

Definition normalize_subject (s : string) : string :=
  if startswith s "sub-" then s else "sub-" ++ s.

Definition normalize_session (s : string) : string :=
  if startswith s "ses-" then s else "ses-" ++ s.

(** ** The file system *)

(** A path is the list of its components. *)
Abbreviation path := (list string).

Inductive node :=
| File (data : string)
| Dir.

Global Instance node_eq_dec : EqDecision node.
Proof. solve_decision. Defined.

Abbreviation fs := (gmap path node).

Definition isdir (t : fs) (p : path) : bool :=
  match t !! p with Some Dir => true | _ => false end.

Definition isfile (t : fs) (p : path) : bool :=
  match t !! p with Some (File _) => true | _ => false end.

Definition path_exists (t : fs) (p : path) : bool :=
  match t !! p with Some _ => true | None => false end.

(** [os.path.join(dir, name)] for a name that is one entry of [dir]: see
    [single_component]. *)
Definition path_join (dir : path) (name : string) : path := (dir ++ [name])%list.

(** [os.path.relpath(p, start)] on normalised paths: climb out of what
    is left of [start] after the common prefix, then descend; the path
    itself is [.]. *)
Fixpoint rel_parts (p start : path) : path :=
  match p, start with
  | x :: p', y :: start' =>
      if String.eqb x y then rel_parts p' start'
      else (repeat ".." (length start) ++ p)%list
  | _, _ => (repeat ".." (length start) ++ p)%list
  end.

Definition relpath (p start : path) : path :=
  match rel_parts p start with
  | [] => ["."]
  | parts => parts
  end.

(** [child_name dir k] is [Some n] exactly when [k = dir ++ [n]]. *)
Fixpoint child_name (dir k : path) : option string :=
  match dir, k with
  | [], [n] => Some n
  | d :: dir', c :: k' => if String.eqb d c then child_name dir' k' else None
  | _, _ => None
  end.

(** The entries of a directory, in the unspecified order of [os.listdir]. *)
Definition entries (t : fs) (dir : path) : list string :=
  omap (child_name dir) (elements (dom t)).

(** ** Lexicographic order and [sorted] *)

(** [sorted(l)] for a list of strings; [String.le] is the order of
    [String.compare], character code by character code. *)
Definition sorted (l : list string) : list string := merge_sort String.le l.

(** ** Events printed by the passes, and exceptions *)

Inductive exn :=
| OSError
| DecodeError
| AttributeError
| TypeError.

Inductive event :=
| DirectoryNotFound (subject_path : path)
| SessionNotFound (ses_path : path)
| SkipRename (src dst : path)
| WouldRename (src dst : path)
| Renaming (src dst : path)
| FilenameColumnMissing (tsv_file : path)
| NoChangesNeeded (file : path)
| WouldUpdateTsv (changed_rows : nat) (tsv_file : path)
| UpdatingTsv (changed_rows : nat) (tsv_file : path)
| ErrorProcessing (tsv_file : path) (e : exn)
| MissingFuncOrFmap (ses_path : path)
| NoFieldmapJson (fmap_dir pattern : path)
| WouldUpdateJson (json_path : path)
| UpdatingJson (json_path : path)
| ErrorUpdating (json_path : path) (e : exn).

Global Instance exn_eq_dec : EqDecision exn.
Proof. solve_decision. Defined.

Global Instance event_eq_dec : EqDecision event.
Proof. solve_decision. Defined.

(** ** State and exception monad *)

Record world := World { files : fs; trace : list event }.

Global Instance world_eq_dec : EqDecision world.
Proof. solve_decision. Defined.

Definition M (A : Type) : Type := world -> (exn + A) * world.

Definition ret {A} (a : A) : M A := fun w => (inr a, w).

Definition bind {A B} (m : M A) (k : A -> M B) : M B :=
  fun w =>
    match m w with
    | (inr a, w') => k a w'
    | (inl e, w') => (inl e, w')
    end.

Notation "x <- m ;; k" := (bind m (fun x => k))
  (at level 100, m at next level, k at level 200, right associativity).
Notation "m >> k" := (bind m (fun _ => k))
  (at level 100, k at level 200, right associativity).

Definition raise {A} (e : exn) : M A := fun w => (inl e, w).

Definition get_files : M fs := fun w => (inr (files w), w).

Definition put_files (t : fs) : M unit :=
  fun w => (inr tt, World t (trace w)).

(** [print(...)] *)
Definition emit (e : event) : M unit :=
  fun w => (inr tt, World (files w) (trace w ++ [e])).

(** [try: body except Exception as e: handler(e)] *)
Definition try_except {A} (body : M A) (handler : exn -> M A) : M A :=
  fun w =>
    match body w with
    | (inr a, w') => (inr a, w')
    | (inl e, w') => handler e w'
    end.

(** [for x in l: body(x)]; [continue] is the end of the body. *)
Fixpoint for_each {A} (l : list A) (body : A -> M unit) : M unit :=
  match l with
  | [] => ret tt
  | x :: rest => body x >> for_each rest body
  end.

(** A generator is a computation that, when the loop starts, produces
    its resumption steps; each step runs in the world of that moment and
    either yields a value or yields nothing. *)
Definition generator (A : Type) : Type := M (list (M (option A))).

(** [for x in gen: body(x)] *)
Definition for_gen {A} (gen : generator A) (body : A -> M unit) : M unit :=
  steps <- gen ;;
  for_each steps (fun step =>
    r <- step ;;
    match r with
    | Some x => body x
    | None => ret tt
    end).

(** [list(gen)] *)
Fixpoint run_steps {A} (steps : list (M (option A))) : M (list A) :=
  match steps with
  | [] => ret []
  | step :: rest =>
      r <- step ;;
      xs <- run_steps rest ;;
      ret (match r with Some x => x :: xs | None => xs end)
  end.

Definition collect {A} (gen : generator A) : M (list A) :=
  steps <- gen ;; run_steps steps.

(** ** Documents handled by the passes *)

(** A JSON value as returned by [json.load].  A Python [dict] keeps its
    keys in insertion order: it is an association list whose keys are
    pairwise distinct. *)
#[warnings="-register-all"]
Inductive json :=
| JNull
| JBool (b : bool)
| JNumber (literal : string)
| JString (s : string)
| JArray (items : list json)
| JObject (members : list (string * json)).

Abbreviation dict := (list (string * json)).

(** Equality of JSON values.  Every comparison the code performs has the
    computed string or list of strings on one side, or the very same
    object on both sides; on those Python's [==] is structural. *)
Fixpoint json_eqb (a b : json) : bool :=
  match a, b with
  | JNull, JNull => true
  | JBool x, JBool y => Bool.eqb x y
  | JNumber x, JNumber y => String.eqb x y
  | JString x, JString y => String.eqb x y
  | JArray xs, JArray ys =>
      (fix items_eqb (xs ys : list json) : bool :=
         match xs, ys with
         | [], [] => true
         | x :: xs', y :: ys' => json_eqb x y && items_eqb xs' ys'
         | _, _ => false
         end) xs ys
  | JObject xs, JObject ys =>
      (fix members_eqb (xs ys : dict) : bool :=
         match xs, ys with
         | [], [] => true
         | (k, x) :: xs', (k', y) :: ys' =>
             String.eqb k k' && json_eqb x y && members_eqb xs' ys'
         | _, _ => false
         end) xs ys
  | _, _ => false
  end.

(** [d.get(key)] *)
Fixpoint dict_get (key : string) (d : dict) : option json :=
  match d with
  | [] => None
  | (k, v) :: rest => if String.eqb k key then Some v else dict_get key rest
  end.

(** [d[key] = value]: an existing key keeps its position, a new key is
    appended. *)
Fixpoint dict_set (key : string) (value : json) (d : dict) : dict :=
  match d with
  | [] => [(key, value)]
  | (k, v) :: rest =>
      if String.eqb k key then (k, value) :: rest
      else (k, v) :: dict_set key value rest
  end.

(** [a == b] on dicts: same length, and every item of [a] is found in [b]
    with an equal value. *)
Definition dict_eqb (a b : dict) : bool :=
  Nat.eqb (length a) (length b) &&
  forallb (fun item =>
             match dict_get (fst item) b with
             | Some v => json_eqb (snd item) v
             | None => false
             end) a.

(** A column of a data frame: either strings with missing values (the
    only columns with a [.str] accessor), or values of another dtype. *)
Inductive column :=
| StrColumn (cells : list (option string))
| OtherColumn (cells : list string).

Global Instance column_eq_dec : EqDecision column.
Proof. solve_decision. Defined.

(** A data frame: its named columns, in order. *)
Abbreviation dataframe := (list (string * column)).

(** [df[name]] *)
Fixpoint df_get (name : string) (df : dataframe) : option column :=
  match df with
  | [] => None
  | (n, c) :: rest => if String.eqb n name then Some c else df_get name rest
  end.

(** [df[name] = col] *)
Fixpoint df_set (name : string) (col : column) (df : dataframe) : dataframe :=
  match df with
  | [] => [(name, col)]
  | (n, c) :: rest =>
      if String.eqb n name then (n, col) :: rest
      else (n, c) :: df_set name col rest
  end.

(** [col.str.replace(old, new, regex=False)] *)
Definition str_replace (col : column) (old new : string) : exn + column :=
  match col with
  | StrColumn cells =>
      inr (StrColumn (map (option_map (fun s => replace s old new)) cells))
  | OtherColumn _ => inl AttributeError
  end.

(** [a.equals(b)] *)
Definition column_equals (a b : column) : bool := bool_decide (a = b).

(** Elementwise [!=]: a missing value differs from everything. *)
Definition cell_ne (a b : option string) : bool :=
  match a, b with
  | Some x, Some y => negb (String.eqb x y)
  | _, _ => true
  end.

(** [int((a != b).sum())] *)
Definition count_ne (a b : column) : nat :=
  match a, b with
  | StrColumn xs, StrColumn ys => length (List.filter id (zip_with cell_ne xs ys))
  | _, _ => 0
  end.

(** ** The platform: operating system and library codecs *)

(** [os_sep] is [os.sep].  The [_denied] fields tell which calls the
    operating system refuses (permissions, device errors).  A codec
    returns [None] where the library raises.  [dict_of_iterable] is
    Python's [dict(x)] on a value that is not a JSON object. *)
Record platform := Platform {
  os_sep : string;
  listdir_denied : path -> bool;
  rename_denied : path -> path -> bool;
  read_denied : path -> bool;
  write_denied : path -> bool;
  json_load : string -> option json;
  json_dump : json -> string;
  dict_of_iterable : json -> option dict;
  read_csv : string -> option dataframe;
  to_csv : dataframe -> string
}.

(** ** The passes *)

Section Passes.

Variable P : platform.

(** [os.listdir(dir)] *)
Definition os_listdir (dir : path) : M (list string) :=
  t <- get_files ;;
  if listdir_denied P dir || negb (isdir t dir) then raise OSError
  else ret (entries t dir).

(** [os.rename(src, dst)] *)
Definition os_rename (src dst : path) : M unit :=
  t <- get_files ;;
  match t !! src with
  | Some n =>
      if rename_denied P src dst then raise OSError
      else put_files (<[dst := n]> (delete src t))
  | None => raise OSError
  end.

(** Reading the whole of [open(p, "r")]. *)
Definition read_text (p : path) : M string :=
  t <- get_files ;;
  match t !! p with
  | Some (File data) => if read_denied P p then raise OSError else ret data
  | _ => raise OSError
  end.

(** Writing [data] through [open(p, "w")].  A write that fails is one the
    operating system refuses when the file is opened; what a write that
    fails later leaves in the file is not modelled. *)
Definition write_text (p : path) (data : string) : M unit :=
  t <- get_files ;;
  if write_denied P p then raise OSError
  else match t !! p with
       | Some Dir => raise OSError
       | _ => put_files (<[p := File data]> t)
       end.

(** Names matched by [glob.glob(os.path.join(dir, pre + "*"))]; [glob]
    returns nothing for a directory it cannot read.  The path of the
    directory is taken as it is written and the names are matched in
    their own case: see [plain_dir]. *)
Definition glob_prefix (t : fs) (dir : path) (pre : string) : list string :=
  if isdir t dir && negb (listdir_denied P dir)
  then List.filter (fun name => startswith name pre) (entries t dir)
  else [].

(** Names matched by [glob.glob(os.path.join(dir, "*" + suf))]; a leading
    [*] does not match hidden names.  The path of the directory is taken
    as it is written and the names are matched in their own case: see
    [plain_dir]. *)
Definition glob_suffix (t : fs) (dir : path) (suf : string) : list string :=
  if isdir t dir && negb (listdir_denied P dir)
  then List.filter (fun name => negb (startswith name ".") && endswith name suf)
                   (entries t dir)
  else [].

(** Result of a library call that may raise. *)
Definition lift {A} (r : exn + A) : M A :=
  match r with
  | inl e => raise e
  | inr a => ret a
  end.

Definition decode {A} (r : option A) : M A :=
  match r with
  | Some a => ret a
  | None => raise DecodeError
  end.

Definition iter_session_paths (subject_path : path)
    (sessions_filter : option (list string)) : generator path :=
  match sessions_filter with
  | Some ((_ :: _) as requested) =>
      ret (map (fun ses =>
                  let ses_path := path_join subject_path ses in
                  t <- get_files ;;
                  if isdir t ses_path then ret (Some ses_path)
                  else (emit (SessionNotFound ses_path) >> ret None))
               requested)
  | _ =>
      t <- get_files ;;
      ret (map (fun name =>
                  let ses_path := path_join subject_path name in
                  t' <- get_files ;;
                  ret (if isdir t' ses_path then Some ses_path else None))
               (sorted (glob_prefix t subject_path "ses-")))
  end.

(** The new name chosen by the [if]/[elif]/[else] of the renamer;
    [None] is the [continue] of the [else] branch. *)
Definition rename_target (filename : string) : option string :=
  if contains "fieldmap1" filename
  then Some (replace filename "fieldmap1" "magnitude")
  else if contains "fieldmap2" filename
  then Some (replace filename "fieldmap2" "fieldmap")
  else None.

(** Body of the loop over the sorted directory listing. *)
Definition rename_file (dry_run : bool) (fmap_dir : path) (filename : string)
    : M unit :=
  let src_path := path_join fmap_dir filename in
  t <- get_files ;;
  if negb (isfile t src_path) then ret tt
  else
    match rename_target filename with
    | None => ret tt
    | Some new_filename =>
        let dst_path := path_join fmap_dir new_filename in
        if path_exists t dst_path then emit (SkipRename src_path dst_path)
        else if dry_run then emit (WouldRename src_path dst_path)
        else (emit (Renaming src_path dst_path) >> os_rename src_path dst_path)
    end.

(** Body of the loop over sessions. *)
Definition rename_in_session (dry_run : bool) (ses_path : path) : M unit :=
  let fmap_dir := path_join ses_path "fmap" in
  t <- get_files ;;
  if negb (isdir t fmap_dir) then ret tt
  else
    names <- os_listdir fmap_dir ;;
    for_each (sorted names) (rename_file dry_run fmap_dir).

Definition rename_fieldmap_files (subjects : list string) (base_dir : path)
    (sessions_filter : option (list string)) (dry_run : bool) : M unit :=
  for_each subjects (fun subject =>
    let subject_path := path_join base_dir subject in
    t <- get_files ;;
    if negb (isdir t subject_path) then emit (DirectoryNotFound subject_path)
    else for_gen (iter_session_paths subject_path sessions_filter)
                 (rename_in_session dry_run)).

(** Body of the loop over the manifests of a session. *)
Definition update_scans_file (dry_run : bool) (tsv_file : path) : M unit :=
  try_except
    (text <- read_text tsv_file ;;
     df <- decode (read_csv P text) ;;
     match df_get "filename" df with
     | None => emit (FilenameColumnMissing tsv_file)
     | Some original =>
         col1 <- lift (str_replace original "fieldmap1" "magnitude") ;;
         let df1 := df_set "filename" col1 df in
         col2 <- lift (str_replace col1 "fieldmap2" "fieldmap") ;;
         let df2 := df_set "filename" col2 df1 in
         if column_equals col2 original then emit (NoChangesNeeded tsv_file)
         else
           let changed_rows := count_ne col2 original in
           if dry_run then emit (WouldUpdateTsv changed_rows tsv_file)
           else (emit (UpdatingTsv changed_rows tsv_file) >>
                 write_text tsv_file (to_csv P df2))
     end)
    (fun e => emit (ErrorProcessing tsv_file e)).

Definition update_scans_tsv (subjects : list string) (base_dir : path)
    (sessions_filter : option (list string)) (dry_run : bool) : M unit :=
  for_each subjects (fun subject =>
    let subject_path := path_join base_dir subject in
    t <- get_files ;;
    if negb (isdir t subject_path) then emit (DirectoryNotFound subject_path)
    else for_gen (iter_session_paths subject_path sessions_filter)
           (fun ses_path =>
              t' <- get_files ;;
              for_each (map (path_join ses_path)
                            (sorted (glob_suffix t' ses_path "_scans.tsv")))
                       (update_scans_file dry_run))).

(** One element of the [intended_for] comprehension:
    ["bids::" + os.path.relpath(bold_file, start=base_dir).replace(os.sep, "/")];
    the relative path is rendered with the host separator. *)
Definition intended_for_entry (base_dir bold_file : path) : string :=
  "bids::" ++
  replace (join (os_sep P) (relpath bold_file base_dir)) (os_sep P) "/".

(** [dict(fmap_data)] *)
Definition py_dict (fmap_data : json) : M dict :=
  match fmap_data with
  | JObject members => ret members
  | other =>
      match dict_of_iterable P other with
      | Some d => ret d
      | None => raise TypeError
      end
  end.

(** [new_data == fmap_data]: a dict never equals a value of another type. *)
Definition dict_equals_json (new_data : dict) (fmap_data : json) : bool :=
  match fmap_data with
  | JObject members => dict_eqb new_data members
  | _ => false
  end.

(** The [try] block of the sidecar updater. *)
Definition update_sidecar (dry_run : bool) (fmap_json_path : path)
    (intended_for : list string) (b0_identifier : string) : M unit :=
  try_except
    (text <- read_text fmap_json_path ;;
     fmap_data <- decode (json_load P text) ;;
     copy <- py_dict fmap_data ;;
     let new_data :=
       dict_set "B0FieldIdentifier" (JString b0_identifier)
         (dict_set "IntendedFor" (JArray (map JString intended_for)) copy) in
     if dict_equals_json new_data fmap_data
     then emit (NoChangesNeeded fmap_json_path)
     else if dry_run then emit (WouldUpdateJson fmap_json_path)
     else (emit (UpdatingJson fmap_json_path) >>
           write_text fmap_json_path (json_dump P (JObject new_data))))
    (fun e => emit (ErrorUpdating fmap_json_path e)).

(** [bold_files] and [intended_for] as computed for one session. *)
Definition bold_files (t : fs) (func_dir : path) : list path :=
  map (path_join func_dir) (sorted (glob_suffix t func_dir "_bold.nii.gz")).

Definition intended_for_list (t : fs) (base_dir func_dir : path) : list string :=
  map (intended_for_entry base_dir) (bold_files t func_dir).

(** [os.path.basename(ses_path)] for a path that ends in a name. *)
Definition basename (p : path) : string :=
  match last p with
  | Some name => name
  | None => EmptyString
  end.

(** Body of the loop over sessions. *)
Definition update_json_in_session (base_dir : path) (subject : string)
    (b0_identifier : string) (dry_run : bool) (ses_path : path) : M unit :=
  let ses_id := basename ses_path in
  let func_dir := path_join ses_path "func" in
  let fmap_dir := path_join ses_path "fmap" in
  t <- get_files ;;
  if negb (isdir t func_dir) || negb (isdir t fmap_dir)
  then emit (MissingFuncOrFmap ses_path)
  else
    let intended_for := intended_for_list t base_dir func_dir in
    let pattern := path_join fmap_dir (subject ++ "_" ++ ses_id ++ "_fieldmap.json") in
    (* a pattern made of plain names has no wildcard: [glob] returns it
       when it exists *)
    if negb (path_exists t pattern) then emit (NoFieldmapJson fmap_dir pattern)
    else update_sidecar dry_run pattern intended_for b0_identifier.

Definition update_fieldmap_json (subjects : list string) (base_dir : path)
    (sessions_filter : option (list string)) (b0_identifier : string)
    (dry_run : bool) : M unit :=
  for_each subjects (fun subject =>
    let subject_path := path_join base_dir subject in
    t <- get_files ;;
    if negb (isdir t subject_path) then emit (DirectoryNotFound subject_path)
    else for_gen (iter_session_paths subject_path sessions_filter)
                 (update_json_in_session base_dir subject b0_identifier dry_run)).

End Passes.


(** ** Specification vocabulary *)

(** A computation that never changes the file system, whatever it returns
    or raises. *)
Definition preserves_files {A : Type} (m : M A) : Prop :=
  forall w, files (m w).2 = files w.

(** Every value a computation returns satisfies [Q]. *)
Definition yields {A : Type} (m : M A) (Q : A -> Prop) : Prop :=
  forall w a w', m w = (inr a, w') -> Q a.

(** Partial correctness of a computation that returns, stated on the file
    system alone. *)
Definition hoare {A : Type} (pre : fs -> Prop) (m : M A) (post : A -> fs -> Prop)
    : Prop :=
  forall w a w', pre (files w) -> m w = (inr a, w') -> post a (files w').

(** The reports of a run that renames nothing. *)
Definition is_report (e : event) : bool :=
  match e with
  | DirectoryNotFound _ | SessionNotFound _ | SkipRename _ _ => true
  | _ => false
  end.

(** A computation that, started on the file system [t], returns without
    raising, leaves [t] as it is and only prints reports. *)
Definition quiet {A : Type} (t : fs) (m : M A) (Q : A -> Prop) : Prop :=
  forall w, files w = t ->
    exists a evs, m w = (inr a, World t (trace w ++ evs)) /\
                  Forall (fun e => is_report e = true) evs /\ Q a.

(** The value both substitutions of the scan-table updater give a cell. *)
Definition rewrite_name (s : string) : string :=
  replace (replace s "fieldmap1" "magnitude") "fieldmap2" "fieldmap".

(** The file system after [os.rename(src, dst)] of a regular file. *)
Definition renamed (t : fs) (src dst : path) (data : string) : fs :=
  <[dst := File data]> (delete src t).

(** Nothing is left to rename in [dir]: every regular file that matches a
    rule has its destination taken. *)
Definition settled (t : fs) (dir : path) : Prop :=
  forall n data tn,
    t !! path_join dir n = Some (File data) ->
    rename_target n = Some tn ->
    is_Some (t !! path_join dir tn).

(** In the directories [D], the new name of a file matches no rule. *)
Definition final_targets (D : path -> Prop) (t : fs) : Prop :=
  forall dir n data tn,
    D dir ->
    t !! path_join dir n = Some (File data) ->
    rename_target n = Some tn ->
    rename_target tn = None.

(** The files of [dir] that can still be renamed are among [rest]. *)
Definition pending (t : fs) (dir : path) (rest : list string) : Prop :=
  forall n data tn,
    t !! path_join dir n = Some (File data) ->
    rename_target n = Some tn ->
    t !! path_join dir tn = None ->
    n ∈ rest.

(** The sessions [iter_session_paths] looks at below [sp]. *)
Definition selected (P : platform) (sp : path) (flt : option (list string))
    (ses : string) : Prop :=
  match flt with
  | Some ((_ :: _) as requested) => ses ∈ requested
  | _ => startswith ses "ses-" = true /\ listdir_denied P sp = false
  end.

(** The [fmap] directories of the sessions of [sp] picked by [sel]. *)
Definition session_dirs (t0 : fs) (sp : path) (sel : string -> Prop) (dir : path)
    : Prop :=
  exists ses, sel ses /\ isdir t0 (path_join sp ses) = true /\
              isdir t0 dir = true /\
              dir = path_join (path_join sp ses) "fmap".

(** The [fmap] directories a run of the renamer processes. *)
Definition visited (P : platform) (t : fs) (subjects : list string)
    (base_dir : path) (flt : option (list string)) (dir : path) : Prop :=
  exists subject ses,
    subject ∈ subjects /\
    selected P (path_join base_dir subject) flt ses /\
    isdir t (path_join base_dir subject) = true /\
    isdir t (path_join (path_join base_dir subject) ses) = true /\
    isdir t dir = true /\
    dir = path_join (path_join (path_join base_dir subject) ses) "fmap".

(** Invariant of a run of the renamer started on [t0]: new names are final
    in [D], the directories are those of [t0], and the directories [S]
    already processed are settled and were listed. *)
Definition run_inv (P : platform) (D : path -> Prop) (t0 : fs)
    (S : path -> Prop) (t : fs) : Prop :=
  final_targets D t /\
  (forall p, isdir t p = isdir t0 p) /\
  (forall dir, S dir -> D dir /\ settled t dir /\ listdir_denied P dir = false).

(** A resumption step of the session generator: it leaves the files alone
    and yields the session path exactly when it is a directory. *)
Definition tests_isdir (sp : path) (f : string -> M (option path)) : Prop :=
  forall ses w r w',
    f ses w = (inr r, w') ->
    files w' = files w /\
    r = if isdir (files w) (path_join sp ses) then Some (path_join sp ses) else None.

(** A decidable sufficient condition for [final_targets]. *)
Definition final_targets_check (t : fs) : bool :=
  forallb (fun entry =>
             match snd entry, last (fst entry) with
             | File _, Some n =>
                 match rename_target n with
                 | Some tn =>
                     match rename_target tn with
                     | None => true
                     | Some _ => false
                     end
                 | None => true
                 end
             | _, _ => true
             end) (map_to_list t).

(** ** Sample data *)

Module Sample.

Definition fmap_intended : string :=
  "bids::sub-01/ses-001/func/sub-01_ses-001_task-rest_run-01_bold.nii.gz".

(** A table codec standing for [json.load] on two sidecars. *)
Definition sample_json_load (text : string) : option json :=
  if String.eqb text "sidecar with echo times" then
    Some (JObject [("EchoTime1", JNumber "0.00492");
                   ("EchoTime2", JNumber "0.00738")])
  else if String.eqb text "sidecar already patched" then
    Some (JObject [("EchoTime1", JNumber "0.00492");
                   ("IntendedFor", JArray [JString fmap_intended]);
                   ("B0FieldIdentifier", JString "b0map_fmap0")])
  else None.

Definition scans_table : dataframe :=
  [("filename",
    StrColumn [Some "fmap/sub-01_ses-001_fieldmap1.nii.gz";
               Some "fmap/sub-01_ses-001_fieldmap2.nii.gz";
               Some "func/sub-01_ses-001_task-rest_run-01_bold.nii.gz"]);
   ("acq_time",
    StrColumn [Some "2026-02-03T10:15:00"; Some "2026-02-03T10:15:00"; None])].

Definition clean_table : dataframe :=
  [("filename",
    StrColumn [Some "anat/sub-01_ses-001_T1w.nii.gz";
               Some "func/sub-01_ses-001_task-rest_run-01_bold.nii.gz"]);
   ("acq_time", StrColumn [Some "2026-02-03T10:02:00"; None])].

(** A table codec standing for [pandas.read_csv] on two manifests. *)
Definition sample_read_csv (text : string) : option dataframe :=
  if String.eqb text "scans of session 001" then Some scans_table
  else if String.eqb text "scans without legacy names" then Some clean_table
  else None.

Definition posix : platform :=
  {| os_sep := "/";
     listdir_denied := fun _ => false;
     rename_denied := fun _ _ => false;
     read_denied := fun _ => false;
     write_denied := fun _ => false;
     json_load := sample_json_load;
     json_dump := fun _ => "patched sidecar";
     dict_of_iterable := fun _ => None;
     read_csv := sample_read_csv;
     to_csv := fun _ => "patched scans" |}.

(** The same platform with every rename refused. *)
Definition read_only : platform :=
  {| os_sep := "/";
     listdir_denied := fun _ => false;
     rename_denied := fun _ _ => true;
     read_denied := fun _ => false;
     write_denied := fun _ => false;
     json_load := sample_json_load;
     json_dump := fun _ => "patched sidecar";
     dict_of_iterable := fun _ => None;
     read_csv := sample_read_csv;
     to_csv := fun _ => "patched scans" |}.

Definition base : path := ["bids"].
Definition subject_dir : path := ["bids"; "sub-01"].
Definition session_dir : path := ["bids"; "sub-01"; "ses-001"].
Definition fmap_dir : path := ["bids"; "sub-01"; "ses-001"; "fmap"].
Definition func_dir : path := ["bids"; "sub-01"; "ses-001"; "func"].

Definition skeleton : list (path * node) :=
  [(base, Dir); (subject_dir, Dir); (session_dir, Dir);
   (fmap_dir, Dir); (func_dir, Dir);
   (path_join func_dir "sub-01_ses-001_task-rest_run-01_bold.nii.gz", File "bold 1");
   (path_join func_dir "sub-01_ses-001_task-rest_run-02_bold.nii.gz", File "bold 2");
   (path_join func_dir "sub-01_ses-001_task-rest_run-01_bold.json", File "meta");
   (path_join session_dir "sub-01_ses-001_scans.tsv", File "scans of session 001");
   (path_join session_dir "sub-01_ses-001_acq-anat_scans.tsv",
    File "scans without legacy names")].

(** A session as the converter leaves it. *)
Definition converted : world :=
  World (list_to_map
           (skeleton ++
            [(path_join fmap_dir "sub-01_ses-001_fieldmap1.nii.gz", File "magnitude image");
             (path_join fmap_dir "sub-01_ses-001_fieldmap2.nii.gz", File "phase image");
             (path_join fmap_dir "sub-01_ses-001_fieldmap2.json", File "sidecar with echo times")]))
        [].

(** The converted session after one run of the renamer. *)
Definition renamed_once : world :=
  World (list_to_map
           (skeleton ++
            [(path_join fmap_dir "sub-01_ses-001_magnitude.nii.gz", File "magnitude image");
             (path_join fmap_dir "sub-01_ses-001_fieldmap.nii.gz", File "phase image");
             (path_join fmap_dir "sub-01_ses-001_fieldmap.json", File "sidecar with echo times")]))
        [Renaming (path_join fmap_dir "sub-01_ses-001_fieldmap1.nii.gz")
                  (path_join fmap_dir "sub-01_ses-001_magnitude.nii.gz");
         Renaming (path_join fmap_dir "sub-01_ses-001_fieldmap2.json")
                  (path_join fmap_dir "sub-01_ses-001_fieldmap.json");
         Renaming (path_join fmap_dir "sub-01_ses-001_fieldmap2.nii.gz")
                  (path_join fmap_dir "sub-01_ses-001_fieldmap.nii.gz")].

(** The same session with the magnitude image already in place. *)
Definition colliding : world :=
  World (list_to_map
           (skeleton ++
            [(path_join fmap_dir "sub-01_ses-001_fieldmap1.nii.gz", File "new magnitude");
             (path_join fmap_dir "sub-01_ses-001_magnitude.nii.gz", File "old magnitude")]))
        [].

(** A session whose twenty-first field-map output is still unrenamed. *)
Definition numbered : world :=
  World (list_to_map
           (skeleton ++
            [(path_join fmap_dir "sub-01_ses-001_fieldmap21.nii.gz", File "image 21")]))
        [].

(** The numbered session after one run of the renamer. *)
Definition numbered_once : world :=
  World (list_to_map
           (skeleton ++
            [(path_join fmap_dir "sub-01_ses-001_fieldmap1.nii.gz", File "image 21")]))
        [Renaming (path_join fmap_dir "sub-01_ses-001_fieldmap21.nii.gz")
                  (path_join fmap_dir "sub-01_ses-001_fieldmap1.nii.gz")].

(** A session with a file whose name carries both legacy tokens. *)
Definition two_tokens : world :=
  World (list_to_map
           (skeleton ++
            [(path_join fmap_dir "sub-01_ses-001_fieldmap1_fieldmap2.nii.gz", File "image")]))
        [].

(** A renamed session, its sidecar not yet patched. *)
Definition unpatched : world :=
  World (list_to_map
           (skeleton ++
            [(path_join fmap_dir "sub-01_ses-001_fieldmap.json", File "sidecar with echo times")]))
        [].

(** A renamed session, its sidecar patched. *)
Definition patched : world :=
  World (list_to_map
           (skeleton ++
            [(path_join fmap_dir "sub-01_ses-001_fieldmap.json", File "sidecar already patched")]))
        [].

End Sample.

(** ** Vocabulary for what a pass can do to the files *)

(** A computation that returns on every world: no exception escapes. *)
Definition returns {A : Type} (m : M A) : Prop :=
  forall w, exists a w', m w = (inr a, w').

(** The file system after a computation is related by [R] to the one
    before, whether the computation returns or raises. *)
Definition relates {A : Type} (R : relation fs) (m : M A) : Prop :=
  forall w, R (files w) (files (m w).2).

(** Between [t] and [t'] no entry appears or disappears: a path holds what
    it held, or it is a regular file of [K] that is still a regular file. *)
Definition rewritten_in_place (K : path -> Prop) (t t' : fs) : Prop :=
  forall p, t' !! p = t !! p \/ (K p /\ isfile t p = true /\ isfile t' p = true).

(** The manifests of the sessions of [subjects]: entries of a session
    directory matched by [*_scans.tsv]. *)
Definition scans_manifest (subjects : list string) (base_dir : path) (p : path)
    : Prop :=
  exists subject ses name,
    subject ∈ subjects /\
    startswith name "." = false /\ endswith name "_scans.tsv" = true /\
    p = path_join (path_join (path_join base_dir subject) ses) name.

(** The sidecars of the sessions of [subjects]. *)
Definition fieldmap_sidecar (subjects : list string) (base_dir : path) (p : path)
    : Prop :=
  exists subject ses,
    subject ∈ subjects /\
    p = path_join (path_join (path_join (path_join base_dir subject) ses) "fmap")
          (subject ++ "_" ++ ses ++ "_fieldmap.json").

(** One rename performed by the renamer: a regular file of a directory
    named [fmap] that matches a rule moves to its new, free name. *)
Definition rename_step (t t' : fs) : Prop :=
  exists ses_path n tn data,
    t !! path_join (path_join ses_path "fmap") n = Some (File data) /\
    rename_target n = Some tn /\
    t !! path_join (path_join ses_path "fmap") tn = None /\
    t' = renamed t (path_join (path_join ses_path "fmap") n)
                   (path_join (path_join ses_path "fmap") tn) data.

(** A step of the session generator yields nothing or a path right below
    the subject directory, and leaves the files alone. *)
Definition session_step (sp : path) (step : M (option path)) : Prop :=
  preserves_files step /\
  yields step (fun r => forall x, r = Some x -> exists ses, x = path_join sp ses).

(** ** Vocabulary for what a pass prints *)

(** What a dry run prints where an apply run prints [e]. *)
Definition preview (e : event) : event :=
  match e with
  | Renaming src dst => WouldRename src dst
  | UpdatingTsv n tsv_file => WouldUpdateTsv n tsv_file
  | UpdatingJson json_path => WouldUpdateJson json_path
  | other => other
  end.

(** The document the sidecar updater computes from [members]. *)
Definition patched_members (intended_for : list string) (b0_identifier : string)
    (members : dict) : dict :=
  dict_set "B0FieldIdentifier" (JString b0_identifier)
    (dict_set "IntendedFor" (JArray (map JString intended_for)) members).

(** A computation only appends to the trace, and every event it prints
    satisfies [E], whether it returns or raises. *)
Definition prints {A : Type} (E : event -> Prop) (m : M A) : Prop :=
  forall w, exists evs, trace (m w).2 = (trace w ++ evs)%list /\ Forall E evs.

(** Events a run in the given mode may print: a dry run announces, an
    apply run acts. *)
Definition mode_event (dry_run : bool) (e : event) : bool :=
  match e with
  | Renaming _ _ | UpdatingTsv _ _ | UpdatingJson _ => negb dry_run
  | WouldRename _ _ | WouldUpdateTsv _ _ | WouldUpdateJson _ => dry_run
  | _ => true
  end.

(** Cells of a [filename] column that the two substitutions change, and
    cells that hold no value. *)
Definition rewritten_cells (cells : list (option string)) : nat :=
  length (List.filter (fun c => match c with
                                | Some s => negb (String.eqb (rewrite_name s) s)
                                | None => false
                                end) cells).

Definition missing_cells (cells : list (option string)) : nat :=
  length (List.filter (fun c => match c with None => true | Some _ => false end)
                      cells).

(** What a verdict says of the file: it is left as it is, it is rewritten
    in full, or it was opened for writing and the write failed, which may
    leave it as it was, empty or partial. *)
Inductive effect := Untouched | Rewritten | Interrupted.

Definition effect_on (p : path) (k : effect) (t t' : fs) : Prop :=
  match k with
  | Untouched => t' = t
  | Rewritten =>
      exists data data', t !! p = Some (File data) /\ t' = <[p := File data']> t
  | Interrupted =>
      isfile t p = true /\ isfile t' p = true /\
      forall q, q <> p -> t' !! q = t !! q
  end.

(** The reports one manifest can get, and what they say of the file. *)
Inductive scans_verdict (dry_run : bool) (tsv_file : path)
    : list event -> effect -> Prop :=
| scans_unreadable e :
    scans_verdict dry_run tsv_file [ErrorProcessing tsv_file e] Untouched
| scans_no_column :
    scans_verdict dry_run tsv_file [FilenameColumnMissing tsv_file] Untouched
| scans_unchanged :
    scans_verdict dry_run tsv_file [NoChangesNeeded tsv_file] Untouched
| scans_would_update n :
    dry_run = true ->
    scans_verdict dry_run tsv_file [WouldUpdateTsv n tsv_file] Untouched
| scans_updated n :
    dry_run = false ->
    scans_verdict dry_run tsv_file [UpdatingTsv n tsv_file] Rewritten
| scans_write_failed n e :
    dry_run = false ->
    scans_verdict dry_run tsv_file
      [UpdatingTsv n tsv_file; ErrorProcessing tsv_file e] Interrupted.

(** The reports one sidecar can get, and what they say of the file. *)
Inductive sidecar_verdict (dry_run : bool) (json_path : path)
    : list event -> effect -> Prop :=
| sidecar_unreadable e :
    sidecar_verdict dry_run json_path [ErrorUpdating json_path e] Untouched
| sidecar_unchanged :
    sidecar_verdict dry_run json_path [NoChangesNeeded json_path] Untouched
| sidecar_would_update :
    dry_run = true ->
    sidecar_verdict dry_run json_path [WouldUpdateJson json_path] Untouched
| sidecar_updated :
    dry_run = false ->
    sidecar_verdict dry_run json_path [UpdatingJson json_path] Rewritten
| sidecar_write_failed e :
    dry_run = false ->
    sidecar_verdict dry_run json_path
      [UpdatingJson json_path; ErrorUpdating json_path e] Interrupted.

(** A dry run previews an apply run started on the same world: same
    result, and the trace of the dry run is that of the apply run with
    every action replaced by its announcement. *)
Definition previews {A : Type} (dry apply : M A) (w : world) : Prop :=
  (dry w).1 = (apply w).1 /\
  exists evs, trace (apply w).2 = (trace w ++ evs)%list /\
              trace (dry w).2 = (trace w ++ map preview evs)%list.

(** What each pass may print about the sessions of [subjects]. *)
Definition session_report (subjects : list string) (base_dir : path) (e : event)
    : Prop :=
  match e with
  | DirectoryNotFound p =>
      exists subject, subject ∈ subjects /\ p = path_join base_dir subject
  | SessionNotFound p =>
      exists subject ses,
        subject ∈ subjects /\ p = path_join (path_join base_dir subject) ses
  | _ => False
  end.

Definition rename_report (subjects : list string) (base_dir : path) (e : event)
    : Prop :=
  match e with
  | SkipRename src dst | WouldRename src dst | Renaming src dst =>
      exists subject ses n tn,
        subject ∈ subjects /\ rename_target n = Some tn /\
        let fmap_dir :=
          path_join (path_join (path_join base_dir subject) ses) "fmap" in
        src = path_join fmap_dir n /\ dst = path_join fmap_dir tn
  | _ => session_report subjects base_dir e
  end.

Definition scans_report (subjects : list string) (base_dir : path) (e : event)
    : Prop :=
  match e with
  | FilenameColumnMissing p | NoChangesNeeded p | WouldUpdateTsv _ p
  | UpdatingTsv _ p | ErrorProcessing p _ => scans_manifest subjects base_dir p
  | _ => session_report subjects base_dir e
  end.

Definition json_report (subjects : list string) (base_dir : path) (e : event)
    : Prop :=
  match e with
  | MissingFuncOrFmap p =>
      exists subject ses,
        subject ∈ subjects /\ p = path_join (path_join base_dir subject) ses
  | NoFieldmapJson fmap_dir p =>
      fieldmap_sidecar subjects base_dir p /\
      exists name, p = path_join fmap_dir name
  | NoChangesNeeded p | WouldUpdateJson p | UpdatingJson p | ErrorUpdating p _ =>
      fieldmap_sidecar subjects base_dir p
  | _ => session_report subjects base_dir e
  end.

(** Every exception a computation raises satisfies [X]. *)
Definition throws {A : Type} (X : exn -> Prop) (m : M A) : Prop :=
  forall w e w', m w = (inl e, w') -> X e.

(** ** The command line of [post_process_cli.py] *)

Module Cli.

(** The [argparse.Namespace] built by [build_parser().parse_args()]. *)
Record namespace := Namespace {
  base_dir : path;
  subjects : list string;
  sessions : option (list string);
  b0_identifier : string;
  dry_run : bool;
  rename_files : bool;
  update_scans : bool;
  update_json : bool;
  sudo : bool
}.

(** The process and its host: [hasattr(os, "geteuid")], [os.geteuid()],
    [sys.executable], [os.path.abspath(__file__)], [sys.argv], and what
    [subprocess.run(cmd)] does to the world, with the exit status of the
    child, or [None] when the child cannot be started. *)
Record host := Host {
  has_geteuid : bool;
  geteuid : nat;
  executable : string;
  script_path : string;
  argv : list string;
  subprocess_run : list string -> world -> option nat * world
}.

(** How the process ends: [main] returns, an exception of a pass escapes,
    [SystemExit] is raised, or [subprocess.run(..., check=True)] raises. *)
Inductive outcome :=
| Returned (code : nat)
| Uncaught (e : exn)
| SystemExit (code : nat)
| CalledProcessError (cmd : list string) (returncode : nat).

(** A run of the command line: how it ends, the lines it prints besides
    the events of the passes, and the world it leaves. *)
Record run := Run {
  status : outcome;
  banner : list string;
  after : world
}.

Definition rerun_command (H : host) : list string :=
  (["sudo"; "-E"; executable H; script_path H] ++ tail (argv H))%list.

(** [_maybe_rerun_with_sudo(args)]: [None] when it returns. *)
Definition _maybe_rerun_with_sudo (H : host) (args : namespace) (w : world)
    : option run :=
  if negb (has_geteuid H) then None
  else if negb (sudo args) then None
  else if Nat.eqb (geteuid H) 0 then None
  else
    let cmd := rerun_command H in
    let lines := ["Re-running with sudo:"; "  " ++ join " " cmd] in
    match subprocess_run H cmd w with
    | (Some 0, w') => Some (Run (SystemExit 0) lines w')
    | (Some returncode, w') => Some (Run (CalledProcessError cmd returncode) lines w')
    | (None, w') => Some (Run (Uncaught OSError) lines w')
    end.

Section Main.
Variable P : platform.

(** The body of [main] after the privilege check; it returns the exit
    status. *)
Definition main_steps (args : namespace) : M nat :=
  let subjects := map normalize_subject (subjects args) in
  let sessions_filter :=
    match sessions args with
    | Some ((_ :: _) as requested) => Some (map normalize_session requested)
    | _ => None
    end in
  let run_any := rename_files args || update_scans args || update_json args in
  let run_rename := rename_files args || negb run_any in
  let run_scans := update_scans args || negb run_any in
  let run_json := update_json args || negb run_any in
  (if run_rename
   then rename_fieldmap_files P subjects (base_dir args) sessions_filter
          (dry_run args)
   else ret tt) >>
  (if run_scans
   then update_scans_tsv P subjects (base_dir args) sessions_filter
          (dry_run args)
   else ret tt) >>
  (if run_json
   then update_fieldmap_json P subjects (base_dir args) sessions_filter
          (b0_identifier args) (dry_run args)
   else ret tt) >>
  ret 0.

Definition main (H : host) (args : namespace) (w : world) : run :=
  match _maybe_rerun_with_sudo H args w with
  | Some r => r
  | None =>
      match main_steps args w with
      | (inr code, w') => Run (Returned code) [] w'
      | (inl e, w') => Run (Uncaught e) [] w'
      end
  end.

End Main.

(** The namespace with other step flags, and with other identifiers. *)
Definition with_steps (rename scans json : bool) (args : namespace) : namespace :=
  Namespace (base_dir args) (subjects args) (sessions args) (b0_identifier args)
            (dry_run args) rename scans json (sudo args).

Definition with_ids (subs : list string) (sess : option (list string))
    (args : namespace) : namespace :=
  Namespace (base_dir args) subs sess (b0_identifier args)
            (dry_run args) (rename_files args) (update_scans args)
            (update_json args) (sudo args).

End Cli.

Module Fixtures.

Definition echo_times : dict :=
  [("EchoTime1", JNumber "0.00492"); ("EchoTime2", JNumber "0.00738")].

(** A manifest whose second row has no file name. *)
Definition gap_table : dataframe :=
  [("filename",
    StrColumn [Some "fmap/sub-01_ses-001_fieldmap1.nii.gz";
               None;
               Some "anat/sub-01_ses-001_T1w.nii.gz"]);
   ("acq_time",
    StrColumn [Some "2026-02-03T10:15:00"; Some "2026-02-03T10:20:00"; None])].

(** Codecs that read back the sidecar they write, read an empty JSON
    array, and read the manifest with a gap; [dict([])] is the empty
    dict. *)
Definition lab : platform :=
  {| os_sep := "/";
     listdir_denied := fun _ => false;
     rename_denied := fun _ _ => false;
     read_denied := fun _ => false;
     write_denied := fun _ => false;
     json_load := fun text =>
       if String.eqb text "sidecar with echo times"
       then Some (JObject echo_times)
       else if String.eqb text "patched sidecar"
       then Some (JObject (patched_members [Sample.fmap_intended] "b0map_fmap0"
                             echo_times))
       else if String.eqb text "[]" then Some (JArray [])
       else None;
     json_dump := fun _ => "patched sidecar";
     dict_of_iterable := fun v =>
       match v with
       | JArray [] => Some []
       | _ => None
       end;
     read_csv := fun text =>
       if String.eqb text "scans with a gap" then Some gap_table else None;
     to_csv := fun _ => "patched scans" |}.

Definition sidecar_path : path :=
  path_join Sample.fmap_dir "sub-01_ses-001_fieldmap.json".

Definition scans_path : path :=
  path_join Sample.session_dir "sub-01_ses-001_scans.tsv".

Definition lone_sidecar : world :=
  World {[ sidecar_path := File "sidecar with echo times" ]} [].

Definition array_sidecar : world :=
  World {[ sidecar_path := File "[]" ]} [].

Definition gappy_manifest : world :=
  World {[ scans_path := File "scans with a gap" ]} [].

(** A workstation where the user is not root and [sudo] succeeds without
    touching the files. *)
Definition workstation : Cli.host :=
  {| Cli.has_geteuid := true;
     Cli.geteuid := 1000;
     Cli.executable := "/usr/bin/python3";
     Cli.script_path := "/opt/slpmd/src/data_to_bids/post_process_cli.py";
     Cli.argv := ["post_process_cli.py"; "-b"; "bids"; "-s"; "01"; "--dry-run"];
     Cli.subprocess_run := fun _ w => (Some 0, w) |}.

(** [-b bids -s 01 --dry-run] *)
Definition preview_all : Cli.namespace :=
  {| Cli.base_dir := ["bids"];
     Cli.subjects := ["01"];
     Cli.sessions := None;
     Cli.b0_identifier := "b0map_fmap0";
     Cli.dry_run := true;
     Cli.rename_files := false;
     Cli.update_scans := false;
     Cli.update_json := false;
     Cli.sudo := false |}.

(** [-b bids -s 01 -e 001 --rename-files] *)
Definition rename_only : Cli.namespace :=
  {| Cli.base_dir := ["bids"];
     Cli.subjects := ["01"];
     Cli.sessions := Some ["001"];
     Cli.b0_identifier := "b0map_fmap0";
     Cli.dry_run := false;
     Cli.rename_files := true;
     Cli.update_scans := false;
     Cli.update_json := false;
     Cli.sudo := false |}.

(** [-b bids -s 01 --sudo] *)
Definition elevated : Cli.namespace :=
  {| Cli.base_dir := ["bids"];
     Cli.subjects := ["01"];
     Cli.sessions := None;
     Cli.b0_identifier := "b0map_fmap0";
     Cli.dry_run := false;
     Cli.rename_files := false;
     Cli.update_scans := false;
     Cli.update_json := false;
     Cli.sudo := true |}.

End Fixtures.


(** ** Names on which the path and glob model is exact *)

(** The passes hand [glob.glob] the whole joined path, and [glob] reads
    every component of it as a pattern; [os.path.join] and the file system
    read a name with a separator in it, an empty name, [.] and [..] as
    something else than one entry of the directory.  The properties that
    say which directories and files a pass reaches are stated for names
    free of all that. *)

(** A name [glob] takes literally: it holds none of the characters that
    make a pattern, the star, the question mark and the opening bracket. *)
Definition glob_literal (s : string) : bool :=
  negb (contains "*" s) && negb (contains "?" s) && negb (contains "[" s).

(** A name that is one entry of the directory it is joined to: not empty,
    not [.] nor [..], free of the slash and of the host separator and, on
    a host whose separator is not the slash, of the drive colon. *)
Definition single_component (P : platform) (s : string) : bool :=
  negb (String.eqb s EmptyString) && negb (String.eqb s ".") &&
  negb (String.eqb s "..") &&
  negb (contains "/" s) && negb (contains (os_sep P) s) &&
  (String.eqb (os_sep P) "/" || negb (contains ":" s)).

Definition plain_name (P : platform) (s : string) : bool :=
  single_component P s && glob_literal s.

Definition ascii_lower (c : ascii) : ascii :=
  let n := nat_of_ascii c in
  if Nat.leb 65 n && Nat.leb n 90 then ascii_of_nat (n + 32) else c.

Fixpoint lower (s : string) : string :=
  match s with
  | EmptyString => EmptyString
  | String c s' => String (ascii_lower c) (lower s')
  end.

(** [os.path.normcase(s)] for a name, through which [fnmatch] compares
    names with patterns: the name itself on a POSIX host, where the
    separator is the slash, and the name with its ASCII letters in lower
    case on a host with another separator. *)
Definition normcase (P : platform) (s : string) : string :=
  if String.eqb (os_sep P) "/" then s else lower s.

(** Folding the case of [s] does not make it match a pattern of the
    passes that it does not match as written. *)
Definition exact_case (P : platform) (s : string) : bool :=
  Bool.eqb (startswith (normcase P s) "ses-") (startswith s "ses-") &&
  Bool.eqb (endswith (normcase P s) "_scans.tsv") (endswith s "_scans.tsv") &&
  Bool.eqb (endswith (normcase P s) "_bold.nii.gz") (endswith s "_bold.nii.gz").

(** A directory whose path is made of plain names and whose entries
    match the patterns in their own case. *)
Definition plain_dir (P : platform) (t : fs) (dir : path) : bool :=
  forallb (plain_name P) dir && forallb (exact_case P) (entries t dir).

(** A tree in which every name is taken literally by [glob] and matches
    the patterns in its own case. *)
Definition plain_tree (P : platform) (t : fs) : Prop :=
  map_Forall (fun (k : path) (_ : node) =>
                forallb (fun c => glob_literal c && exact_case P c) k = true) t.

(** A run on plain names: the components of the dataset root, the
    subjects, the requested sessions and every name in the tree. *)
Definition well_named (P : platform) (base_dir : path) (subjects : list string)
    (sessions_filter : option (list string)) (t : fs) : Prop :=
  forallb (plain_name P) base_dir = true /\
  forallb (plain_name P) subjects = true /\
  forallb (plain_name P) (default [] sessions_filter) = true /\
  plain_tree P t.

(** A rename the operating system refuses. *)
Definition refused (P : platform) (e : event) : bool :=
  match e with
  | Renaming src dst => rename_denied P src dst
  | _ => false
  end.

(** A computation stops at the first rename the operating system refuses:
    when it returns, every rename it announced was permitted; when it
    raises, the exception is [OSError], every rename announced before the
    last line was permitted, and if the last line announces a refused
    rename, the source is still in place and the destination still free. *)
Definition stops_at_refusal (P : platform) {A : Type} (m : M A) : Prop :=
  forall w, exists evs,
    trace (m w).2 = (trace w ++ evs)%list /\
    match (m w).1 with
    | inr _ => Forall (fun e => refused P e = false) evs
    | inl e =>
        e = OSError /\
        exists evs0,
          Forall (fun e => refused P e = false) evs0 /\
          (evs = evs0 \/
           exists src dst data,
             evs = (evs0 ++ [Renaming src dst])%list /\
             rename_denied P src dst = true /\
             files (m w).2 !! src = Some (File data) /\
             files (m w).2 !! dst = None)
    end.

(** [t'] is [t] with regular files moved inside their [fmap] directory:
    [place] sends the paths of [t] one to one onto the paths of [t'], a
    path holds at its new place what it held, and a path whose place
    changes is a regular file of a directory named [fmap] that stays in
    that directory.  Nothing is lost, overwritten or duplicated. *)
Definition moved_within_fmap (t t' : fs) : Prop :=
  exists place : path -> path,
    (forall p q, is_Some (t !! p) -> is_Some (t !! q) ->
                 place p = place q -> p = q) /\
    (forall p, is_Some (t !! p) -> t' !! place p = t !! p) /\
    (forall q, is_Some (t' !! q) -> exists p, is_Some (t !! p) /\ place p = q) /\
    (forall p, is_Some (t !! p) ->
       place p = p \/
       exists ses_path n n' data,
         t !! p = Some (File data) /\
         p = path_join (path_join ses_path "fmap") n /\
         place p = path_join (path_join ses_path "fmap") n').

(** ** The defaults of pandas on a table of text cells *)

(** [pandas.read_csv(f, sep="\t")] and [df.to_csv(f, sep="\t", index=False)]
    with their default arguments, for tab-separated text whose cells hold
    no tab, quote or line break and are not read as numbers or booleans:
    the first line names the columns, a cell that is one of the default
    missing-value markers is read as a missing value, and a missing value
    is written as an empty cell. *)
Module Pandas.

Definition tab : ascii := "009"%char.
Definition newline : ascii := "010"%char.

(** [s.split(sep)] for a one-character separator. *)
Fixpoint split_on (sep : ascii) (s : string) : list string :=
  match s with
  | EmptyString => [EmptyString]
  | String c s' =>
      if Ascii.eqb c sep then EmptyString :: split_on sep s'
      else match split_on sep s' with
           | x :: rest => String c x :: rest
           | [] => [String c EmptyString]
           end
  end.

(** The lines of a text; the line break that ends the text opens no line. *)
Definition lines (text : string) : list string :=
  let l := split_on newline text in
  match last l with
  | Some EmptyString => removelast l
  | _ => l
  end.

(** The text of a table given by rows. *)
Definition tsv_text (rows : list (list string)) : string :=
  String.concat EmptyString
    (map (fun row => String.concat (String tab EmptyString) row ++
                     String newline EmptyString) rows).

(** The markers [read_csv] takes for a missing value by default. *)
Definition na_values : list string :=
  [EmptyString; "#N/A"; "#N/A N/A"; "#NA"; "-1.#IND"; "-1.#QNAN"; "-NaN";
   "-nan"; "1.#IND"; "1.#QNAN"; "<NA>"; "N/A"; "NA"; "NULL"; "NaN"; "None";
   "n/a"; "nan"; "null"].

Definition read_cell (c : string) : option string :=
  if bool_decide (c ∈ na_values) then None else Some c.

(** A line shorter than the header is filled with missing values; a
    table with a line longer than the header is not read by this codec. *)
Definition read_csv (text : string) : option dataframe :=
  match map (split_on tab) (lines text) with
  | [] => None
  | header :: rows =>
      if forallb (fun row => Nat.leb (List.length row) (List.length header)) rows
      then Some (imap (fun i name =>
                         (name,
                          StrColumn (map (fun row => read_cell (nth i row EmptyString))
                                         rows)))
                      header)
      else None
  end.

Definition write_cell (col : column) (j : nat) : string :=
  match col with
  | StrColumn cells => default EmptyString (nth j cells None)
  | OtherColumn cells => nth j cells EmptyString
  end.

Definition height (df : dataframe) : nat :=
  match df with
  | (_, StrColumn cells) :: _ => List.length cells
  | (_, OtherColumn cells) :: _ => List.length cells
  | [] => 0
  end.

Definition to_csv (df : dataframe) : string :=
  tsv_text (map fst df ::
            map (fun j => map (fun c => write_cell (snd c) j) df)
                (seq 0 (height df))).

(** A host with these codecs. *)
Definition host : platform :=
  Platform "/" (fun _ => false) (fun _ _ => false) (fun _ => false)
           (fun _ => false) (fun _ => None) (fun _ => EmptyString)
           (fun _ => None) read_csv to_csv.

(** A manifest as BIDS writes it: the acquisition time of the second scan
    is not known, which BIDS marks [n/a]. *)
Definition manifest : string :=
  tsv_text [["filename"; "acq_time"];
            ["fmap/sub-01_ses-001_fieldmap1.nii.gz"; "2026-02-03T10:15:00"];
            ["func/sub-01_ses-001_task-rest_run-01_bold.nii.gz"; "n/a"]].

(** The same manifest with the one file name replaced. *)
Definition manifest_renamed : string :=
  tsv_text [["filename"; "acq_time"];
            ["fmap/sub-01_ses-001_magnitude.nii.gz"; "2026-02-03T10:15:00"];
            ["func/sub-01_ses-001_task-rest_run-01_bold.nii.gz"; "n/a"]].

(** What the pass writes. *)
Definition manifest_written : string :=
  tsv_text [["filename"; "acq_time"];
            ["fmap/sub-01_ses-001_magnitude.nii.gz"; "2026-02-03T10:15:00"];
            ["func/sub-01_ses-001_task-rest_run-01_bold.nii.gz"; EmptyString]].

Definition manifest_path : path :=
  ["bids"; "sub-01"; "ses-001"; "sub-01_ses-001_scans.tsv"].

End Pandas.


Module Refusals.

(** A host that refuses to rename the phase image, and nothing else. *)
Definition sticky : platform :=
  Platform "/" (fun _ => false)
    (fun src _ =>
       bool_decide (src = path_join Sample.fmap_dir "sub-01_ses-001_fieldmap2.nii.gz"))
    (fun _ => false) (fun _ => false)
    Sample.sample_json_load (fun _ => "patched sidecar") (fun _ => None)
    Sample.sample_read_csv (fun _ => "patched scans").

(** The converted session after its first two renames. *)
Definition two_renamed : world :=
  World (list_to_map
           (Sample.skeleton ++
            [(path_join Sample.fmap_dir "sub-01_ses-001_magnitude.nii.gz",
              File "magnitude image");
             (path_join Sample.fmap_dir "sub-01_ses-001_fieldmap2.nii.gz",
              File "phase image");
             (path_join Sample.fmap_dir "sub-01_ses-001_fieldmap.json",
              File "sidecar with echo times")]))
        [Renaming (path_join Sample.fmap_dir "sub-01_ses-001_fieldmap1.nii.gz")
                  (path_join Sample.fmap_dir "sub-01_ses-001_magnitude.nii.gz");
         Renaming (path_join Sample.fmap_dir "sub-01_ses-001_fieldmap2.json")
                  (path_join Sample.fmap_dir "sub-01_ses-001_fieldmap.json")].

End Refusals.


(** * Properties *)

(** ** Strings and identifiers *)

Lemma startswith_app pre s : startswith (pre ++ s) pre = true.
Proof. induction pre as [|a pre IH]; simpl; [done|]. by rewrite Ascii.eqb_refl. Qed.

Lemma replace_from_absent old new s :
  contains old s = false -> replace_from old new 0 s = s.
Proof.
  induction s as [|c s IH]; simpl.
  - destruct old; simpl; [discriminate | done].
  - intros H. apply orb_false_iff in H as [H1 H2].
    rewrite H1. f_equal. auto.
Qed.

(** C9.  [normalize_subject] and [normalize_session] are idempotent, and
    leave a token that already starts with its prefix as it is. *)
Theorem normalize_idempotent (x : string) :
    normalize_subject (normalize_subject x) = normalize_subject x
  /\ normalize_session (normalize_session x) = normalize_session x
  /\ (startswith x "sub-" = true -> normalize_subject x = x)
  /\ (startswith x "ses-" = true -> normalize_session x = x).
Proof.
  unfold normalize_subject, normalize_session. repeat split.
  - destruct (startswith x "sub-") eqn:E; [by rewrite E|]. by rewrite startswith_app.
  - destruct (startswith x "ses-") eqn:E; [by rewrite E|]. by rewrite startswith_app.
  - by intros ->.
  - by intros ->.
Qed.


(** ** Directory listings and sorting *)

Lemma child_name_spec dir k n : child_name dir k = Some n <-> k = path_join dir n.
Proof.
  unfold path_join. revert k. induction dir as [|d dir IH]; intros k; simpl.
  - destruct k as [|a [|b k]]; simpl; split; intros H; simplify_eq; done.
  - destruct k as [|c k]; [split; intros H; simplify_eq|].
    destruct (String.eqb_spec d c) as [->|Hne].
    + rewrite IH. split; intros H; simplify_eq; done.
    + split; intros H; simplify_eq.
Qed.

Lemma elem_of_entries (t : fs) dir n :
  n ∈ entries t dir <-> is_Some (t !! path_join dir n).
Proof.
  unfold entries. rewrite list_elem_of_omap. split.
  - intros (k & Hk & Hc). apply child_name_spec in Hc as ->.
    by apply elem_of_elements, elem_of_dom in Hk.
  - intros H. exists (path_join dir n). split.
    + by apply elem_of_elements, elem_of_dom.
    + by apply child_name_spec.
Qed.

Lemma NoDup_omap_inj {A B} (f : A -> option B) (l : list A) :
  (forall x y b, f x = Some b -> f y = Some b -> x = y) ->
  NoDup l -> NoDup (omap f l).
Proof.
  intros Hinj. induction 1 as [|x l Hx Hl IH]; simpl; [constructor|].
  destruct (f x) as [b|] eqn:E; [|done].
  constructor; [|done].
  rewrite list_elem_of_omap. intros (y & Hy & Hfy).
  by rewrite (Hinj _ _ _ E Hfy) in Hx.
Qed.

Lemma NoDup_entries (t : fs) dir : NoDup (entries t dir).
Proof.
  apply NoDup_omap_inj; [|apply NoDup_elements].
  intros x y b Hx Hy. apply child_name_spec in Hx, Hy. congruence.
Qed.

Lemma sorted_Sorted l : Sorted String.le (sorted l).
Proof. apply Sorted_merge_sort, _. Qed.

Lemma sorted_perm l : sorted l ≡ₚ l.
Proof. apply merge_sort_Permutation. Qed.

Lemma elem_of_sorted x l : x ∈ sorted l <-> x ∈ l.
Proof. by rewrite sorted_perm. Qed.

Lemma NoDup_sorted l : NoDup l -> NoDup (sorted l).
Proof. by rewrite sorted_perm. Qed.


(** ** The monad, and computations that leave the files alone *)



Create HintDb frame.

Lemma bind_get_files {B} (k : fs -> M B) w : bind get_files k w = k (files w) w.
Proof. reflexivity. Qed.

Lemma bind_ret_l {A B} (a : A) (k : A -> M B) w : bind (ret a) k w = k a w.
Proof. reflexivity. Qed.

Lemma bind_emit {B} e (k : unit -> M B) w :
  bind (emit e) k w = k tt (World (files w) (trace w ++ [e])).
Proof. reflexivity. Qed.

Lemma bind_raise {A B} e (k : A -> M B) w : bind (raise e) k w = (inl e, w).
Proof. reflexivity. Qed.

Lemma bind_assoc {A B C} (m : M A) (k : A -> M B) (h : B -> M C) w :
  bind (bind m k) h w = bind m (fun a => bind (k a) h) w.
Proof. unfold bind. by destruct (m w) as [[e|a] w1]. Qed.

Lemma bind_run {A B} (m : M A) (k : A -> M B) w a w' :
  m w = (inr a, w') -> bind m k w = k a w'.
Proof. unfold bind. by intros ->. Qed.

Lemma bind_fail {A B} (m : M A) (k : A -> M B) w e w' :
  m w = (inl e, w') -> bind m k w = (inl e, w').
Proof. unfold bind. by intros ->. Qed.

Lemma ret_inv {A} (a b : A) w w' : ret a w = (inr b, w') -> a = b /\ w = w'.
Proof. unfold ret. intros H. by simplify_eq. Qed.


Lemma preserves_ret {A} (a : A) : preserves_files (ret a).
Proof. by intros w. Qed.

Lemma preserves_raise {A} e : preserves_files (@raise A e).
Proof. by intros w. Qed.

Lemma preserves_get_files : preserves_files get_files.
Proof. by intros w. Qed.

Lemma preserves_emit e : preserves_files (emit e).
Proof. by intros w. Qed.

Lemma preserves_bind {A B} (m : M A) (k : A -> M B) :
  preserves_files m -> (forall a, preserves_files (k a)) ->
  preserves_files (bind m k).
Proof.
  intros Hm Hk w. unfold bind. specialize (Hm w).
  destruct (m w) as [[e|a] w1]; simpl in *; [done|].
  by rewrite Hk.
Qed.

Lemma preserves_bind_yields {A B} (m : M A) (k : A -> M B) (Q : A -> Prop) :
  preserves_files m -> yields m Q -> (forall a, Q a -> preserves_files (k a)) ->
  preserves_files (bind m k).
Proof.
  intros Hm HQ Hk w. unfold bind. specialize (Hm w). specialize (HQ w).
  destruct (m w) as [[e|a] w1]; simpl in *; [done|].
  rewrite Hk; eauto.
Qed.

Lemma preserves_try_except {A} (body : M A) handler :
  preserves_files body -> (forall e, preserves_files (handler e)) ->
  preserves_files (try_except body handler).
Proof.
  intros Hm Hk w. unfold try_except. specialize (Hm w).
  destruct (body w) as [[e|a] w1]; simpl in *; [|done].
  by rewrite Hk.
Qed.

Lemma preserves_for_each {A} (l : list A) (body : A -> M unit) :
  Forall (fun x => preserves_files (body x)) l ->
  preserves_files (for_each l body).
Proof.
  induction 1 as [|x l Hx Hl IH]; simpl.
  - apply preserves_ret.
  - by apply preserves_bind.
Qed.

Lemma preserves_for_gen {A} (gen : generator A) (body : A -> M unit) :
  preserves_files gen -> yields gen (Forall preserves_files) ->
  (forall x, preserves_files (body x)) ->
  preserves_files (for_gen gen body).
Proof.
  intros Hg Hs Hb. unfold for_gen.
  apply (preserves_bind_yields _ _ _ Hg Hs). intros steps Hsteps.
  apply preserves_for_each. eapply Forall_impl; [exact Hsteps|].
  intros step Hstep. apply preserves_bind; [done|].
  intros [x|]; [apply Hb | apply preserves_ret].
Qed.

Lemma preserves_lift {A} (r : exn + A) : preserves_files (lift r).
Proof. destruct r; [apply preserves_raise | apply preserves_ret]. Qed.

Lemma preserves_decode {A} (r : option A) : preserves_files (decode r).
Proof. destruct r; [apply preserves_ret | apply preserves_raise]. Qed.

#[export] Hint Resolve preserves_ret preserves_raise preserves_get_files
  preserves_emit preserves_lift preserves_decode : frame.

Ltac frame :=
  repeat first
    [ progress auto with frame
    | match goal with
      | |- preserves_files (bind _ _) => apply preserves_bind; [|intros ?]
      | |- preserves_files (try_except _ _) =>
          apply preserves_try_except; [|intros ?]
      | |- preserves_files (if ?b then _ else _) => destruct b
      | |- preserves_files (match ?x with _ => _ end) => destruct x
      | |- preserves_files (let _ := _ in _) => cbv zeta
      end ].

Section FrameP.
Variable P : platform.

Lemma preserves_os_listdir dir : preserves_files (os_listdir P dir).
Proof. unfold os_listdir. frame. Qed.

Lemma preserves_read_text p : preserves_files (read_text P p).
Proof. unfold read_text. frame. Qed.

Lemma preserves_py_dict j : preserves_files (py_dict P j).
Proof. unfold py_dict. frame. Qed.

#[local] Hint Resolve preserves_os_listdir preserves_read_text preserves_py_dict : frame.

Lemma iter_session_paths_preserves sp flt :
  preserves_files (iter_session_paths P sp flt).
Proof. unfold iter_session_paths. frame. Qed.

Lemma iter_session_paths_steps sp flt :
  yields (iter_session_paths P sp flt) (Forall preserves_files).
Proof.
  intros w steps w'. unfold iter_session_paths.
  destruct flt as [[|ses l]|]; rewrite ?bind_get_files;
    intros [<- <-]%ret_inv;
    apply Forall_fmap, Forall_forall; intros x _; simpl; frame.
Qed.

Lemma for_sessions_preserves sp flt body :
  (forall x, preserves_files (body x)) ->
  preserves_files (for_gen (iter_session_paths P sp flt) body).
Proof.
  intros. apply preserves_for_gen;
    auto using iter_session_paths_preserves, iter_session_paths_steps.
Qed.

Lemma rename_dry_run subjects base flt :
  preserves_files (rename_fieldmap_files P subjects base flt true).
Proof.
  unfold rename_fieldmap_files. apply preserves_for_each, Forall_forall.
  intros subject _. frame. apply for_sessions_preserves. intros ses.
  unfold rename_in_session. frame.
  apply preserves_for_each, Forall_forall. intros n _.
  unfold rename_file. frame.
Qed.

Lemma scans_dry_run subjects base flt :
  preserves_files (update_scans_tsv P subjects base flt true).
Proof.
  unfold update_scans_tsv. apply preserves_for_each, Forall_forall.
  intros subject _. frame. apply for_sessions_preserves. intros ses.
  frame. apply preserves_for_each, Forall_forall. intros n _.
  unfold update_scans_file. frame.
Qed.

Lemma json_dry_run subjects base flt b0 :
  preserves_files (update_fieldmap_json P subjects base flt b0 true).
Proof.
  unfold update_fieldmap_json. apply preserves_for_each, Forall_forall.
  intros subject _. frame. apply for_sessions_preserves. intros ses.
  unfold update_json_in_session. frame.
  unfold update_sidecar. frame.
Qed.
(** C2.  With [dry_run = True] none of the three passes changes the file
    system, for every snapshot and every combination of arguments, whether
    the pass returns or raises: nothing is renamed, written, created or
    deleted. *)
Theorem dry_run_never_mutates (subjects : list string) (base_dir : path)
    (sessions_filter : option (list string)) (b0_identifier : string)
    (w : world) :
  files (rename_fieldmap_files P subjects base_dir sessions_filter true w).2 =
    files w /\
  files (update_scans_tsv P subjects base_dir sessions_filter true w).2 =
    files w /\
  files (update_fieldmap_json P subjects base_dir sessions_filter
           b0_identifier true w).2 = files w.
Proof.
  split; [apply rename_dry_run|]. split; [apply scans_dry_run|].
  apply json_dry_run.
Qed.

End FrameP.


(** ** Plain names *)

Example glob_reads_brackets_as_a_pattern :
  glob_literal "sub-[01]" = false /\ glob_literal "sub-01" = true.
Proof. split; reflexivity. Qed.

Example a_trailing_separator_is_not_a_name :
  single_component Sample.posix "ses-001/" = false /\
  single_component Sample.posix EmptyString = false /\
  single_component Sample.posix "ses-001" = true.
Proof. repeat split; reflexivity. Qed.

Example the_sample_session_is_well_named :
  well_named Sample.posix Sample.base ["sub-01"] (Some ["ses-001"])
    (files Sample.converted).
Proof.
  repeat split; try reflexivity.
  apply (bool_decide_unpack _). vm_compute. exact I.
Qed.

Example the_sample_func_dir_is_plain :
  plain_dir Sample.posix (files Sample.converted) Sample.func_dir = true.
Proof. vm_compute. reflexivity. Qed.


(** ** Session resolution *)

Lemma isdir_Some (t : fs) p : isdir t p = true -> is_Some (t !! p).
Proof. unfold isdir. destruct (t !! p); eauto. done. Qed.

Lemma StronglySorted_filter_bool {A} (R : relation A) (f : A -> bool) l :
  StronglySorted R l -> StronglySorted R (List.filter f l).
Proof.
  induction 1 as [|x l Hl IH Hx]; simpl; [constructor|].
  destruct (f x); [|done]. constructor; [done|].
  apply Forall_forall. intros y Hy%list_elem_of_In%filter_In.
  destruct Hy as [Hy _]. rewrite Forall_forall in Hx. by apply Hx, list_elem_of_In.
Qed.

Lemma NoDup_filter_bool {A} (f : A -> bool) l : NoDup l -> NoDup (List.filter f l).
Proof.
  induction 1 as [|x l Hx Hl IH]; simpl; [constructor|].
  destruct (f x); [|done]. constructor; [|done].
  intros Hin%list_elem_of_In%filter_In. apply Hx, list_elem_of_In, Hin.
Qed.

Lemma elem_of_filter_bool {A} (f : A -> bool) l x :
  x ∈ List.filter f l <-> x ∈ l /\ f x = true.
Proof. by rewrite list_elem_of_In, filter_In, <-list_elem_of_In. Qed.

Lemma filter_map_comm {A B} (g : A -> B) (f : B -> bool) (l : list A) :
  List.filter f (map g l) = map g (List.filter (fun x => f (g x)) l).
Proof.
  induction l as [|x l IH]; simpl; [done|].
  destruct (f (g x)); simpl; by rewrite IH.
Qed.

Section Sessions.
Variable P : platform.

Lemma run_steps_explicit sp (requested : list string) w :
  run_steps
    (map (fun ses =>
            let ses_path := path_join sp ses in
            t <- get_files ;;
            if isdir t ses_path then ret (Some ses_path)
            else (emit (SessionNotFound ses_path) >> ret None)) requested) w =
  (inr (List.filter (isdir (files w)) (map (path_join sp) requested)),
   World (files w)
     (trace w ++ map SessionNotFound
        (List.filter (fun p => negb (isdir (files w) p))
                     (map (path_join sp) requested)))).
Proof.
  revert w. induction requested as [|ses l IH]; intros w; simpl.
  - unfold ret. rewrite app_nil_r. by destruct w.
  - rewrite bind_assoc, bind_get_files.
    destruct (isdir (files w) (path_join sp ses)) eqn:E; simpl.
    + rewrite bind_ret_l. erewrite bind_run by apply IH. done.
    + rewrite bind_assoc, bind_emit, bind_ret_l.
      erewrite bind_run by apply IH. simpl. by rewrite <-app_assoc.
Qed.

Lemma run_steps_discovered sp (names : list string) w :
  run_steps
    (map (fun name =>
            let ses_path := path_join sp name in
            t' <- get_files ;;
            ret (if isdir t' ses_path then Some ses_path else None)) names) w =
  (inr (List.filter (isdir (files w)) (map (path_join sp) names)), w).
Proof.
  induction names as [|n l IH]; simpl; [done|].
  rewrite bind_assoc, bind_get_files, bind_ret_l.
  erewrite bind_run by apply IH.
  by destruct (isdir (files w) (path_join sp n)).
Qed.

Lemma elem_of_glob_prefix (t : fs) dir pre n :
  isdir t dir = true -> listdir_denied P dir = false ->
  n ∈ glob_prefix P t dir pre <->
  is_Some (t !! path_join dir n) /\ startswith n pre = true.
Proof.
  intros Hd Hl. unfold glob_prefix. rewrite Hd, Hl. simpl.
  by rewrite elem_of_filter_bool, elem_of_entries.
Qed.

Lemma NoDup_glob_prefix (t : fs) dir pre : NoDup (glob_prefix P t dir pre).
Proof.
  unfold glob_prefix. destruct (_ && _); [|constructor].
  apply NoDup_filter_bool, NoDup_entries.
Qed.

Lemma collect_discovered sp w :
  isdir (files w) sp = true -> listdir_denied P sp = false ->
  exists names : list string,
    collect (iter_session_paths P sp None) w =
      (inr (map (path_join sp) names), w) /\
    StronglySorted String.le names /\ NoDup names /\
    forall n, n ∈ names <->
      startswith n "ses-" = true /\ isdir (files w) (path_join sp n) = true.
Proof.
  intros Hd Hl.
  exists (List.filter (fun n => isdir (files w) (path_join sp n))
            (sorted (glob_prefix P (files w) sp "ses-"))).
  split; [|split; [|split]].
  - unfold collect, iter_session_paths.
    rewrite bind_assoc, bind_get_files, bind_ret_l.
    rewrite run_steps_discovered. by rewrite filter_map_comm.
  - apply StronglySorted_filter_bool, Sorted_StronglySorted; [apply _|].
    apply sorted_Sorted.
  - apply NoDup_filter_bool, NoDup_sorted, NoDup_glob_prefix.
  - intros n. rewrite elem_of_filter_bool, elem_of_sorted, elem_of_glob_prefix by done.
    split; [tauto|]. intros [H1 H2]. auto using isdir_Some.
Qed.


(** C10.  An empty explicit session list is the same as no list.  For a
    subject directory that can be listed, whose path is made of plain
    names and whose entries match the pattern in their own case, the
    generator given the empty list yields exactly the sub-directories
    whose name starts with [ses-], in lexicographic order, as it does with
    no list at all, instead of yielding no session; and each of the three
    passes, given the empty list, is the pass given no list. *)
Theorem empty_filter_is_no_filter (sp : path) (subjects : list string)
    (base_dir : path) (b0 : string) (dry_run : bool) (w : world) :
  plain_dir P (files w) sp = true ->
  isdir (files w) sp = true -> listdir_denied P sp = false ->
  (exists names : list string,
     collect (iter_session_paths P sp (Some [])) w =
       (inr (map (path_join sp) names), w) /\
     collect (iter_session_paths P sp None) w =
       (inr (map (path_join sp) names), w) /\
     StronglySorted String.le names /\ NoDup names /\
     forall n, n ∈ names <->
       startswith n "ses-" = true /\ isdir (files w) (path_join sp n) = true) /\
  rename_fieldmap_files P subjects base_dir (Some []) dry_run =
    rename_fieldmap_files P subjects base_dir None dry_run /\
  update_scans_tsv P subjects base_dir (Some []) dry_run =
    update_scans_tsv P subjects base_dir None dry_run /\
  update_fieldmap_json P subjects base_dir (Some []) b0 dry_run =
    update_fieldmap_json P subjects base_dir None b0 dry_run.
Proof.
  intros _ Hd Hl. split; [|done].
  destruct (collect_discovered sp w Hd Hl) as (names & Hrun & Hsorted & Hnd & Hin).
  exists names. split; [|done].
  rewrite <- Hrun. unfold collect, iter_session_paths. done.
Qed.

End Sessions.


(** ** The file renamer *)

Lemma isfile_File (t : fs) p data : t !! p = Some (File data) -> isfile t p = true.
Proof. unfold isfile. by intros ->. Qed.

Lemma path_exists_None (t : fs) p : t !! p = None -> path_exists t p = false.
Proof. unfold path_exists. by intros ->. Qed.

Lemma path_exists_Some (t : fs) p : is_Some (t !! p) -> path_exists t p = true.
Proof. unfold path_exists. by intros [n ->]. Qed.

Section Renamer.
Variable P : platform.

Lemma rename_file_renames fmap_dir filename new_filename data w :
  files w !! path_join fmap_dir filename = Some (File data) ->
  rename_target filename = Some new_filename ->
  files w !! path_join fmap_dir new_filename = None ->
  rename_file P false fmap_dir filename w =
    if rename_denied P (path_join fmap_dir filename) (path_join fmap_dir new_filename)
    then (inl OSError,
          World (files w)
            (trace w ++ [Renaming (path_join fmap_dir filename)
                                  (path_join fmap_dir new_filename)]))
    else (inr tt,
          World (<[path_join fmap_dir new_filename := File data]>
                   (delete (path_join fmap_dir filename) (files w)))
            (trace w ++ [Renaming (path_join fmap_dir filename)
                                  (path_join fmap_dir new_filename)])).
Proof.
  intros Hsrc Htgt Hdst. unfold rename_file. cbv zeta.
  rewrite bind_get_files, (isfile_File _ _ _ Hsrc), Htgt. simpl.
  rewrite (path_exists_None _ _ Hdst), bind_emit.
  unfold os_rename. rewrite bind_get_files. simpl. rewrite Hsrc.
  by destruct (rename_denied P _ _).
Qed.

Lemma rename_file_skips dry_run fmap_dir filename new_filename data w :
  files w !! path_join fmap_dir filename = Some (File data) ->
  rename_target filename = Some new_filename ->
  is_Some (files w !! path_join fmap_dir new_filename) ->
  rename_file P dry_run fmap_dir filename w =
    (inr tt,
     World (files w)
       (trace w ++ [SkipRename (path_join fmap_dir filename)
                               (path_join fmap_dir new_filename)])).
Proof.
  intros Hsrc Htgt Hdst. unfold rename_file. cbv zeta.
  rewrite bind_get_files, (isfile_File _ _ _ Hsrc), Htgt. simpl.
  by rewrite (path_exists_Some _ _ Hdst).
Qed.

Lemma rename_file_untouched dry_run fmap_dir filename w :
  rename_target filename = None ->
  rename_file P dry_run fmap_dir filename w = (inr tt, w).
Proof.
  intros Htgt. unfold rename_file. cbv zeta.
  rewrite bind_get_files, Htgt. by destruct (isfile _ _).
Qed.

(** C6 (amended).  For a regular file of an [fmap] directory the renamer
    applies the first rule that matches and no other: a name containing
    [fieldmap1] has it replaced by [magnitude] and nothing else, also when
    the name contains [fieldmap2]; a name containing [fieldmap2] and not
    [fieldmap1] has it replaced by [fieldmap]; a name containing neither
    is left untouched.  In apply mode the file is renamed to the new name
    when that name is free and the operating system permits it. *)
Theorem rename_file_one_rule (fmap_dir : path) (filename data : string)
    (w : world) :
  files w !! path_join fmap_dir filename = Some (File data) ->
  let src := path_join fmap_dir filename in
  (contains "fieldmap1" filename = true ->
   let dst := path_join fmap_dir (replace filename "fieldmap1" "magnitude") in
   files w !! dst = None -> rename_denied P src dst = false ->
   rename_file P false fmap_dir filename w =
     (inr tt, World (<[dst := File data]> (delete src (files w)))
                    (trace w ++ [Renaming src dst]))) /\
  (contains "fieldmap1" filename = false ->
   contains "fieldmap2" filename = true ->
   let dst := path_join fmap_dir (replace filename "fieldmap2" "fieldmap") in
   files w !! dst = None -> rename_denied P src dst = false ->
   rename_file P false fmap_dir filename w =
     (inr tt, World (<[dst := File data]> (delete src (files w)))
                    (trace w ++ [Renaming src dst]))) /\
  (contains "fieldmap1" filename = false ->
   contains "fieldmap2" filename = false ->
   forall dry_run, rename_file P dry_run fmap_dir filename w = (inr tt, w)).
Proof.
  intros Hsrc src. repeat split.
  - intros H1 dst Hdst Hperm.
    rewrite (rename_file_renames _ _ (replace filename "fieldmap1" "magnitude") data);
      [fold src dst; by rewrite Hperm|done| |done].
    unfold rename_target. by rewrite H1.
  - intros H1 H2 dst Hdst Hperm.
    rewrite (rename_file_renames _ _ (replace filename "fieldmap2" "fieldmap") data);
      [fold src dst; by rewrite Hperm|done| |done].
    unfold rename_target. by rewrite H1, H2.
  - intros H1 H2 dry_run. apply rename_file_untouched.
    unfold rename_target. by rewrite H1, H2.
Qed.

End Renamer.


(** ** The IntendedFor list *)

Lemma rel_parts_app base rest : rel_parts (base ++ rest)%list base = rest.
Proof.
  induction base as [|x base IH]; simpl; [by destruct rest|].
  by rewrite String.eqb_refl.
Qed.

Lemma relpath_below base rest :
  rest <> [] -> relpath (base ++ rest)%list base = rest.
Proof. unfold relpath. rewrite rel_parts_app. by destruct rest. Qed.

Lemma str_app_cons x (a b : string) : String x a ++ b = String x (a ++ b).
Proof. reflexivity. Qed.

Lemma str_app_nil_l (s : string) : "" ++ s = s.
Proof. reflexivity. Qed.

Lemma str_app_assoc (a b c : string) : (a ++ b) ++ c = a ++ (b ++ c).
Proof.
  induction a as [|x a IH]; [done|]. by rewrite !str_app_cons, IH.
Qed.

Lemma startswith_nil s : startswith s "" = true.
Proof. by destruct s. Qed.

Lemma replace_char_app c new a b :
  replace (a ++ b) (String c EmptyString) new =
  replace a (String c EmptyString) new ++ replace b (String c EmptyString) new.
Proof.
  unfold replace. induction a as [|x a IH]; [done|].
  rewrite str_app_cons. simpl. rewrite ?startswith_nil.
  destruct (Ascii.eqb c x); simpl.
  - by rewrite IH, str_app_assoc.
  - by rewrite IH, str_app_cons.
Qed.

Lemma replace_char_self c new :
  replace (String c EmptyString) (String c EmptyString) new = new.
Proof.
  unfold replace. simpl. rewrite Ascii.eqb_refl. simpl.
  induction new as [|x new IH]; [done|]. by rewrite str_app_cons, IH.
Qed.


Lemma replace_absent s old new : contains old s = false -> replace s old new = s.
Proof. apply replace_from_absent. Qed.

Section IntendedFor.
Variable P : platform.

Lemma elem_of_glob_suffix (t : fs) dir suf n :
  isdir t dir = true -> listdir_denied P dir = false ->
  n ∈ glob_suffix P t dir suf <->
  is_Some (t !! path_join dir n) /\
  startswith n "." = false /\ endswith n suf = true.
Proof.
  intros Hd Hl. unfold glob_suffix. rewrite Hd, Hl. simpl.
  rewrite elem_of_filter_bool, elem_of_entries, andb_true_iff, negb_true_iff.
  tauto.
Qed.

Lemma NoDup_glob_suffix (t : fs) dir suf : NoDup (glob_suffix P t dir suf).
Proof.
  unfold glob_suffix. destruct (_ && _); [|constructor].
  apply NoDup_filter_bool, NoDup_entries.
Qed.

Lemma session_file_below base_dir subject ses sub name :
  path_join (path_join (path_join (path_join base_dir subject) ses) sub) name =
  (base_dir ++ [subject; ses; sub; name])%list.
Proof. unfold path_join. by rewrite <-!app_assoc. Qed.

Lemma intended_for_entry_posix base_dir subject ses name c :
  os_sep P = String c EmptyString ->
  contains (os_sep P) subject = false ->
  contains (os_sep P) ses = false ->
  contains (os_sep P) "func" = false ->
  contains (os_sep P) name = false ->
  intended_for_entry P base_dir
    (path_join (path_join (path_join (path_join base_dir subject) ses) "func") name) =
  "bids::" ++ subject ++ "/" ++ ses ++ "/func/" ++ name.
Proof.
  intros Hsep H1 H2 H3 H4. unfold intended_for_entry.
  rewrite session_file_below, relpath_below by done.
  cbn [join]. apply replace_absent with (new := "/") in H1, H2, H3, H4.
  rewrite Hsep in *.
  rewrite !replace_char_app, replace_char_self, H1, H2, H3, H4.
  done.
Qed.


End IntendedFor.


(** ** JSON values and dictionaries *)

Lemma try_except_ok {A} (body : M A) handler w a w' :
  body w = (inr a, w') -> try_except body handler w = (inr a, w').
Proof. unfold try_except. by intros ->. Qed.

Lemma try_except_caught {A} (body : M A) handler w e w' :
  body w = (inl e, w') -> try_except body handler w = handler e w'.
Proof. unfold try_except. by intros ->. Qed.

(** JSON equality *)

Lemma json_eqb_eq : forall a b, json_eqb a b = true -> a = b.
Proof.
  fix IH 1. intros [|x|x|x|xs|xs] [|y|y|y|ys|ys]; simpl; try done.
  - by intros ->%Bool.eqb_prop.
  - by intros ->%String.eqb_eq.
  - by intros ->%String.eqb_eq.
  - intros H. f_equal. revert ys H.
    induction xs as [|x xs IHxs]; intros [|y ys]; try done.
    intros [H1 H2]%andb_true_iff. f_equal; [by apply IH | by apply IHxs].
  - intros H. f_equal. revert ys H.
    induction xs as [|[k x] xs IHxs]; intros [|[k' y] ys]; try done.
    intros [[H0 H1]%andb_true_iff H2]%andb_true_iff.
    apply String.eqb_eq in H0 as ->. f_equal; [f_equal; by apply IH | by apply IHxs].
Qed.

Lemma json_eqb_refl : forall a, json_eqb a a = true.
Proof.
  fix IH 1. intros [|x|x|x|xs|xs]; simpl; try done.
  - by destruct x.
  - apply String.eqb_refl.
  - apply String.eqb_refl.
  - induction xs as [|x xs IHxs]; [done|]. by rewrite IH, IHxs.
  - induction xs as [|[k x] xs IHxs]; [done|].
    by rewrite String.eqb_refl, IH, IHxs.
Qed.

(** Dictionaries *)

Lemma dict_get_set_eq key value d : dict_get key (dict_set key value d) = Some value.
Proof.
  induction d as [|[k v] d IH]; simpl.
  - by rewrite String.eqb_refl.
  - destruct (String.eqb k key) eqn:E; simpl; by rewrite E.
Qed.

Lemma dict_get_set_ne key key' value d :
  key <> key' -> dict_get key' (dict_set key value d) = dict_get key' d.
Proof.
  intros Hne. induction d as [|[k v] d IH]; simpl.
  - by apply String.eqb_neq in Hne as ->.
  - destruct (String.eqb_spec k key) as [->|Hk]; simpl.
    + by apply String.eqb_neq in Hne as ->.
    + by rewrite IH.
Qed.

Lemma dict_set_position key value d i k v :
  d !! i = Some (k, v) -> k <> key -> dict_set key value d !! i = Some (k, v).
Proof.
  revert i. induction d as [|[k0 v0] d IH]; intros i Hi Hne; [done|]. simpl.
  destruct (String.eqb_spec k0 key) as [->|Hk].
  - destruct i; simpl in *; [by simplify_eq | done].
  - destruct i; simpl in *; [done | by apply IH].
Qed.

Lemma dict_set_same key value d :
  dict_get key d = Some value -> dict_set key value d = d.
Proof.
  induction d as [|[k v] d IH]; simpl; [done|].
  destruct (String.eqb k key); [by intros [= ->] | by intros ->%IH].
Qed.

Lemma dict_get_elem key value d : dict_get key d = Some value -> (key, value) ∈ d.
Proof.
  induction d as [|[k v] d IH]; simpl; [done|].
  destruct (String.eqb_spec k key) as [->|Hk].
  - intros [= ->]. left.
  - intros H. right. auto.
Qed.

Lemma dict_get_NoDup key value d :
  NoDup (map fst d) -> (key, value) ∈ d -> dict_get key d = Some value.
Proof.
  induction d as [|[k v] d IH]; simpl; [by intros _ ?%elem_of_nil|].
  intros [Hk Hd]%NoDup_cons [Heq|Hin]%elem_of_cons.
  - simplify_eq. by rewrite String.eqb_refl.
  - destruct (String.eqb_spec k key) as [->|Hne]; [|by apply IH].
    destruct Hk. apply list_elem_of_fmap. by exists (key, value).
Qed.

Lemma dict_eqb_refl d : NoDup (map fst d) -> dict_eqb d d = true.
Proof.
  intros Hd. unfold dict_eqb. rewrite Nat.eqb_refl. simpl.
  apply forallb_forall. intros [k v] Hin%list_elem_of_In. simpl.
  by rewrite (dict_get_NoDup _ _ _ Hd Hin), json_eqb_refl.
Qed.

Lemma dict_eqb_get a b key value :
  dict_eqb a b = true -> (key, value) ∈ a -> dict_get key b = Some value.
Proof.
  unfold dict_eqb. intros [_ H]%andb_true_iff Hin.
  rewrite forallb_forall in H. apply list_elem_of_In, H in Hin. simpl in Hin.
  destruct (dict_get key b) as [v|]; [|done]. by apply json_eqb_eq in Hin as ->.
Qed.


(** ** The sidecar updater *)

Section Sidecar.
Variable P : platform.

Lemma read_text_ok p text w :
  files w !! p = Some (File text) -> read_denied P p = false ->
  read_text P p w = (inr text, w).
Proof.
  intros Hf Hr. unfold read_text. rewrite bind_get_files, Hf, Hr. done.
Qed.

Lemma write_text_ok p text data w :
  files w !! p = Some (File text) -> write_denied P p = false ->
  write_text P p data w = (inr tt, World (<[p := File data]> (files w)) (trace w)).
Proof.
  intros Hf Hw. unfold write_text. rewrite bind_get_files, Hw, Hf. done.
Qed.

(** C3.  For a sidecar holding a JSON object, the document written is the
    original with [IntendedFor] and [B0FieldIdentifier] set to the computed
    values: every other key keeps its value and its position; and when
    both keys already hold the computed values nothing is written. *)
Theorem sidecar_update_is_merge (p : path) (text : string) (members : dict)
    (intended_for : list string) (b0 : string) (w : world) :
  files w !! p = Some (File text) ->
  read_denied P p = false ->
  json_load P text = Some (JObject members) ->
  let computed_list := JArray (map JString intended_for) in
  let computed_b0 := JString b0 in
  let new_data :=
    dict_set "B0FieldIdentifier" computed_b0
      (dict_set "IntendedFor" computed_list members) in
  (dict_get "IntendedFor" new_data = Some computed_list /\
   dict_get "B0FieldIdentifier" new_data = Some computed_b0 /\
   (forall key, key <> "IntendedFor" -> key <> "B0FieldIdentifier" ->
      dict_get key new_data = dict_get key members) /\
   (forall i key value, members !! i = Some (key, value) ->
      key <> "IntendedFor" -> key <> "B0FieldIdentifier" ->
      new_data !! i = Some (key, value))) /\
  (NoDup (map fst members) ->
   dict_get "IntendedFor" members = Some computed_list ->
   dict_get "B0FieldIdentifier" members = Some computed_b0 ->
   forall dry_run,
     update_sidecar P dry_run p intended_for b0 w =
       (inr tt, World (files w) (trace w ++ [NoChangesNeeded p]))) /\
  (~ (dict_get "IntendedFor" members = Some computed_list /\
      dict_get "B0FieldIdentifier" members = Some computed_b0) ->
   write_denied P p = false ->
   update_sidecar P false p intended_for b0 w =
     (inr tt, World (<[p := File (json_dump P (JObject new_data))]> (files w))
                    (trace w ++ [UpdatingJson p]))).
Proof.
  intros Hf Hr Hload computed_list computed_b0 new_data.
  assert (Hrun : forall dry_run,
    update_sidecar P dry_run p intended_for b0 w =
    try_except
      (if dict_eqb new_data members then emit (NoChangesNeeded p)
       else if dry_run then emit (WouldUpdateJson p)
       else (emit (UpdatingJson p) >>
             write_text P p (json_dump P (JObject new_data))))
      (fun e => emit (ErrorUpdating p e)) w).
  { intros dry_run. unfold update_sidecar, try_except.
    erewrite bind_run by (by apply read_text_ok).
    rewrite Hload. simpl. by rewrite !bind_ret_l. }
  split; [|split].
  - repeat split.
    + unfold new_data. rewrite dict_get_set_ne by done. apply dict_get_set_eq.
    + apply dict_get_set_eq.
    + intros key H1 H2. unfold new_data. by rewrite !dict_get_set_ne.
    + intros i key value Hi H1 H2. unfold new_data.
      by repeat apply dict_set_position.
  - intros Hnd H1 H2 dry_run. rewrite Hrun.
    assert (new_data = members) as ->.
    { unfold new_data. by rewrite (dict_set_same _ _ _ H1), (dict_set_same _ _ _ H2). }
    by rewrite dict_eqb_refl.
  - intros Hdiff Hw. rewrite Hrun.
    destruct (dict_eqb new_data members) eqn:E.
    + destruct Hdiff. split; apply (dict_eqb_get _ _ _ _ E), dict_get_elem.
      * unfold new_data. rewrite dict_get_set_ne by done. apply dict_get_set_eq.
      * apply dict_get_set_eq.
    + apply try_except_ok. rewrite bind_emit.
      by erewrite write_text_ok.
Qed.

End Sidecar.


(** ** The scan-table updater *)

Lemma df_set_names name col df :
  is_Some (df_get name df) -> map fst (df_set name col df) = map fst df.
Proof.
  induction df as [|[n c] df IH]; simpl; [by intros [? ?]|].
  destruct (String.eqb n name); simpl; [done|]. intros H. by rewrite IH.
Qed.

Lemma df_set_position name col df i n c :
  df !! i = Some (n, c) -> n <> name -> df_set name col df !! i = Some (n, c).
Proof.
  revert i. induction df as [|[n0 c0] df IH]; intros i Hi Hne; [done|]. simpl.
  destruct (String.eqb_spec n0 name) as [->|Hn].
  - destruct i; simpl in *; [by simplify_eq | done].
  - destruct i; simpl in *; [done | by apply IH].
Qed.

Lemma df_get_set_eq name col df : df_get name (df_set name col df) = Some col.
Proof.
  induction df as [|[n c] df IH]; simpl.
  - by rewrite String.eqb_refl.
  - destruct (String.eqb n name) eqn:E; simpl; by rewrite E.
Qed.

Lemma df_set_set name col col' df :
  df_set name col' (df_set name col df) = df_set name col' df.
Proof.
  induction df as [|[n c] df IH]; simpl.
  - by rewrite String.eqb_refl.
  - destruct (String.eqb n name) eqn:E; simpl; rewrite E; [done|by rewrite IH].
Qed.

Lemma map_option_map_id (f : string -> string) (cells : list (option string)) :
  (forall s, Some s ∈ cells -> f s = s) -> map (option_map f) cells = cells.
Proof.
  induction cells as [|[s|] cells IH]; intros H; simpl; [done| |].
  - rewrite H by left. rewrite IH; [done|]. intros s' Hs'. apply H. by right.
  - rewrite IH; [done|]. intros s' Hs'. apply H. by right.
Qed.

Section Scans.
Variable P : platform.


Lemma update_scans_file_unfold dry_run tsv text df cells w :
  files w !! tsv = Some (File text) -> read_denied P tsv = false ->
  read_csv P text = Some df ->
  df_get "filename" df = Some (StrColumn cells) ->
  update_scans_file P dry_run tsv w =
    let new_col := StrColumn (map (option_map rewrite_name) cells) in
    try_except
      (if column_equals new_col (StrColumn cells)
       then emit (NoChangesNeeded tsv)
       else
         if dry_run
         then emit (WouldUpdateTsv (count_ne new_col (StrColumn cells)) tsv)
         else (emit (UpdatingTsv (count_ne new_col (StrColumn cells)) tsv) >>
               write_text P tsv (to_csv P (df_set "filename" new_col df))))
      (fun e => emit (ErrorProcessing tsv e)) w.
Proof.
  intros Hf Hr Hcsv Hcol. unfold update_scans_file, try_except.
  erewrite bind_run by (by apply read_text_ok).
  rewrite Hcsv. cbn [decode]. rewrite bind_ret_l, Hcol.
  do 2 (cbn [str_replace lift]; rewrite bind_ret_l). cbv zeta.
  rewrite df_set_set, map_map.
  replace (map (fun x => option_map (fun s => replace s "fieldmap2" "fieldmap")
                   (option_map (fun s => replace s "fieldmap1" "magnitude") x)) cells)
    with (map (option_map rewrite_name) cells); [done|].
  apply map_ext. by intros [s|].
Qed.

(** The table the scan-table updater hands to the writer differs from the
    table the reader returned in the cells of the [filename] column only,
    where [fieldmap1] is replaced by [magnitude] and [fieldmap2] by
    [fieldmap]: same columns in the same order, the other columns
    unchanged and the rows in place; and when no [filename] value contains
    a legacy token the file is not written.  What reading and writing do
    to the text of the other columns is the codecs' business. *)
Lemma scans_update_touches_filename_only (tsv_file : path) (w : world) :
  (forall dry_run,
     (forall text df cells s,
        files w !! tsv_file = Some (File text) ->
        read_csv P text = Some df ->
        df_get "filename" df = Some (StrColumn cells) ->
        Some s ∈ cells ->
        contains "fieldmap1" s = false /\ contains "fieldmap2" s = false) ->
     files (update_scans_file P dry_run tsv_file w).2 = files w) /\
  (forall text df cells,
     files w !! tsv_file = Some (File text) ->
     read_denied P tsv_file = false ->
     write_denied P tsv_file = false ->
     read_csv P text = Some df ->
     df_get "filename" df = Some (StrColumn cells) ->
     let new_cells := map (option_map rewrite_name) cells in
     let new_df := df_set "filename" (StrColumn new_cells) df in
     new_cells <> cells ->
     update_scans_file P false tsv_file w =
       (inr tt,
        World (<[tsv_file := File (to_csv P new_df)]> (files w))
          (trace w ++ [UpdatingTsv (count_ne (StrColumn new_cells) (StrColumn cells))
                                   tsv_file])) /\
     map fst new_df = map fst df /\
     length new_cells = length cells /\
     df_get "filename" new_df = Some (StrColumn new_cells) /\
     (forall i name col, df !! i = Some (name, col) -> name <> "filename" ->
        new_df !! i = Some (name, col))).
Proof.
  split.
  - intros dry_run Hclean.
    destruct (files w !! tsv_file) as [[text|]|] eqn:Hf;
      [|unfold update_scans_file, try_except, read_text;
        rewrite bind_assoc, bind_get_files, Hf, bind_raise; done ..].
    destruct (read_denied P tsv_file) eqn:Hr.
    { unfold update_scans_file, try_except, read_text.
      by rewrite bind_assoc, bind_get_files, Hf, Hr. }
    destruct (read_csv P text) as [df|] eqn:Hcsv.
    2:{ unfold update_scans_file, try_except.
        erewrite bind_run by (by apply read_text_ok).
        by rewrite Hcsv. }
    destruct (df_get "filename" df) as [[cells|other]|] eqn:Hcol.
    + rewrite (update_scans_file_unfold _ _ text df cells) by done. cbv zeta.
      rewrite map_option_map_id.
      * unfold column_equals, try_except. by case_bool_decide.
      * intros s Hs. destruct (Hclean text df cells s) as [H1 H2]; try done.
        unfold rewrite_name. rewrite (replace_absent s "fieldmap1") by done.
        by apply replace_absent.
    + unfold update_scans_file, try_except.
      erewrite bind_run by (by apply read_text_ok).
      rewrite Hcsv. cbn [decode]. by rewrite bind_ret_l, Hcol.
    + unfold update_scans_file, try_except.
      erewrite bind_run by (by apply read_text_ok).
      rewrite Hcsv. cbn [decode]. by rewrite bind_ret_l, Hcol.
  - intros text df cells Hf Hr Hw Hcsv Hcol new_cells new_df Hchanged.
    repeat split.
    + rewrite (update_scans_file_unfold _ _ text df cells) by done. cbv zeta.
      fold new_cells. fold new_df.
      unfold column_equals. case_bool_decide; [congruence|].
      apply try_except_ok. rewrite bind_emit. by erewrite write_text_ok.
    + apply df_set_names. by rewrite Hcol.
    + unfold new_cells. by rewrite length_map.
    + apply df_get_set_eq.
    + intros i name col Hi Hne. by apply df_set_position.
Qed.

End Scans.

(** *** The manifest on disk *)

Example pandas_reads_the_manifest :
  Pandas.read_csv Pandas.manifest =
    Some [("filename",
           StrColumn [Some "fmap/sub-01_ses-001_fieldmap1.nii.gz";
                      Some "func/sub-01_ses-001_task-rest_run-01_bold.nii.gz"]);
          ("acq_time", StrColumn [Some "2026-02-03T10:15:00"; None])].
Proof. vm_compute. reflexivity. Qed.

(** C4.  On a manifest that marks an unknown acquisition time [n/a], the
    manifest pass, run with the defaults of pandas, replaces the file
    name and also empties the [n/a] cell of the other column: the text
    written is not the manifest with only its file name replaced. *)
Theorem scans_update_rewrites_other_columns :
  update_scans_file Pandas.host false Pandas.manifest_path
    (World {[ Pandas.manifest_path := File Pandas.manifest ]} []) =
    (inr tt,
     World {[ Pandas.manifest_path := File Pandas.manifest_written ]}
           [UpdatingTsv 1 Pandas.manifest_path]) /\
  Pandas.manifest_written <> Pandas.manifest_renamed.
Proof.
  split; apply (bool_decide_unpack _); vm_compute; exact I.
Qed.


(** ** Running the renamer twice *)








(** Hoare rules *)
Lemma hoare_ret {A : Type} (a : A) (pre : fs -> Prop) post :
  (forall t, pre t -> post a t) -> hoare pre (ret a) post.
Proof. intros H w a' w' Hpre [<- <-]%ret_inv. auto. Qed.

Lemma hoare_bind {A B : Type} (m : M A) (k : A -> M B) pre mid post :
  hoare pre m mid -> (forall a, hoare (mid a) (k a) post) ->
  hoare pre (bind m k) post.
Proof.
  intros Hm Hk w b w' Hpre. unfold bind.
  destruct (m w) as [[e|a] w1] eqn:E; [done|].
  intros Hrun. eapply Hk; [|exact Hrun]. eapply Hm; eauto.
Qed.

Lemma hoare_get_files pre :
  hoare pre get_files (fun t t' => t = t' /\ pre t').
Proof. intros w a w' Hpre. unfold get_files. intros H. by simplify_eq. Qed.

Lemma hoare_emit e pre : hoare pre (emit e) (fun _ => pre).
Proof. intros w a w' Hpre. unfold emit. intros H. by simplify_eq. Qed.

Lemma hoare_conseq {A : Type} (m : M A) (pre pre' : fs -> Prop) (post post' : A -> fs -> Prop) :
  hoare pre' m post' -> (forall t, pre t -> pre' t) ->
  (forall a t, post' a t -> post a t) -> hoare pre m post.
Proof. intros H H1 H2 w a w' Hpre Hrun. eapply H2, H; eauto. Qed.

Lemma hoare_for_each {A : Type} (body : A -> M unit) (I : list A -> list A -> fs -> Prop) l :
  (forall seen x rest, l = (seen ++ x :: rest)%list ->
     hoare (I seen (x :: rest)) (body x) (fun _ => I (seen ++ [x])%list rest)) ->
  hoare (I [] l) (for_each l body) (fun _ => I l []).
Proof.
  intros Hbody.
  enough (forall rest seen, l = (seen ++ rest)%list ->
            hoare (I seen rest) (for_each rest body) (fun _ => I l [])) as H
    by (by apply (H l [])).
  induction rest as [|x rest IH]; intros seen Hl; simpl.
  - rewrite app_nil_r in Hl. subst seen. by apply hoare_ret.
  - eapply hoare_bind; [by apply Hbody|]. intros [].
    apply IH. by rewrite <-app_assoc.
Qed.

Lemma for_each_map {A B : Type} (f : A -> B) (body : B -> M unit) l :
  for_each (map f l) body = for_each l (fun x => body (f x)).
Proof. induction l as [|x l IH]; simpl; [done|]. by rewrite IH. Qed.

(** quiet rules *)
Lemma quiet_ret {A : Type} t (a : A) (Q : A -> Prop) : Q a -> quiet t (ret a) Q.
Proof.
  intros HQ w <-. exists a, []. rewrite app_nil_r. by destruct w.
Qed.

Lemma quiet_bind {A B : Type} t (m : M A) (k : A -> M B) Q R :
  quiet t m Q -> (forall a, Q a -> quiet t (k a) R) -> quiet t (bind m k) R.
Proof.
  intros Hm Hk w Hw. destruct (Hm w Hw) as (a & evs & Hrun & Hevs & HQ).
  destruct (Hk a HQ (World t (trace w ++ evs)) eq_refl) as (b & evs' & Hrun' & Hevs' & HR).
  exists b, (evs ++ evs')%list. split; [|split; [|done]].
  - erewrite bind_run by exact Hrun. rewrite Hrun'. simpl. by rewrite app_assoc.
  - by apply Forall_app.
Qed.

Lemma quiet_get_files t : quiet t get_files (fun t' => t' = t).
Proof.
  intros w <-. exists (files w), []. rewrite app_nil_r. by destruct w.
Qed.

Lemma quiet_emit t e : is_report e = true -> quiet t (emit e) (fun _ => True).
Proof.
  intros He w <-. exists tt, [e]. repeat split. by constructor.
Qed.

Lemma quiet_for_each {A : Type} t (body : A -> M unit) l :
  (forall x, x ∈ l -> quiet t (body x) (fun _ => True)) ->
  quiet t (for_each l body) (fun _ => True).
Proof.
  induction l as [|x l IH]; intros H; simpl.
  - by apply quiet_ret.
  - eapply quiet_bind; [apply H; left|]. intros _ _. apply IH.
    intros y Hy. apply H. by right.
Qed.

Section Quiet.
Variable P : platform.

Lemma rename_file_nonfile dry_run fmap_dir filename w :
  isfile (files w) (path_join fmap_dir filename) = false ->
  rename_file P dry_run fmap_dir filename w = (inr tt, w).
Proof.
  intros Hf. unfold rename_file. cbv zeta. by rewrite bind_get_files, Hf.
Qed.

Lemma isfile_inv (t : fs) p :
  isfile t p = true -> exists data, t !! p = Some (File data).
Proof. unfold isfile. destruct (t !! p) as [[data|]|]; eauto; done. Qed.

Lemma elem_of_glob_prefix_inv (t : fs) dir pre n :
  n ∈ glob_prefix P t dir pre ->
  startswith n pre = true /\ listdir_denied P dir = false /\
  isdir t dir = true /\ is_Some (t !! path_join dir n).
Proof.
  unfold glob_prefix.
  destruct (isdir t dir) eqn:Hd, (listdir_denied P dir) eqn:Hl; simpl;
    try by intros ?%elem_of_nil.
  rewrite elem_of_filter_bool, elem_of_entries. tauto.
Qed.

Lemma quiet_ret_eq {A : Type} t (a : A) : quiet t (ret a) (fun x => x = a).
Proof. by apply quiet_ret. Qed.

Lemma quiet_for_each_map {A B : Type} t (f : A -> B) (body : B -> M unit) l :
  (forall x, x ∈ l -> quiet t (body (f x)) (fun _ => True)) ->
  quiet t (for_each (map f l) body) (fun _ => True).
Proof.
  intros H. apply quiet_for_each. intros y (x & -> & Hx)%list_elem_of_fmap. auto.
Qed.

Lemma rename_file_quiet t fmap_dir filename :
  settled t fmap_dir ->
  quiet t (rename_file P false fmap_dir filename) (fun _ => True).
Proof.
  intros Hs w <-.
  destruct (isfile (files w) (path_join fmap_dir filename)) eqn:Hf.
  - apply isfile_inv in Hf as [data Hf].
    destruct (rename_target filename) as [tn|] eqn:Ht.
    + exists tt, [SkipRename (path_join fmap_dir filename) (path_join fmap_dir tn)].
      split; [|split; [by constructor|done]].
      eapply rename_file_skips; eauto.
    + exists tt, []. rewrite app_nil_r. split; [|done].
      rewrite rename_file_untouched by done. by destruct w.
  - exists tt, []. rewrite app_nil_r. split; [|done].
    rewrite rename_file_nonfile by done. by destruct w.
Qed.

Lemma os_listdir_quiet t dir :
  isdir t dir = true -> listdir_denied P dir = false ->
  quiet t (os_listdir P dir) (fun names => names = entries t dir).
Proof.
  intros Hd Hl w <-. exists (entries (files w) dir), [].
  rewrite app_nil_r. split; [|done].
  unfold os_listdir. rewrite bind_get_files, Hd, Hl. by destruct w.
Qed.

Lemma rename_in_session_quiet t ses_path :
  (isdir t (path_join ses_path "fmap") = true ->
   settled t (path_join ses_path "fmap") /\
   listdir_denied P (path_join ses_path "fmap") = false) ->
  quiet t (rename_in_session P false ses_path) (fun _ => True).
Proof.
  intros Hgood. unfold rename_in_session. cbv zeta.
  eapply quiet_bind; [apply quiet_get_files|]. intros t' ->.
  destruct (isdir t (path_join ses_path "fmap")) eqn:Hd; simpl.
  - destruct Hgood as [Hs Hl]; [done|].
    eapply quiet_bind; [by apply os_listdir_quiet|]. intros names _.
    apply quiet_for_each. intros n _. by apply rename_file_quiet.
  - by apply quiet_ret.
Qed.

Lemma sessions_quiet t sp flt (body : path -> M unit) :
  (forall ses, selected P sp flt ses -> isdir t (path_join sp ses) = true ->
     quiet t (body (path_join sp ses)) (fun _ => True)) ->
  quiet t (for_gen (iter_session_paths P sp flt) body) (fun _ => True).
Proof.
  intros Hbody. unfold for_gen.
  assert (Hauto :
    (forall ses, startswith ses "ses-" = true -> listdir_denied P sp = false ->
       isdir t (path_join sp ses) = true ->
       quiet t (body (path_join sp ses)) (fun _ => True)) ->
    quiet t
      (steps <-
         (t0 <- get_files ;;
          ret (map (fun name =>
                      let ses_path := path_join sp name in
                      t' <- get_files ;;
                      ret (if isdir t' ses_path then Some ses_path else None))
                   (sorted (glob_prefix P t0 sp "ses-")))) ;;
       for_each steps (fun step =>
         r <- step ;; match r with Some x => body x | None => ret tt end))
      (fun _ => True)).
  { intros Hb.
    eapply quiet_bind.
    { eapply quiet_bind; [apply quiet_get_files|]. intros t' ->.
      apply quiet_ret_eq. }
    intros steps ->. apply quiet_for_each_map. intros n Hn%elem_of_sorted%elem_of_glob_prefix_inv.
    destruct Hn as (Hpre & Hl & Hd & Hex). cbv zeta.
    eapply quiet_bind.
    { eapply quiet_bind; [apply quiet_get_files|]. intros t' ->.
      apply quiet_ret_eq. }
    intros r ->. destruct (isdir t (path_join sp n)) eqn:E.
    - by apply Hb.
    - by apply quiet_ret. }
  unfold iter_session_paths. destruct flt as [[|ses0 l]|]; cbv beta iota.
  - apply Hauto. intros ses H1 H2. apply Hbody. by split.
  - eapply quiet_bind; [apply quiet_ret_eq|]. intros steps ->.
    apply quiet_for_each_map. intros ses Hses. cbv zeta.
    eapply quiet_bind with
      (Q := fun r => r = if isdir t (path_join sp ses)
                         then Some (path_join sp ses) else None).
    { eapply quiet_bind; [apply quiet_get_files|]. intros t' ->.
      destruct (isdir t (path_join sp ses)).
      - by apply quiet_ret.
      - eapply quiet_bind; [by apply quiet_emit|]. intros _ _. by apply quiet_ret. }
    intros r ->. destruct (isdir t (path_join sp ses)) eqn:E.
    + by apply Hbody.
    + by apply quiet_ret.
  - apply Hauto. intros ses H1 H2. apply Hbody. by split.
Qed.

Lemma rename_run_quiet t subjects base_dir flt :
  (forall dir, visited P t subjects base_dir flt dir ->
     settled t dir /\ listdir_denied P dir = false) ->
  quiet t (rename_fieldmap_files P subjects base_dir flt false) (fun _ => True).
Proof.
  intros Hgood. unfold rename_fieldmap_files.
  apply quiet_for_each. intros subject Hsub. cbv zeta.
  eapply quiet_bind; [apply quiet_get_files|]. intros t' ->.
  destruct (isdir t (path_join base_dir subject)) eqn:Hd; simpl.
  - apply sessions_quiet. intros ses Hsel Hses.
    apply rename_in_session_quiet. intros Hfmap. apply Hgood.
    exists subject, ses. done.
  - by apply quiet_emit.
Qed.

End Quiet.



Lemma path_join_inj dir dir' n n' :
  path_join dir n = path_join dir' n' -> dir = dir' /\ n = n'.
Proof. unfold path_join. intros H. apply app_inj_tail in H. naive_solver. Qed.

Lemma lookup_renamed (t : fs) src dst data k :
  (<[dst := File data]> (delete src t)) !! k =
  if decide (dst = k) then Some (File data)
  else if decide (src = k) then None else t !! k.
Proof. by rewrite lookup_insert, lookup_delete. Qed.

Section Settle.
Variable P : platform.
Variable D : path -> Prop.
Variable t0 : fs.

Lemma run_inv_weaken (S S' : path -> Prop) t :
  (forall dir, S' dir -> S dir) -> run_inv P D t0 S t -> run_inv P D t0 S' t.
Proof.
  intros HS (H1 & H2 & H3). split; [done|]. split; [done|].
  intros dir Hd. by apply H3, HS.
Qed.

Lemma run_inv_add (S : path -> Prop) dir t :
  run_inv P D t0 S t -> D dir -> settled t dir -> listdir_denied P dir = false ->
  run_inv P D t0 (fun d => S d \/ d = dir) t.
Proof.
  intros (H1 & H2 & H3) HD Hs Hl. split; [done|]. split; [done|].
  intros d [Hd| ->]; [by apply H3 | done].
Qed.

Section Renamed.
Context (t : fs) (dir : path) (n tn data : string).
Hypothesis Hfinal : final_targets D t.
Hypothesis HD : D dir.
Hypothesis Hsrc : t !! path_join dir n = Some (File data).
Hypothesis Htgt : rename_target n = Some tn.
Hypothesis Hdst : t !! path_join dir tn = None.

Local Abbreviation t' := (renamed t (path_join dir n) (path_join dir tn) data).

Lemma renamed_file_inv dir' n' data' tn' :
  D dir' ->
  t' !! path_join dir' n' = Some (File data') ->
  rename_target n' = Some tn' ->
  t !! path_join dir' n' = Some (File data') /\ path_join dir' n' <> path_join dir n.
Proof.
  unfold renamed. rewrite lookup_renamed. intros HD' Hl Ht'.
  destruct (decide (path_join dir tn = path_join dir' n')) as [Heq|Hne].
  - apply path_join_inj in Heq as [<- <-].
    rewrite (Hfinal _ _ _ _ HD Hsrc Htgt) in Ht'. done.
  - destruct (decide (path_join dir n = path_join dir' n')); [done|]. done.
Qed.

Lemma renamed_final : final_targets D t'.
Proof.
  intros dir' n' data' tn' HD' Hl Ht'.
  destruct (renamed_file_inv _ _ _ _ HD' Hl Ht') as [Hl0 _]. eauto.
Qed.

Lemma renamed_isdir p : isdir t' p = isdir t p.
Proof.
  unfold isdir, renamed. rewrite lookup_renamed.
  destruct (decide (path_join dir tn = p)) as [<-|]; [by rewrite Hdst|].
  destruct (decide (path_join dir n = p)) as [<-|]; [by rewrite Hsrc|done].
Qed.

Lemma renamed_settled dir' : D dir' -> settled t dir' -> settled t' dir'.
Proof.
  intros HD' Hs n' data' tn' Hl Ht'.
  destruct (renamed_file_inv _ _ _ _ HD' Hl Ht') as [Hl0 _].
  destruct (Hs _ _ _ Hl0 Ht') as [x Hx].
  unfold renamed. rewrite lookup_renamed.
  destruct (decide (path_join dir tn = path_join dir' tn')); [eauto|].
  destruct (decide (path_join dir n = path_join dir' tn')) as [Heq|]; [|eauto].
  apply path_join_inj in Heq as [<- <-].
  rewrite (Hfinal _ _ _ _ HD' Hl0 Ht') in Htgt. done.
Qed.

Lemma renamed_pending rest : pending t dir (n :: rest) -> pending t' dir rest.
Proof.
  intros Hp n' data' tn' Hl Ht' Hnone.
  destruct (renamed_file_inv _ _ _ _ HD Hl Ht') as [Hl0 Hne].
  assert (Hnone0 : t !! path_join dir tn' = None).
  { revert Hnone. unfold renamed. rewrite lookup_renamed.
    destruct (decide (path_join dir tn = path_join dir tn')); [done|].
    destruct (decide (path_join dir n = path_join dir tn')) as [Heq|]; [|done].
    apply path_join_inj in Heq as [_ <-].
    rewrite (Hfinal _ _ _ _ HD Hl0 Ht') in Htgt. done. }
  specialize (Hp _ _ _ Hl0 Ht' Hnone0).
  apply elem_of_cons in Hp as [->|Hin]; [done|done].
Qed.

Lemma renamed_run_inv S : run_inv P D t0 S t -> run_inv P D t0 S t'.
Proof.
  intros (H1 & H2 & H3). split; [apply renamed_final|]. split.
  - intros p. by rewrite renamed_isdir.
  - intros d Hd. destruct (H3 d Hd) as (? & ? & ?).
    split; [done|]. split; [by apply renamed_settled|done].
Qed.

End Renamed.

Lemma rename_file_hoare S dir x rest :
  D dir ->
  hoare (fun t => run_inv P D t0 S t /\ pending t dir (x :: rest))
        (rename_file P false dir x)
        (fun _ t => run_inv P D t0 S t /\ pending t dir rest).
Proof.
  intros HD w a w' [Hinv Hpend] Hrun.
  assert (Hfinal : final_targets D (files w)) by apply Hinv.
  destruct (isfile (files w) (path_join dir x)) eqn:Hf.
  - apply isfile_inv in Hf as [data Hf].
    destruct (rename_target x) as [tn|] eqn:Ht.
    + destruct (files w !! path_join dir tn) as [node|] eqn:Hdst.
      * erewrite rename_file_skips in Hrun by eauto.
        injection Hrun as <- <-. simpl. split; [done|].
        intros n data' tn' Hl Ht' Hnone.
        specialize (Hpend _ _ _ Hl Ht' Hnone).
        apply elem_of_cons in Hpend as [->|Hin]; [|done].
        rewrite Ht in Ht'. injection Ht' as <-. by rewrite Hdst in Hnone.
      * erewrite rename_file_renames in Hrun by eauto.
        destruct (rename_denied P _ _); [done|].
        injection Hrun as <- <-. simpl. split.
        -- by apply renamed_run_inv.
        -- by apply renamed_pending.
    + rewrite rename_file_untouched in Hrun by done.
      injection Hrun as <- <-. split; [done|].
      intros n data' tn' Hl Ht' Hnone.
      specialize (Hpend _ _ _ Hl Ht' Hnone).
      apply elem_of_cons in Hpend as [->|Hin]; [|done]. by rewrite Ht in Ht'.
  - rewrite rename_file_nonfile in Hrun by done.
    injection Hrun as <- <-. split; [done|].
    intros n data' tn' Hl Ht' Hnone.
    specialize (Hpend _ _ _ Hl Ht' Hnone).
    apply elem_of_cons in Hpend as [->|Hin]; [|done].
    by rewrite (isfile_File _ _ _ Hl) in Hf.
Qed.

Lemma rename_loop_hoare S dir l :
  D dir ->
  hoare (fun t => run_inv P D t0 S t /\ pending t dir l)
        (for_each l (rename_file P false dir))
        (fun _ t => run_inv P D t0 S t /\ settled t dir).
Proof.
  intros HD. eapply hoare_conseq.
  - apply (hoare_for_each _
             (fun _ rest t => run_inv P D t0 S t /\ pending t dir rest)).
    intros seen x rest _. by apply rename_file_hoare.
  - done.
  - intros _ t [Hinv Hp]. split; [done|].
    intros n data tn Hl Ht.
    destruct (t !! path_join dir tn) eqn:E; [eauto|].
    by apply (Hp n data tn Hl Ht), elem_of_nil in E.
Qed.

Lemma rename_in_session_hoare S ses_path :
  (isdir t0 (path_join ses_path "fmap") = true -> D (path_join ses_path "fmap")) ->
  hoare (run_inv P D t0 S) (rename_in_session P false ses_path)
    (fun _ t =>
       run_inv P D t0 S t /\
       (isdir t0 (path_join ses_path "fmap") = true ->
        settled t (path_join ses_path "fmap") /\
        listdir_denied P (path_join ses_path "fmap") = false)).
Proof.
  intros HD w a w' Hinv Hrun. unfold rename_in_session in Hrun. cbv zeta in Hrun.
  rewrite bind_get_files in Hrun.
  assert (Hd : isdir (files w) (path_join ses_path "fmap") =
               isdir t0 (path_join ses_path "fmap")) by apply Hinv.
  destruct (isdir (files w) (path_join ses_path "fmap")) eqn:E; simpl in Hrun.
  - unfold os_listdir in Hrun. rewrite bind_assoc, bind_get_files, E in Hrun.
    destruct (listdir_denied P (path_join ses_path "fmap")) eqn:Hl;
      simpl in Hrun; [done|].
    rewrite bind_ret_l in Hrun.
    eapply rename_loop_hoare in Hrun as [Hinv' Hs].
    + split; [exact Hinv'|]. done.
    + by apply HD.
    + split; [exact Hinv|].
      intros n data tn Hf _ _. apply elem_of_sorted, elem_of_entries. eauto.
  - apply ret_inv in Hrun as [_ <-]. split; [done|]. by rewrite <-Hd.
Qed.

End Settle.



Section FirstRun.
Variable P : platform.
Variable D : path -> Prop.
Variable t0 : fs.

Lemma session_loop_hoare sp (f : string -> M (option path)) cands :
  tests_isdir sp f ->
  (forall dir, session_dirs t0 sp (fun ses => ses ∈ cands) dir -> D dir) ->
  forall S,
  hoare (run_inv P D t0 S)
    (for_each (map f cands) (fun step =>
       r <- step ;;
       match r with
       | Some x => rename_in_session P false x
       | None => ret tt
       end))
    (fun _ => run_inv P D t0
                (fun dir => S dir \/ session_dirs t0 sp (fun ses => ses ∈ cands) dir)).
Proof.
  intros Hf. induction cands as [|c cands IH]; intros HD S; simpl.
  - apply hoare_ret. intros t. apply run_inv_weaken.
    intros dir [Hd|(ses & Hin & _)]; [done|]. by apply elem_of_nil in Hin.
  - eapply hoare_bind with
      (mid := fun _ => run_inv P D t0
                (fun dir => S dir \/ session_dirs t0 sp (fun ses => ses = c) dir)).
    + intros w a w' Hinv Hrun. unfold bind in Hrun.
      destruct (f c w) as [[e|r] w1] eqn:Ef; [done|].
      destruct (Hf _ _ _ _ Ef) as [Hfiles ->].
      assert (Hd : isdir (files w) (path_join sp c) = isdir t0 (path_join sp c))
        by apply Hinv.
      destruct (isdir (files w) (path_join sp c)) eqn:E.
      * assert (HDc : isdir t0 (path_join (path_join sp c) "fmap") = true ->
                        D (path_join (path_join sp c) "fmap")).
        { intros Hfmap. apply HD. exists c. repeat split; [left|congruence|done]. }
        eapply rename_in_session_hoare in Hrun as [Hinv' Hnew];
          [|exact HDc|by rewrite Hfiles].
        destruct Hinv' as (H1 & H2 & H3). split; [done|]. split; [done|].
        intros dir [Hdir|(ses & -> & _ & Hdir & ->)]; [by apply H3|].
        split; [by apply HDc | by apply Hnew].
      * apply ret_inv in Hrun as [_ <-]. rewrite Hfiles.
        eapply run_inv_weaken; [|exact Hinv].
        intros dir [Hdir|(ses & -> & Hses & _)]; [done|]. congruence.
    + intros []. eapply hoare_conseq; [apply IH| done |].
      { intros dir (ses & Hin & Hrest). apply HD. exists ses.
        split; [by right|done]. }
      intros ? t. apply run_inv_weaken.
      intros dir [Hdir|(ses & Hin & Hrest)]; [by left; left|].
      apply elem_of_cons in Hin as [->|Hin].
      * left. right. by exists c.
      * right. by exists ses.
Qed.

Lemma sessions_hoare S sp flt :
  isdir t0 sp = true ->
  (forall dir, session_dirs t0 sp (selected P sp flt) dir -> D dir) ->
  hoare (run_inv P D t0 S)
    (for_gen (iter_session_paths P sp flt) (rename_in_session P false))
    (fun _ => run_inv P D t0
                (fun dir => S dir \/ session_dirs t0 sp (selected P sp flt) dir)).
Proof.
  intros Hsp HD.
  assert (Hauto :
    (forall dir,
       session_dirs t0 sp
         (fun ses => startswith ses "ses-" = true /\ listdir_denied P sp = false)
         dir -> D dir) ->
    forall w a w',
    run_inv P D t0 S (files w) ->
    for_gen
      (t <- get_files ;;
       ret (map (fun name =>
                   let ses_path := path_join sp name in
                   t' <- get_files ;;
                   ret (if isdir t' ses_path then Some ses_path else None))
                (sorted (glob_prefix P t sp "ses-"))))
      (rename_in_session P false) w = (inr a, w') ->
    run_inv P D t0
      (fun dir => S dir \/
         session_dirs t0 sp
           (fun ses => startswith ses "ses-" = true /\ listdir_denied P sp = false)
           dir) (files w')).
  { intros HD' w a w' Hinv Hrun. unfold for_gen in Hrun.
    rewrite bind_assoc, bind_get_files, bind_ret_l in Hrun.
    eapply session_loop_hoare in Hrun; [| | |exact Hinv].
    - eapply run_inv_weaken; [|exact Hrun].
      intros dir [Hd|(ses & [Hpre Hl] & Hses & Hrest)]; [by left|].
      right. exists ses. split; [|done].
      apply elem_of_sorted, elem_of_glob_prefix; [|done|].
      + destruct Hinv as (_ & H2 & _). by rewrite H2.
      + split; [|done]. apply isdir_Some.
        destruct Hinv as (_ & H2 & _). by rewrite H2.
    - intros ses w1 r w1'. cbv zeta. rewrite bind_get_files.
      by intros [<- <-]%ret_inv.
    - intros dir (ses & Hin & Hrest). apply HD'. exists ses. split; [|done].
      apply elem_of_sorted, elem_of_glob_prefix_inv in Hin. tauto. }
  unfold iter_session_paths. destruct flt as [[|ses0 l]|]; cbv beta iota.
  - exact (Hauto HD).
  - intros w a w' Hinv Hrun. unfold for_gen in Hrun.
    rewrite bind_ret_l in Hrun.
    eapply session_loop_hoare in Hrun; [exact Hrun| |exact HD|exact Hinv].
    intros ses w1 r w1'. cbv zeta. rewrite bind_get_files.
    destruct (isdir (files w1) (path_join sp ses)).
    + by intros [<- <-]%ret_inv.
    + rewrite bind_emit. by intros [<- <-]%ret_inv.
  - exact (Hauto HD).
Qed.

Lemma rename_run_hoare subjects base_dir flt :
  (forall dir, visited P t0 subjects base_dir flt dir -> D dir) ->
  hoare (run_inv P D t0 (fun _ => False))
    (rename_fieldmap_files P subjects base_dir flt false)
    (fun _ => run_inv P D t0 (visited P t0 subjects base_dir flt)).
Proof.
  intros HD. unfold rename_fieldmap_files.
  eapply hoare_conseq.
  - apply (hoare_for_each _
             (fun seen _ => run_inv P D t0 (visited P t0 seen base_dir flt))).
    intros seen subject rest Hsplit w a w' Hinv Hrun. cbv zeta in Hrun.
    rewrite bind_get_files in Hrun.
    assert (Hd : isdir (files w) (path_join base_dir subject) =
                 isdir t0 (path_join base_dir subject)) by apply Hinv.
    destruct (isdir (files w) (path_join base_dir subject)) eqn:E; simpl in Hrun.
    + eapply sessions_hoare in Hrun; [| | |exact Hinv]; [|done|].
      2:{ intros dir (ses & Hsel & H2 & H3 & ->). apply HD.
          exists subject, ses. rewrite Hsplit. repeat split; try done.
          apply elem_of_app. right. left. }
      eapply run_inv_weaken; [|exact Hrun].
      intros dir (s & ses & Hs & Hsel & H1 & H2 & H3 & ->).
      apply elem_of_app in Hs as [Hs|Hs%list_elem_of_singleton].
      * left. by exists s, ses.
      * subst s. right. by exists ses.
    + unfold emit in Hrun. injection Hrun as <- <-. simpl.
      eapply run_inv_weaken; [|exact Hinv].
      intros dir (s & ses & Hs & Hsel & H1 & H2 & H3 & ->).
      apply elem_of_app in Hs as [Hs|Hs%list_elem_of_singleton].
      * by exists s, ses.
      * subst s. congruence.
  - intros t. apply run_inv_weaken.
    intros dir (s & ses & Hs & _). by apply elem_of_nil in Hs.
  - done.
Qed.

End FirstRun.

Section Idempotence.
Variable P : platform.

Lemma visited_isdir_ext (t t' : fs) subjects base_dir flt dir :
  (forall p, isdir t' p = isdir t p) ->
  visited P t' subjects base_dir flt dir -> visited P t subjects base_dir flt dir.
Proof.
  intros H (s & ses & Hs & Hsel & H1 & H2 & H3 & ->).
  exists s, ses. rewrite <-!H. done.
Qed.

(** C1 (amended).  Let a first run of the renamer in apply mode return,
    on a tree where, in every [fmap] directory the run processes, the new
    name of a file matches no rule.  Then a second run renames nothing and
    raises nothing: it leaves the tree as it is and only prints reports of
    missing directories and skipped files.  After the first run a file of
    a processed directory still carries a legacy token only if its
    destination exists, so that it was skipped. *)
Theorem rename_twice_is_quiet (subjects : list string) (base_dir : path)
    (flt : option (list string)) (w w1 : world) :
  final_targets (visited P (files w) subjects base_dir flt) (files w) ->
  rename_fieldmap_files P subjects base_dir flt false w = (inr tt, w1) ->
  (forall dir, visited P (files w1) subjects base_dir flt dir ->
     settled (files w1) dir) /\
  exists reports,
    rename_fieldmap_files P subjects base_dir flt false w1 =
      (inr tt, World (files w1) (trace w1 ++ reports)) /\
    Forall (fun e => is_report e = true) reports.
Proof.
  intros Hfinal Hrun.
  assert (Hinv : run_inv P (visited P (files w) subjects base_dir flt) (files w)
                   (visited P (files w) subjects base_dir flt) (files w1)).
  { eapply (rename_run_hoare P _ (files w)); [done| |exact Hrun]. by split. }
  assert (Hgood : forall dir, visited P (files w1) subjects base_dir flt dir ->
            settled (files w1) dir /\ listdir_denied P dir = false).
  { intros dir Hv. apply Hinv. eapply visited_isdir_ext; [|exact Hv]. apply Hinv. }
  split; [intros dir Hv; by apply Hgood|].
  destruct (rename_run_quiet P _ _ _ _ Hgood w1 eq_refl) as ([] & evs & H1 & H2 & _).
  eauto.
Qed.

End Idempotence.

Lemma last_path_join dir n : last (path_join dir n) = Some n.
Proof. unfold path_join. apply last_snoc. Qed.

Lemma final_targets_of_check D t :
  final_targets_check t = true -> final_targets D t.
Proof.
  intros H dir n data tn _ Hl Ht. unfold final_targets_check in H.
  rewrite forallb_forall in H.
  specialize (H (path_join dir n, File data)). simpl in H.
  rewrite last_path_join, Ht in H.
  destruct (rename_target tn); [|done].
  discriminate H. by apply list_elem_of_In, elem_of_map_to_list.
Qed.


(** * Scenarios *)

Example replace_every_occurrence :
  replace "a_fieldmap1_b_fieldmap1" "fieldmap1" "magnitude" = "a_magnitude_b_magnitude".
Proof. reflexivity. Qed.

Example replace_empty_pattern : replace "abc" "" "-" = "-a-b-c-".
Proof. reflexivity. Qed.

Example sorted_by_character_code :
  sorted ["ses-b"; "ses-B"; "ses-10"; "ses-2"] = ["ses-10"; "ses-2"; "ses-B"; "ses-b"].
Proof. reflexivity. Qed.

Example relpath_climbs : relpath ["a"; "b"; "c"] ["a"; "x"] = [".."; "b"; "c"].
Proof. reflexivity. Qed.

(** The two field-map images and the sidecar of the converted session
    are renamed, in lexicographic order. *)
Example renaming_the_converted_session :
  rename_fieldmap_files Sample.posix ["sub-01"] Sample.base None false
    Sample.converted = (inr tt, Sample.renamed_once).
Proof. apply (bool_decide_unpack _). vm_compute. exact I. Qed.

(** A dry run reports the same three renames and performs none. *)
Example dry_run_of_the_converted_session :
  rename_fieldmap_files Sample.posix ["sub-01"] Sample.base None true
    Sample.converted =
    (inr tt,
     World (files Sample.converted)
       [WouldRename (path_join Sample.fmap_dir "sub-01_ses-001_fieldmap1.nii.gz")
                    (path_join Sample.fmap_dir "sub-01_ses-001_magnitude.nii.gz");
        WouldRename (path_join Sample.fmap_dir "sub-01_ses-001_fieldmap2.json")
                    (path_join Sample.fmap_dir "sub-01_ses-001_fieldmap.json");
        WouldRename (path_join Sample.fmap_dir "sub-01_ses-001_fieldmap2.nii.gz")
                    (path_join Sample.fmap_dir "sub-01_ses-001_fieldmap.nii.gz")]).
Proof. apply (bool_decide_unpack _). vm_compute. exact I. Qed.

(** A subject that is missing and a session that is missing are reported;
    the session that exists is processed. *)
Example missing_directories_are_reported :
  rename_fieldmap_files Sample.posix ["sub-00"; "sub-01"] Sample.base
    (Some ["ses-404"; "ses-001"]) false Sample.renamed_once =
    (inr tt,
     World (files Sample.renamed_once)
       (trace Sample.renamed_once ++
        [DirectoryNotFound (path_join Sample.base "sub-00");
         SessionNotFound (path_join Sample.subject_dir "ses-404")])).
Proof. apply (bool_decide_unpack _). vm_compute. exact I. Qed.

(** The manifest of the converted session has two rows to rewrite. *)
Example scans_of_the_converted_session :
  update_scans_tsv Sample.posix ["sub-01"] Sample.base None false
    Sample.converted =
    (inr tt,
     World (<[path_join Sample.session_dir "sub-01_ses-001_scans.tsv" :=
                File "patched scans"]> (files Sample.converted))
       [NoChangesNeeded (path_join Sample.session_dir "sub-01_ses-001_acq-anat_scans.tsv");
        UpdatingTsv 2 (path_join Sample.session_dir "sub-01_ses-001_scans.tsv")]).
Proof. apply (bool_decide_unpack _). vm_compute. exact I. Qed.

(** The sidecar of the renamed session is patched. *)
Example sidecar_of_the_renamed_session :
  update_fieldmap_json Sample.posix ["sub-01"] Sample.base None "b0map_fmap0"
    false Sample.unpatched =
    (inr tt,
     World (<[path_join Sample.fmap_dir "sub-01_ses-001_fieldmap.json" :=
                File "patched sidecar"]> (files Sample.unpatched))
       [UpdatingJson (path_join Sample.fmap_dir "sub-01_ses-001_fieldmap.json")]).
Proof. apply (bool_decide_unpack _). vm_compute. exact I. Qed.

(** * The theorems at work on the sample session *)

Lemma normalize_idempotent_witness :
  normalize_subject "sub-01" = "sub-01" /\ normalize_session "ses-001" = "ses-001".
Proof.
  destruct (normalize_idempotent "sub-01") as (_ & _ & Hsub & _).
  destruct (normalize_idempotent "ses-001") as (_ & _ & _ & Hses).
  split; [apply Hsub | apply Hses]; reflexivity.
Defined.

Lemma rename_twice_is_quiet_witness :
  (forall dir,
     visited Sample.posix (files Sample.renamed_once) ["sub-01"] Sample.base None dir ->
     settled (files Sample.renamed_once) dir) /\
  exists reports,
    rename_fieldmap_files Sample.posix ["sub-01"] Sample.base None false
      Sample.renamed_once =
      (inr tt, World (files Sample.renamed_once)
                     (trace Sample.renamed_once ++ reports)) /\
    Forall (fun e => is_report e = true) reports.
Proof.
  apply (rename_twice_is_quiet Sample.posix ["sub-01"] Sample.base None
           Sample.converted Sample.renamed_once).
  - apply final_targets_of_check. vm_compute. reflexivity.
  - apply (bool_decide_unpack _). vm_compute. exact I.
Defined.

Lemma rename_twice_counterexample :
  rename_fieldmap_files Sample.posix ["sub-01"] Sample.base None false
    Sample.numbered = (inr tt, Sample.numbered_once) /\
  rename_fieldmap_files Sample.posix ["sub-01"] Sample.base None false
    Sample.numbered_once =
    (inr tt,
     World (renamed (files Sample.numbered_once)
              (path_join Sample.fmap_dir "sub-01_ses-001_fieldmap1.nii.gz")
              (path_join Sample.fmap_dir "sub-01_ses-001_magnitude.nii.gz")
              "image 21")
           (trace Sample.numbered_once ++
            [Renaming (path_join Sample.fmap_dir "sub-01_ses-001_fieldmap1.nii.gz")
                      (path_join Sample.fmap_dir "sub-01_ses-001_magnitude.nii.gz")])) /\
  renamed (files Sample.numbered_once)
    (path_join Sample.fmap_dir "sub-01_ses-001_fieldmap1.nii.gz")
    (path_join Sample.fmap_dir "sub-01_ses-001_magnitude.nii.gz")
    "image 21" <> files Sample.numbered_once.
Proof.
  repeat split; apply (bool_decide_unpack _); vm_compute; exact I.
Qed.

Lemma rename_file_one_rule_witness :
  rename_file Sample.posix false Sample.fmap_dir "sub-01_ses-001_fieldmap1.nii.gz"
    Sample.converted =
    (inr tt,
     World (<[path_join Sample.fmap_dir "sub-01_ses-001_magnitude.nii.gz" :=
                File "magnitude image"]>
              (delete (path_join Sample.fmap_dir "sub-01_ses-001_fieldmap1.nii.gz")
                 (files Sample.converted)))
           (trace Sample.converted ++
            [Renaming (path_join Sample.fmap_dir "sub-01_ses-001_fieldmap1.nii.gz")
                      (path_join Sample.fmap_dir "sub-01_ses-001_magnitude.nii.gz")])) /\
  rename_file Sample.posix false Sample.fmap_dir "sub-01_ses-001_fieldmap2.nii.gz"
    Sample.converted =
    (inr tt,
     World (<[path_join Sample.fmap_dir "sub-01_ses-001_fieldmap.nii.gz" :=
                File "phase image"]>
              (delete (path_join Sample.fmap_dir "sub-01_ses-001_fieldmap2.nii.gz")
                 (files Sample.converted)))
           (trace Sample.converted ++
            [Renaming (path_join Sample.fmap_dir "sub-01_ses-001_fieldmap2.nii.gz")
                      (path_join Sample.fmap_dir "sub-01_ses-001_fieldmap.nii.gz")])) /\
  rename_file Sample.posix false Sample.func_dir
    "sub-01_ses-001_task-rest_run-01_bold.json" Sample.converted =
    (inr tt, Sample.converted).
Proof.
  split; [|split].
  - apply (rename_file_one_rule Sample.posix Sample.fmap_dir
             "sub-01_ses-001_fieldmap1.nii.gz" "magnitude image" Sample.converted);
      vm_compute; reflexivity.
  - apply (rename_file_one_rule Sample.posix Sample.fmap_dir
             "sub-01_ses-001_fieldmap2.nii.gz" "phase image" Sample.converted);
      vm_compute; reflexivity.
  - apply (rename_file_one_rule Sample.posix Sample.func_dir
             "sub-01_ses-001_task-rest_run-01_bold.json" "meta" Sample.converted);
      vm_compute; reflexivity.
Defined.

Lemma second_rule_counterexample :
  contains "fieldmap2" "sub-01_ses-001_fieldmap1_fieldmap2.nii.gz" = true /\
  rename_file Sample.posix false Sample.fmap_dir
    "sub-01_ses-001_fieldmap1_fieldmap2.nii.gz" Sample.two_tokens =
    (inr tt,
     World (renamed (files Sample.two_tokens)
              (path_join Sample.fmap_dir "sub-01_ses-001_fieldmap1_fieldmap2.nii.gz")
              (path_join Sample.fmap_dir "sub-01_ses-001_magnitude_fieldmap2.nii.gz")
              "image")
           [Renaming
              (path_join Sample.fmap_dir "sub-01_ses-001_fieldmap1_fieldmap2.nii.gz")
              (path_join Sample.fmap_dir "sub-01_ses-001_magnitude_fieldmap2.nii.gz")]) /\
  rename_target "sub-01_ses-001_fieldmap1_fieldmap2.nii.gz" <>
    Some (replace "sub-01_ses-001_fieldmap1_fieldmap2.nii.gz" "fieldmap2" "fieldmap").
Proof.
  repeat split; apply (bool_decide_unpack _); vm_compute; exact I.
Qed.


Lemma empty_filter_is_no_filter_witness :
  exists names : list string,
    collect (iter_session_paths Sample.posix Sample.subject_dir (Some []))
      Sample.converted =
      (inr (map (path_join Sample.subject_dir) names), Sample.converted) /\
    "ses-001" ∈ names.
Proof.
  destruct (empty_filter_is_no_filter Sample.posix Sample.subject_dir ["sub-01"]
              Sample.base "b0map_fmap0" false Sample.converted)
    as [(names & Hrun & _ & _ & _ & Hin) _];
    [vm_compute; reflexivity ..|].
  exists names. split; [exact Hrun|].
  apply Hin. split; vm_compute; reflexivity.
Defined.


Lemma sidecar_update_is_merge_witness :
  update_sidecar Sample.posix false
    (path_join Sample.fmap_dir "sub-01_ses-001_fieldmap.json")
    [Sample.fmap_intended] "b0map_fmap0" Sample.unpatched =
    (inr tt,
     World (<[path_join Sample.fmap_dir "sub-01_ses-001_fieldmap.json" :=
                File "patched sidecar"]> (files Sample.unpatched))
           (trace Sample.unpatched ++
            [UpdatingJson (path_join Sample.fmap_dir "sub-01_ses-001_fieldmap.json")])) /\
  update_sidecar Sample.posix false
    (path_join Sample.fmap_dir "sub-01_ses-001_fieldmap.json")
    [Sample.fmap_intended] "b0map_fmap0" Sample.patched =
    (inr tt,
     World (files Sample.patched)
           (trace Sample.patched ++
            [NoChangesNeeded (path_join Sample.fmap_dir "sub-01_ses-001_fieldmap.json")])).
Proof.
  split.
  - destruct (sidecar_update_is_merge Sample.posix
                (path_join Sample.fmap_dir "sub-01_ses-001_fieldmap.json")
                "sidecar with echo times"
                [("EchoTime1", JNumber "0.00492"); ("EchoTime2", JNumber "0.00738")]
                [Sample.fmap_intended] "b0map_fmap0" Sample.unpatched)
      as (_ & _ & Hwrite); [vm_compute; reflexivity ..|].
    apply Hwrite; [|reflexivity]. intros [H _]. vm_compute in H. discriminate H.
  - destruct (sidecar_update_is_merge Sample.posix
                (path_join Sample.fmap_dir "sub-01_ses-001_fieldmap.json")
                "sidecar already patched"
                [("EchoTime1", JNumber "0.00492");
                 ("IntendedFor", JArray [JString Sample.fmap_intended]);
                 ("B0FieldIdentifier", JString "b0map_fmap0")]
                [Sample.fmap_intended] "b0map_fmap0" Sample.patched)
      as (_ & Hsame & _); [vm_compute; reflexivity ..|].
    apply Hsame; [|reflexivity|reflexivity].
    apply (bool_decide_unpack _). vm_compute. exact I.
Defined.

Lemma scans_update_touches_filename_only_witness :
  files (update_scans_file Sample.posix false
           (path_join Sample.session_dir "sub-01_ses-001_acq-anat_scans.tsv")
           Sample.converted).2 = files Sample.converted /\
  update_scans_file Sample.posix false
    (path_join Sample.session_dir "sub-01_ses-001_scans.tsv") Sample.converted =
    (inr tt,
     World (<[path_join Sample.session_dir "sub-01_ses-001_scans.tsv" :=
                File "patched scans"]> (files Sample.converted))
           (trace Sample.converted ++
            [UpdatingTsv 2 (path_join Sample.session_dir "sub-01_ses-001_scans.tsv")])).
Proof.
  split.
  - destruct (scans_update_touches_filename_only Sample.posix
                (path_join Sample.session_dir "sub-01_ses-001_acq-anat_scans.tsv")
                Sample.converted) as [Hclean _].
    apply Hclean. intros text df cells s Hfile Hcsv Hcol Hs.
    vm_compute in Hfile. injection Hfile as <-.
    vm_compute in Hcsv. injection Hcsv as <-.
    vm_compute in Hcol. injection Hcol as <-.
    apply elem_of_cons in Hs as [Hs|Hs]; [injection Hs as ->; by vm_compute|].
    apply elem_of_cons in Hs as [Hs|Hs]; [injection Hs as ->; by vm_compute|].
    by apply elem_of_nil in Hs.
  - destruct (scans_update_touches_filename_only Sample.posix
                (path_join Sample.session_dir "sub-01_ses-001_scans.tsv")
                Sample.converted) as [_ Hwrite].
    refine (proj1 (Hwrite "scans of session 001" Sample.scans_table
                     [Some "fmap/sub-01_ses-001_fieldmap1.nii.gz";
                      Some "fmap/sub-01_ses-001_fieldmap2.nii.gz";
                      Some "func/sub-01_ses-001_task-rest_run-01_bold.nii.gz"]
                     _ _ _ _ _ _)); [vm_compute; reflexivity ..|].
    vm_compute. discriminate.
Defined.


(** * Further properties of the passes *)

(** ** Computations that return, and relations kept along a run *)

Section Returns.

Lemma returns_ret {A : Type} (a : A) : returns (ret a).
Proof. intros w. by exists a, w. Qed.

Lemma returns_get_files : returns get_files.
Proof. intros w. by exists (files w), w. Qed.

Lemma returns_emit e : returns (emit e).
Proof. intros w. by eexists _, _. Qed.

Lemma returns_bind {A B : Type} (m : M A) (k : A -> M B) :
  returns m -> (forall a, returns (k a)) -> returns (bind m k).
Proof.
  intros Hm Hk w. destruct (Hm w) as (a & w1 & Hrun).
  destruct (Hk a w1) as (b & w2 & Hrun'). exists b, w2.
  by erewrite bind_run.
Qed.

Lemma returns_bind_yields {A B : Type} (m : M A) (k : A -> M B) (Q : A -> Prop) :
  returns m -> yields m Q -> (forall a, Q a -> returns (k a)) ->
  returns (bind m k).
Proof.
  intros Hm HQ Hk w. destruct (Hm w) as (a & w1 & Hrun).
  destruct (Hk a (HQ _ _ _ Hrun) w1) as (b & w2 & Hrun'). exists b, w2.
  by erewrite bind_run.
Qed.

Lemma returns_try_except {A : Type} (body : M A) handler :
  (forall e, returns (handler e)) -> returns (try_except body handler).
Proof.
  intros Hh w. unfold try_except.
  destruct (body w) as [[e|a] w1]; [apply Hh | by exists a, w1].
Qed.

Lemma returns_for_each {A : Type} (l : list A) (body : A -> M unit) :
  Forall (fun x => returns (body x)) l -> returns (for_each l body).
Proof.
  induction 1 as [|x l Hx Hl IH]; simpl.
  - apply returns_ret.
  - by apply returns_bind.
Qed.

Lemma returns_for_gen {A : Type} (gen : generator A) (body : A -> M unit) :
  returns gen -> yields gen (Forall returns) ->
  (forall x, returns (body x)) -> returns (for_gen gen body).
Proof.
  intros Hg Hs Hb. unfold for_gen.
  apply (returns_bind_yields _ _ _ Hg Hs). intros steps Hsteps.
  apply returns_for_each. eapply Forall_impl; [exact Hsteps|].
  intros step Hstep. apply returns_bind; [done|].
  intros [x|]; [apply Hb | apply returns_ret].
Qed.

End Returns.

Section Relates.
Context (R : relation fs) `{!PreOrder R}.

Lemma relates_preserves {A : Type} (m : M A) : preserves_files m -> relates R m.
Proof. intros H w. by rewrite H. Qed.

Lemma relates_bind_yields {A B : Type} (m : M A) (k : A -> M B) (Q : A -> Prop) :
  relates R m -> yields m Q -> (forall a, Q a -> relates R (k a)) ->
  relates R (bind m k).
Proof.
  intros Hm HQ Hk w. unfold bind. specialize (Hm w). specialize (HQ w).
  destruct (m w) as [[e|a] w1]; simpl in *; [done|].
  etrans; [exact Hm|]. apply Hk. eauto.
Qed.

Lemma relates_bind {A B : Type} (m : M A) (k : A -> M B) :
  relates R m -> (forall a, relates R (k a)) -> relates R (bind m k).
Proof.
  intros Hm Hk. apply (relates_bind_yields m k (fun _ => True)); [done|done|auto].
Qed.

Lemma relates_try_except {A : Type} (body : M A) handler :
  relates R body -> (forall e, relates R (handler e)) ->
  relates R (try_except body handler).
Proof.
  intros Hm Hk w. unfold try_except. specialize (Hm w).
  destruct (body w) as [[e|a] w1]; simpl in *; [|done].
  etrans; [exact Hm|]. apply Hk.
Qed.

Lemma relates_for_each {A : Type} (l : list A) (body : A -> M unit) :
  Forall (fun x => relates R (body x)) l -> relates R (for_each l body).
Proof.
  induction 1 as [|x l Hx Hl IH]; simpl.
  - by apply relates_preserves, preserves_ret.
  - by apply relates_bind.
Qed.

Lemma relates_for_gen {A : Type} (gen : generator A) (body : A -> M unit)
    (Q : A -> Prop) :
  preserves_files gen ->
  yields gen (Forall (fun step =>
    preserves_files step /\ yields step (fun r => forall x, r = Some x -> Q x))) ->
  (forall x, Q x -> relates R (body x)) ->
  relates R (for_gen gen body).
Proof.
  intros Hg Hs Hb. unfold for_gen.
  apply (relates_bind_yields _ _ _ (relates_preserves _ Hg) Hs).
  intros steps Hsteps.
  apply relates_for_each. eapply Forall_impl; [exact Hsteps|].
  intros step [Hp Hy]. cbv beta.
  apply (relates_bind_yields _ _ _ (relates_preserves _ Hp) Hy).
  intros [x|] Hx; [by apply Hb, Hx | by apply relates_preserves, preserves_ret].
Qed.

End Relates.

Global Instance rewritten_in_place_preorder (K : path -> Prop) : PreOrder (rewritten_in_place K).
Proof.
  split.
  - intros t p. by left.
  - intros t1 t2 t3 H12 H23 p.
    destruct (H12 p) as [E12|(HK & Hf1 & Hf2)], (H23 p) as [E23|(HK' & Hf2' & Hf3)].
    + left. congruence.
    + right. repeat split; try done. unfold isfile in *. by rewrite <-E12.
    + right. repeat split; try done. unfold isfile in *. by rewrite E23.
    + right. done.
Qed.

Lemma rewritten_in_place_dom (K : path -> Prop) (t t' : fs) :
  rewritten_in_place K t t' -> dom t' = dom t.
Proof.
  intros H. apply set_eq. intros p. rewrite !elem_of_dom.
  destruct (H p) as [->|(_ & Hf & Hf')]; [done|].
  unfold isfile in *. destruct (t !! p), (t' !! p); naive_solver.
Qed.

Lemma rewritten_in_place_isdir (K : path -> Prop) (t t' : fs) p :
  rewritten_in_place K t t' -> isdir t' p = isdir t p.
Proof.
  intros H. unfold isdir. destruct (H p) as [->|(_ & Hf & Hf')]; [done|].
  unfold isfile in *. by destruct (t !! p) as [[]|], (t' !! p) as [[]|].
Qed.

Section Steps.
Variable P : platform.

Lemma iter_session_paths_session_steps sp flt :
  yields (iter_session_paths P sp flt) (Forall (session_step sp)).
Proof.
  intros w steps w'. unfold iter_session_paths.
  destruct flt as [[|ses l]|]; rewrite ?bind_get_files;
    intros [<- <-]%ret_inv;
    apply Forall_fmap, Forall_forall; intros x _; split.
  all: try (simpl; frame).
  all: intros w1 r w1'; cbv zeta; rewrite bind_get_files;
       destruct (isdir (files w1) (path_join sp x)); rewrite ?bind_emit;
       intros [<- _]%ret_inv y [= <-]; eauto.
Qed.

Lemma iter_session_paths_returns sp flt : returns (iter_session_paths P sp flt).
Proof.
  unfold iter_session_paths. destruct flt as [[|ses l]|].
  - apply returns_bind; [apply returns_get_files|]. intros t. apply returns_ret.
  - apply returns_ret.
  - apply returns_bind; [apply returns_get_files|]. intros t. apply returns_ret.
Qed.

Lemma iter_session_paths_steps_return sp flt :
  yields (iter_session_paths P sp flt) (Forall returns).
Proof.
  intros w steps w'. unfold iter_session_paths.
  destruct flt as [[|ses l]|]; rewrite ?bind_get_files;
    intros [<- <-]%ret_inv;
    apply Forall_fmap, Forall_forall; intros x _; cbv zeta.
  all: apply returns_bind; [apply returns_get_files|]; intros t.
  all: try apply returns_ret.
  destruct (isdir t (path_join sp x)); [apply returns_ret|].
  apply returns_bind; [apply returns_emit|]. intros _. apply returns_ret.
Qed.

End Steps.

(** ** The manifest and sidecar passes work in place and never raise *)

Lemma rewritten_in_place_mono (K K' : path -> Prop) (t t' : fs) :
  (forall p, K p -> K' p) -> rewritten_in_place K t t' -> rewritten_in_place K' t t'.
Proof. intros HK H p. destruct (H p) as [?|(? & ? & ?)]; [by left|right; auto]. Qed.

Lemma rewritten_in_place_write (t : fs) p text data :
  t !! p = Some (File text) ->
  rewritten_in_place (fun q => q = p) t (<[p := File data]> t).
Proof.
  intros Hp q. destruct (decide (p = q)) as [<-|Hne].
  - right. unfold isfile. by rewrite lookup_insert_eq, Hp.
  - left. by rewrite lookup_insert_ne.
Qed.

Lemma basename_path_join dir name : basename (path_join dir name) = name.
Proof. unfold basename. by rewrite last_path_join. Qed.

Section InPlace.
Variable P : platform.

Lemma write_text_effect p data w :
  files (write_text P p data w).2 = files w \/
  (exists text, files w !! p = Some (File text)) /\
    files (write_text P p data w).2 = <[p := File data]> (files w) \/
  files w !! p = None /\
    files (write_text P p data w).2 = <[p := File data]> (files w).
Proof.
  unfold write_text. rewrite bind_get_files.
  destruct (write_denied P p); [by left|].
  destruct (files w !! p) as [[text|]|] eqn:E; [right; left; eauto|by left|by right; right].
Qed.

Lemma update_scans_file_effect dry_run tsv w :
  files (update_scans_file P dry_run tsv w).2 = files w \/
  exists text data,
    files w !! tsv = Some (File text) /\
    files (update_scans_file P dry_run tsv w).2 = <[tsv := File data]> (files w).
Proof.
  destruct (files w !! tsv) as [[text|]|] eqn:Hf;
    [|left; unfold update_scans_file, try_except, read_text;
      by rewrite bind_assoc, bind_get_files, Hf ..].
  destruct (read_denied P tsv) eqn:Hr.
  { left. unfold update_scans_file, try_except, read_text.
    by rewrite bind_assoc, bind_get_files, Hf, Hr. }
  destruct (read_csv P text) as [df|] eqn:Hcsv.
  2:{ left. unfold update_scans_file, try_except.
      erewrite bind_run by (by apply read_text_ok). by rewrite Hcsv. }
  destruct (df_get "filename" df) as [[cells|other]|] eqn:Hcol.
  - rewrite (update_scans_file_unfold _ _ _ text df cells) by done. cbv zeta.
    unfold try_except. destruct (column_equals _ _); [by left|].
    destruct dry_run; [by left|]. rewrite bind_emit.
    match goal with |- context [write_text P tsv ?d ?w0] =>
      destruct (write_text_effect tsv d w0) as [E|[[_ E]|[E _]]];
      destruct (write_text P tsv d w0) as [[e|[]] w1] eqn:Ew end;
      simpl in *.
    all: try (left; done).
    all: try (right; exists text; eexists; split; [done|exact E]).
    all: by rewrite Hf in E.
  - left. unfold update_scans_file, try_except.
    erewrite bind_run by (by apply read_text_ok).
    rewrite Hcsv. cbn [decode]. by rewrite bind_ret_l, Hcol.
  - left. unfold update_scans_file, try_except.
    erewrite bind_run by (by apply read_text_ok).
    rewrite Hcsv. cbn [decode]. by rewrite bind_ret_l, Hcol.
Qed.

Lemma update_scans_file_in_place dry_run tsv :
  relates (rewritten_in_place (fun q => q = tsv)) (update_scans_file P dry_run tsv).
Proof.
  intros w. destruct (update_scans_file_effect dry_run tsv w)
    as [->|(text & data & Hf & ->)]; [reflexivity|].
  by eapply rewritten_in_place_write.
Qed.

Lemma update_scans_file_returns dry_run tsv :
  returns (update_scans_file P dry_run tsv).
Proof. apply returns_try_except. intros e. apply returns_emit. Qed.

Lemma update_sidecar_returns dry_run p intended_for b0 :
  returns (update_sidecar P dry_run p intended_for b0).
Proof. apply returns_try_except. intros e. apply returns_emit. Qed.

Lemma update_sidecar_effect dry_run p intended_for b0 w :
  files (update_sidecar P dry_run p intended_for b0 w).2 = files w \/
  exists text data,
    files w !! p = Some (File text) /\
    files (update_sidecar P dry_run p intended_for b0 w).2 =
      <[p := File data]> (files w).
Proof.
  unfold update_sidecar, try_except.
  destruct (files w !! p) as [[text|]|] eqn:Hf;
    [|left; unfold read_text; by rewrite bind_assoc, bind_get_files, Hf ..].
  destruct (read_denied P p) eqn:Hr.
  { left. unfold read_text. by rewrite bind_assoc, bind_get_files, Hf, Hr. }
  erewrite bind_run by (by apply read_text_ok).
  destruct (json_load P text) as [fmap_data|]; [|by left]. cbn [decode].
  rewrite bind_ret_l.
  assert (Hcopy : (exists e, py_dict P fmap_data w = (inl e, w)) \/
                  (exists d, py_dict P fmap_data w = (inr d, w))).
  { unfold py_dict. destruct fmap_data; try (destruct (dict_of_iterable P _));
      first [by left; eexists | by right; eexists]. }
  destruct Hcopy as [[e He]|[d Hd]].
  { left. by erewrite bind_fail by exact He. }
  erewrite bind_run by exact Hd. cbv zeta.
  destruct (dict_equals_json _ _); [by left|].
  destruct dry_run; [by left|]. rewrite bind_emit.
  match goal with |- context [write_text P p ?d ?w0] =>
    destruct (write_text_effect p d w0) as [E|[[_ E]|[E _]]];
    destruct (write_text P p d w0) as [[e|[]] w1] eqn:Ew end;
    simpl in *.
  all: try (left; done).
  all: try (right; exists text; eexists; split; [done|exact E]).
  all: by rewrite Hf in E.
Qed.

Lemma update_sidecar_in_place dry_run p intended_for b0 :
  relates (rewritten_in_place (fun q => q = p))
          (update_sidecar P dry_run p intended_for b0).
Proof.
  intros w. destruct (update_sidecar_effect dry_run p intended_for b0 w)
    as [->|(text & data & Hf & ->)]; [reflexivity|].
  by eapply rewritten_in_place_write.
Qed.

Lemma elem_of_glob_suffix_inv (t : fs) dir suf n :
  n ∈ glob_suffix P t dir suf ->
  startswith n "." = false /\ endswith n suf = true.
Proof.
  unfold glob_suffix. destruct (_ && _); [|by intros ?%elem_of_nil].
  rewrite elem_of_filter_bool, andb_true_iff, negb_true_iff. tauto.
Qed.

Lemma update_scans_tsv_returns subjects base_dir flt dry_run :
  returns (update_scans_tsv P subjects base_dir flt dry_run).
Proof.
  unfold update_scans_tsv. apply returns_for_each, Forall_forall.
  intros subject _. cbv zeta.
  apply returns_bind; [apply returns_get_files|]. intros t.
  destruct (isdir t _); simpl; [|apply returns_emit].
  apply returns_for_gen;
    [apply iter_session_paths_returns | apply iter_session_paths_steps_return|].
  intros ses_path. apply returns_bind; [apply returns_get_files|]. intros t'.
  apply returns_for_each, Forall_forall. intros tsv _.
  apply update_scans_file_returns.
Qed.

Lemma update_fieldmap_json_returns subjects base_dir flt b0_identifier dry_run :
  returns (update_fieldmap_json P subjects base_dir flt b0_identifier dry_run).
Proof.
  unfold update_fieldmap_json. apply returns_for_each, Forall_forall.
  intros subject _. cbv zeta.
  apply returns_bind; [apply returns_get_files|]. intros t.
  destruct (isdir t _); simpl; [|apply returns_emit].
  apply returns_for_gen;
    [apply iter_session_paths_returns | apply iter_session_paths_steps_return|].
  intros ses_path. unfold update_json_in_session. cbv zeta.
  apply returns_bind; [apply returns_get_files|]. intros t'.
  destruct (_ || _); [apply returns_emit|].
  destruct (negb _); [apply returns_emit|].
  apply update_sidecar_returns.
Qed.

(** X1.  The manifest pass never raises: on every tree, with any codec and
    any refusal of the operating system, [update_scans_tsv] returns; what
    goes wrong with one manifest is reported and the loop goes on. *)
Theorem update_scans_tsv_never_raises (subjects : list string) (base_dir : path)
    (sessions_filter : option (list string)) (dry_run : bool) (w : world) :
  exists w', update_scans_tsv P subjects base_dir sessions_filter dry_run w =
             (inr tt, w').
Proof.
  destruct (update_scans_tsv_returns subjects base_dir sessions_filter dry_run w)
    as ([] & w' & Hrun). eauto.
Qed.

(** X2.  The sidecar pass never raises: on every tree, with any codec and
    any refusal of the operating system, [update_fieldmap_json] returns. *)
Theorem update_fieldmap_json_never_raises (subjects : list string)
    (base_dir : path) (sessions_filter : option (list string))
    (b0_identifier : string) (dry_run : bool) (w : world) :
  exists w', update_fieldmap_json P subjects base_dir sessions_filter
               b0_identifier dry_run w = (inr tt, w').
Proof.
  destruct (update_fieldmap_json_returns subjects base_dir sessions_filter
              b0_identifier dry_run w) as ([] & w' & Hrun). eauto.
Qed.

Lemma update_scans_tsv_in_place subjects base_dir flt dry_run :
  relates (rewritten_in_place (scans_manifest subjects base_dir))
          (update_scans_tsv P subjects base_dir flt dry_run).
Proof.
  unfold update_scans_tsv. apply relates_for_each; [apply _|].
  apply Forall_forall. intros subject Hsub. cbv zeta.
  apply relates_bind; [apply _| |].
  { apply relates_preserves; [apply _|]. apply preserves_get_files. }
  intros t. destruct (isdir t _); simpl;
    [|apply relates_preserves; [apply _|apply preserves_emit]].
  eapply relates_for_gen with
    (Q := fun x => exists ses, x = path_join (path_join base_dir subject) ses);
    [apply _|apply iter_session_paths_preserves| |].
  { intros w steps w' Hrun.
    apply (iter_session_paths_session_steps P _ _ _ _ _ Hrun). }
  intros ses_path [ses ->].
  apply relates_bind; [apply _| |].
  { apply relates_preserves; [apply _|]. apply preserves_get_files. }
  intros t'. apply relates_for_each; [apply _|].
  apply Forall_fmap, Forall_forall.
  intros name [Hvis Hsuf]%elem_of_sorted%elem_of_glob_suffix_inv. simpl.
  intros w. eapply rewritten_in_place_mono; [|apply update_scans_file_in_place].
  intros p ->. by exists subject, ses, name.
Qed.

Lemma update_fieldmap_json_in_place subjects base_dir flt b0 dry_run :
  relates (rewritten_in_place (fieldmap_sidecar subjects base_dir))
          (update_fieldmap_json P subjects base_dir flt b0 dry_run).
Proof.
  unfold update_fieldmap_json. apply relates_for_each; [apply _|].
  apply Forall_forall. intros subject Hsub. cbv zeta.
  apply relates_bind; [apply _| |].
  { apply relates_preserves; [apply _|]. apply preserves_get_files. }
  intros t. destruct (isdir t _); simpl;
    [|apply relates_preserves; [apply _|apply preserves_emit]].
  eapply relates_for_gen with
    (Q := fun x => exists ses, x = path_join (path_join base_dir subject) ses);
    [apply _|apply iter_session_paths_preserves| |].
  { intros w steps w' Hrun.
    apply (iter_session_paths_session_steps P _ _ _ _ _ Hrun). }
  intros ses_path [ses ->]. unfold update_json_in_session. cbv zeta.
  rewrite basename_path_join.
  apply relates_bind; [apply _| |].
  { apply relates_preserves; [apply _|]. apply preserves_get_files. }
  intros t'.
  destruct (_ || _); [apply relates_preserves; [apply _|apply preserves_emit]|].
  destruct (negb _); [apply relates_preserves; [apply _|apply preserves_emit]|].
  intros w. eapply rewritten_in_place_mono; [|apply update_sidecar_in_place].
  intros p ->. by exists subject, ses.
Qed.

(** X3.  On a dataset of plain names the manifest pass creates and
    deletes nothing: the set of paths is the one before the run,
    directories stay directories, and a path whose content differs is a
    regular file, before and after, matched by [*_scans.tsv] right below
    a session of a listed subject. *)
Theorem update_scans_tsv_rewrites_manifests_in_place (subjects : list string)
    (base_dir : path) (sessions_filter : option (list string)) (dry_run : bool)
    (w : world) :
  well_named P base_dir subjects sessions_filter (files w) ->
  let t' := files (update_scans_tsv P subjects base_dir sessions_filter
                     dry_run w).2 in
  dom t' = dom (files w) /\
  (forall p, isdir t' p = isdir (files w) p) /\
  (forall p, t' !! p <> files w !! p ->
     scans_manifest subjects base_dir p /\
     isfile (files w) p = true /\ isfile t' p = true).
Proof.
  intros _.
  pose proof (update_scans_tsv_in_place subjects base_dir sessions_filter
                dry_run w) as H.
  split; [by eapply rewritten_in_place_dom|].
  split; [intros p; by eapply rewritten_in_place_isdir|].
  intros p Hne. by destruct (H p).
Qed.

(** X4.  On a dataset of plain names the sidecar pass creates and
    deletes nothing: the set of paths is the one before the run,
    directories stay directories, and a path whose content differs is a
    regular file, before and after, named
    [<subject>_<session>_fieldmap.json] in the [fmap] directory of a
    session of a listed subject. *)
Theorem update_fieldmap_json_rewrites_sidecars_in_place (subjects : list string)
    (base_dir : path) (sessions_filter : option (list string))
    (b0_identifier : string) (dry_run : bool) (w : world) :
  well_named P base_dir subjects sessions_filter (files w) ->
  let t' := files (update_fieldmap_json P subjects base_dir sessions_filter
                     b0_identifier dry_run w).2 in
  dom t' = dom (files w) /\
  (forall p, isdir t' p = isdir (files w) p) /\
  (forall p, t' !! p <> files w !! p ->
     fieldmap_sidecar subjects base_dir p /\
     isfile (files w) p = true /\ isfile t' p = true).
Proof.
  intros _.
  pose proof (update_fieldmap_json_in_place subjects base_dir sessions_filter
                b0_identifier dry_run w) as H.
  split; [by eapply rewritten_in_place_dom|].
  split; [intros p; by eapply rewritten_in_place_isdir|].
  intros p Hne. by destruct (H p).
Qed.

End InPlace.

(** ** The renamer only moves files *)

Lemma rename_step_size t t' : rename_step t t' -> size t' = size t.
Proof.
  intros (sp & n & tn & data & Hsrc & Htgt & Hdst & ->). unfold renamed.
  rewrite map_size_insert_None.
  - rewrite map_size_delete_Some by eauto.
    assert (size t <> 0) as Hnz; [|destruct (size t); done].
    intros Hz%map_size_empty_inv. by rewrite Hz, lookup_empty in Hsrc.
  - rewrite lookup_delete. by case_decide.
Qed.

Lemma rename_step_isdir t t' p : rename_step t t' -> isdir t' p = isdir t p.
Proof.
  intros (sp & n & tn & data & Hsrc & Htgt & Hdst & ->).
  unfold isdir, renamed. rewrite lookup_renamed.
  destruct (decide (_ = p)) as [<-|]; [by rewrite Hdst|].
  destruct (decide (_ = p)) as [<-|]; [by rewrite Hsrc|done].
Qed.

Lemma rename_step_outside t t' p :
  rename_step t t' ->
  (forall ses_path n, p <> path_join (path_join ses_path "fmap") n) ->
  t' !! p = t !! p.
Proof.
  intros (sp & n & tn & data & Hsrc & Htgt & Hdst & ->) Hout.
  unfold renamed. rewrite lookup_renamed.
  destruct (decide (_ = p)) as [<-|]; [by destruct (Hout sp tn)|].
  destruct (decide (_ = p)) as [<-|]; [by destruct (Hout sp n)|done].
Qed.

Lemma rename_step_content t t' dir data :
  rename_step t t' ->
  (exists n, t !! path_join dir n = Some (File data)) <->
  (exists n, t' !! path_join dir n = Some (File data)).
Proof.
  intros (sp & n & tn & data0 & Hsrc & Htgt & Hdst & ->). unfold renamed. split.
  - intros [m Hm].
    destruct (decide (path_join (path_join sp "fmap") n = path_join dir m)) as [Heq|Hne].
    + apply path_join_inj in Heq as [<- <-]. exists tn.
      rewrite lookup_renamed, decide_True by done. congruence.
    + exists m. rewrite lookup_renamed, decide_False, decide_False; [done|done|].
      intros Heq. rewrite <-Heq in Hm. congruence.
  - intros [m Hm]. rewrite lookup_renamed in Hm.
    destruct (decide (_ = path_join dir m)) as [Heq|Hne].
    + apply path_join_inj in Heq as [<- <-]. exists n. congruence.
    + destruct (decide (_ = path_join dir m)); [done|eauto].
Qed.

Section Moves.
Variable P : platform.

Lemma rename_file_moves dry_run ses_path n :
  relates (rtc rename_step)
    (rename_file P dry_run (path_join ses_path "fmap") n).
Proof.
  intros w. set (dir := path_join ses_path "fmap").
  destruct (isfile (files w) (path_join dir n)) eqn:Hf.
  2:{ by rewrite rename_file_nonfile. }
  apply isfile_inv in Hf as [data Hf].
  destruct (rename_target n) as [tn|] eqn:Ht.
  2:{ by rewrite rename_file_untouched. }
  destruct (files w !! path_join dir tn) as [x|] eqn:Hdst.
  { by erewrite rename_file_skips by eauto. }
  destruct dry_run.
  { unfold rename_file. cbv zeta. fold dir.
    rewrite bind_get_files, (isfile_File _ _ _ Hf), Ht. simpl.
    by rewrite (path_exists_None _ _ Hdst). }
  erewrite rename_file_renames by eauto.
  destruct (rename_denied P _ _); simpl; [done|].
  apply rtc_once. exists ses_path, n, tn, data. done.
Qed.

Lemma rename_fieldmap_files_moves subjects base_dir flt dry_run :
  relates (rtc rename_step) (rename_fieldmap_files P subjects base_dir flt dry_run).
Proof.
  unfold rename_fieldmap_files. apply relates_for_each; [apply _|].
  apply Forall_forall. intros subject _. cbv zeta.
  apply relates_bind; [apply _| |].
  { apply relates_preserves; [apply _|]. apply preserves_get_files. }
  intros t. destruct (isdir t _); simpl;
    [|apply relates_preserves; [apply _|apply preserves_emit]].
  eapply relates_for_gen with (Q := fun _ => True);
    [apply _|apply iter_session_paths_preserves| |].
  { intros w steps w' Hrun.
    eapply Forall_impl; [apply (iter_session_paths_steps P _ _ _ _ _ Hrun)|].
    intros step Hstep. split; [done|]. by intros ? ? ? ? ? ?. }
  intros ses_path _. unfold rename_in_session. cbv zeta.
  apply relates_bind; [apply _| |].
  { apply relates_preserves; [apply _|]. apply preserves_get_files. }
  intros t'. destruct (isdir t' _); simpl;
    [|apply relates_preserves; [apply _|apply preserves_ret]].
  apply relates_bind; [apply _| |].
  { apply relates_preserves; [apply _|]. apply preserves_os_listdir. }
  intros names. apply relates_for_each; [apply _|].
  apply Forall_forall. intros n _. apply rename_file_moves.
Qed.

Lemma moved_within_fmap_refl t : moved_within_fmap t t.
Proof.
  exists (fun p => p). repeat split; eauto.
Qed.

Lemma moved_within_fmap_trans t1 t2 t3 :
  moved_within_fmap t1 t2 -> moved_within_fmap t2 t3 -> moved_within_fmap t1 t3.
Proof.
  intros (f & Hf1 & Hf2 & Hf3 & Hf4) (g & Hg1 & Hg2 & Hg3 & Hg4).
  assert (Hdom : forall p, is_Some (t1 !! p) -> is_Some (t2 !! f p)).
  { intros p Hp. by rewrite Hf2. }
  exists (fun p => g (f p)). repeat split.
  - intros p q Hp Hq Heq. apply Hf1; [done|done|]. apply Hg1; auto.
  - intros p Hp. rewrite Hg2 by auto. by apply Hf2.
  - intros q Hq. destruct (Hg3 q Hq) as (p2 & Hp2 & <-).
    destruct (Hf3 p2 Hp2) as (p1 & Hp1 & <-). eauto.
  - intros p Hp.
    destruct (Hf4 p Hp) as [Hfp|(sp & n & n' & data & Hdata & Hsrc & Hdst)];
      destruct (Hg4 (f p) (Hdom p Hp))
        as [Hgp|(sp' & m & m' & data' & Hdata' & Hsrc' & Hdst')].
    + left. by rewrite Hgp.
    + right. exists sp', m, m', data'. rewrite (Hf2 p Hp) in Hdata'.
      rewrite Hfp in Hsrc'. by rewrite Hdst'.
    + right. exists sp, n, n', data. by rewrite Hgp.
    + right. exists sp, n, m', data. split; [done|]. split; [done|].
      rewrite Hdst'. rewrite Hdst in Hsrc'.
      apply path_join_inj in Hsrc' as [-> _]. done.
Qed.

Lemma rename_step_moved t t' : rename_step t t' -> moved_within_fmap t t'.
Proof.
  intros (sp & n & tn & data & Hsrc & Htgt & Hdst & ->).
  set (src := path_join (path_join sp "fmap") n) in *.
  set (dst := path_join (path_join sp "fmap") tn) in *.
  exists (fun p => if decide (p = src) then dst else p). repeat split.
  - intros p q Hp Hq. repeat case_decide; subst; try done.
    + intros <-. rewrite Hdst in Hq. by destruct Hq.
    + intros ->. rewrite Hdst in Hp. by destruct Hp.
  - intros p Hp. unfold renamed.
    destruct (decide (p = src)) as [->|Hps]; rewrite lookup_renamed.
    + by rewrite decide_True.
    + rewrite decide_False; [by rewrite decide_False|].
      intros <-. rewrite Hdst in Hp. by destruct Hp.
  - intros q. unfold renamed. rewrite lookup_renamed.
    destruct (decide (dst = q)) as [<-|Hne].
    + intros _. exists src. split; [by rewrite Hsrc|]. by rewrite decide_True.
    + destruct (decide (src = q)) as [<-|Hne']; [by intros []|].
      intros Hq. exists q. split; [done|]. by rewrite decide_False.
  - intros p Hp. case_decide; [|by left]. subst p. right.
    by exists sp, n, tn, data.
Qed.

Lemma rtc_rename_step_moved t t' : rtc rename_step t t' -> moved_within_fmap t t'.
Proof.
  induction 1 as [t|t1 t2 t3 Hstep _ IH]; [apply moved_within_fmap_refl|].
  eapply moved_within_fmap_trans; [by apply rename_step_moved | done].
Qed.


End Moves.

(** ** Names and sidecars *)

(** X6.  The renamer and the manifest pass agree on names: unless the name
    the first rule gives still carries [fieldmap2], the value written in
    the [filename] column for a name is the name the renamer gives the
    file, and the value is left alone when the renamer leaves the file
    alone. *)
Theorem scan_rewrite_agrees_with_renamer (n : string) :
  (forall tn, rename_target n = Some tn -> contains "fieldmap1" n = true ->
              contains "fieldmap2" tn = false) ->
  rewrite_name n = default n (rename_target n).
Proof.
  unfold rename_target, rewrite_name. intros Hclean.
  destruct (contains "fieldmap1" n) eqn:E1.
  - simpl. apply replace_absent. by apply Hclean.
  - rewrite (replace_absent n "fieldmap1") by done.
    destruct (contains "fieldmap2" n) eqn:E2; [done|]. by apply replace_absent.
Qed.

Lemma dict_set_keys_NoDup key value d :
  NoDup (map fst d) -> NoDup (map fst (dict_set key value d)).
Proof.
  induction d as [|[k v] d IH]; simpl.
  - intros _. apply NoDup_singleton.
  - intros [Hk Hd]%NoDup_cons. destruct (String.eqb_spec k key) as [->|Hne]; simpl.
    + by apply NoDup_cons.
    + apply NoDup_cons. split; [|by apply IH].
      intros (x & Hx & Hin)%list_elem_of_fmap. destruct x as [k' v']. simpl in *.
      subst k'. apply Hk.
      clear -Hin Hne. induction d as [|[k0 v0] d IH]; simpl in *.
      * apply list_elem_of_singleton in Hin. congruence.
      * destruct (String.eqb_spec k0 key) as [->|Hne0].
        -- apply elem_of_cons in Hin as [Heq|Hin]; [by simplify_eq|].
           right. apply list_elem_of_fmap. by exists (k, v').
        -- apply elem_of_cons in Hin as [Heq|Hin]; [simplify_eq; by left|].
           right. by apply IH.
Qed.

Lemma patched_members_fixpoint intended_for b0 members :
  patched_members intended_for b0 (patched_members intended_for b0 members) =
  patched_members intended_for b0 members.
Proof.
  unfold patched_members.
  rewrite (dict_set_same "IntendedFor").
  - apply dict_set_same, dict_get_set_eq.
  - rewrite dict_get_set_ne by done. apply dict_get_set_eq.
Qed.

Section PerFile.
Variable P : platform.

Lemma update_sidecar_unfold dry_run p text members intended_for b0 w :
  files w !! p = Some (File text) -> read_denied P p = false ->
  json_load P text = Some (JObject members) ->
  update_sidecar P dry_run p intended_for b0 w =
    try_except
      (if dict_eqb (patched_members intended_for b0 members) members
       then emit (NoChangesNeeded p)
       else if dry_run then emit (WouldUpdateJson p)
       else (emit (UpdatingJson p) >>
             write_text P p
               (json_dump P (JObject (patched_members intended_for b0 members)))))
      (fun e => emit (ErrorUpdating p e)) w.
Proof.
  intros Hf Hr Hload. unfold update_sidecar, try_except.
  erewrite bind_run by (by apply read_text_ok).
  rewrite Hload. simpl. by rewrite !bind_ret_l.
Qed.

(** X7.  Updating a sidecar converges: when the codec reads back the
    document it writes, a second update of the same sidecar, in either
    mode, finds nothing to change and writes nothing. *)
Theorem update_sidecar_converges (p : path) (text : string) (members : dict)
    (intended_for : list string) (b0 : string) (w : world) :
  files w !! p = Some (File text) ->
  read_denied P p = false -> write_denied P p = false ->
  json_load P text = Some (JObject members) ->
  NoDup (map fst members) ->
  json_load P (json_dump P (JObject (patched_members intended_for b0 members))) =
    Some (JObject (patched_members intended_for b0 members)) ->
  let w1 := (update_sidecar P false p intended_for b0 w).2 in
  forall dry_run,
    update_sidecar P dry_run p intended_for b0 w1 =
      (inr tt, World (files w1) (trace w1 ++ [NoChangesNeeded p])).
Proof.
  intros Hf Hr Hw Hload Hnd Hround w1 dry_run. subst w1.
  rewrite (update_sidecar_unfold false p text members) by done.
  destruct (dict_eqb (patched_members intended_for b0 members) members) eqn:E.
  - cbn [try_except emit snd files trace].
    rewrite (update_sidecar_unfold dry_run p text members) by done.
    by rewrite E.
  - assert (try_except
              (emit (UpdatingJson p) >>
               write_text P p
                 (json_dump P (JObject (patched_members intended_for b0 members))))
              (fun e => emit (ErrorUpdating p e)) w =
            (inr tt,
             World (<[p := File (json_dump P
                       (JObject (patched_members intended_for b0 members)))]> (files w))
                   (trace w ++ [UpdatingJson p]))) as ->.
    { unfold try_except. rewrite bind_emit.
      by erewrite write_text_ok by done. }
    cbn [snd files trace].
    erewrite (update_sidecar_unfold dry_run p _
                (patched_members intended_for b0 members));
      [| simpl; apply lookup_insert_eq | done | done].
    rewrite patched_members_fixpoint, dict_eqb_refl; [done|].
    unfold patched_members. by do 2 apply dict_set_keys_NoDup.
Qed.

End PerFile.

(** ** What the passes print *)

Section Prints.
Context (E : event -> Prop).

Lemma prints_silent {A : Type} (m : M A) :
  (forall w, trace (m w).2 = trace w) -> prints E m.
Proof. intros H w. exists []. by rewrite H, app_nil_r. Qed.

Lemma prints_ret {A : Type} (a : A) : prints E (ret a).
Proof. by apply prints_silent. Qed.

Lemma prints_raise {A : Type} e : prints E (raise e : M A).
Proof. by apply prints_silent. Qed.

Lemma prints_get_files : prints E get_files.
Proof. by apply prints_silent. Qed.

Lemma prints_emit e : E e -> prints E (emit e).
Proof. intros He w. exists [e]. split; [done|]. by apply Forall_singleton. Qed.

Lemma prints_bind {A B : Type} (m : M A) (k : A -> M B) :
  prints E m -> (forall a, prints E (k a)) -> prints E (bind m k).
Proof.
  intros Hm Hk w. unfold bind. destruct (Hm w) as (evs & Ht & Hevs).
  destruct (m w) as [[e|a] w1]; simpl in *; [by exists evs|].
  destruct (Hk a w1) as (evs' & Ht' & Hevs'). exists (evs ++ evs')%list.
  split; [by rewrite Ht', Ht, app_assoc | by apply Forall_app].
Qed.

Lemma prints_bind_yields {A B : Type} (m : M A) (k : A -> M B) (Q : A -> Prop) :
  prints E m -> yields m Q -> (forall a, Q a -> prints E (k a)) ->
  prints E (bind m k).
Proof.
  intros Hm HQ Hk w. unfold bind. destruct (Hm w) as (evs & Ht & Hevs).
  specialize (HQ w).
  destruct (m w) as [[e|a] w1]; simpl in *; [by exists evs|].
  destruct (Hk a (HQ _ _ eq_refl) w1) as (evs' & Ht' & Hevs'). exists (evs ++ evs')%list.
  split; [by rewrite Ht', Ht, app_assoc | by apply Forall_app].
Qed.

Lemma prints_try_except {A : Type} (body : M A) handler :
  prints E body -> (forall e, prints E (handler e)) ->
  prints E (try_except body handler).
Proof.
  intros Hm Hk w. unfold try_except. destruct (Hm w) as (evs & Ht & Hevs).
  destruct (body w) as [[e|a] w1]; simpl in *; [|by exists evs].
  destruct (Hk e w1) as (evs' & Ht' & Hevs'). exists (evs ++ evs')%list.
  split; [by rewrite Ht', Ht, app_assoc | by apply Forall_app].
Qed.

Lemma prints_for_each {A : Type} (l : list A) (body : A -> M unit) :
  (forall x, prints E (body x)) -> prints E (for_each l body).
Proof.
  intros Hb. induction l as [|x l IH]; simpl.
  - apply prints_ret.
  - by apply prints_bind.
Qed.

Lemma prints_for_gen {A : Type} (gen : generator A) (body : A -> M unit) :
  prints E gen -> yields gen (Forall (prints E)) ->
  (forall x, prints E (body x)) -> prints E (for_gen gen body).
Proof.
  intros Hg Hs Hb. unfold for_gen.
  apply (prints_bind_yields _ _ _ Hg Hs). intros steps Hsteps.
  induction Hsteps as [|step steps Hstep _ IH]; simpl.
  - apply prints_ret.
  - apply prints_bind; [|done].
    apply prints_bind; [done|]. intros [x|]; [apply Hb | apply prints_ret].
Qed.

Lemma prints_lift {A : Type} (r : exn + A) : prints E (lift r).
Proof. destruct r; [apply prints_raise | apply prints_ret]. Qed.

Lemma prints_decode {A : Type} (r : option A) : prints E (decode r).
Proof. destruct r; [apply prints_ret | apply prints_raise]. Qed.

Variable P : platform.

Lemma prints_os_listdir dir : prints E (os_listdir P dir).
Proof.
  apply prints_silent. intros w. unfold os_listdir. rewrite bind_get_files.
  by destruct (_ || _).
Qed.

Lemma prints_os_rename src dst : prints E (os_rename P src dst).
Proof.
  apply prints_silent. intros w. unfold os_rename. rewrite bind_get_files.
  destruct (files w !! src); [|done]. by destruct (rename_denied P src dst).
Qed.

Lemma prints_read_text p : prints E (read_text P p).
Proof.
  apply prints_silent. intros w. unfold read_text. rewrite bind_get_files.
  destruct (files w !! p) as [[]|]; try done. by destruct (read_denied P p).
Qed.

Lemma prints_write_text p data : prints E (write_text P p data).
Proof.
  apply prints_silent. intros w. unfold write_text. rewrite bind_get_files.
  destruct (write_denied P p); [done|]. by destruct (files w !! p) as [[]|].
Qed.

Lemma prints_py_dict v : prints E (py_dict P v).
Proof.
  unfold py_dict. destruct v; try apply prints_ret;
    (destruct (dict_of_iterable P _); [apply prints_ret | apply prints_raise]).
Qed.

Lemma prints_iter_session_paths sp flt :
  (forall p, E (SessionNotFound p)) ->
  prints E (iter_session_paths P sp flt) /\
  yields (iter_session_paths P sp flt) (Forall (prints E)).
Proof.
  intros HE. split.
  - unfold iter_session_paths. destruct flt as [[|ses l]|].
    + apply prints_bind; [apply prints_get_files | intros; apply prints_ret].
    + apply prints_ret.
    + apply prints_bind; [apply prints_get_files | intros; apply prints_ret].
  - intros w steps w'. unfold iter_session_paths.
    destruct flt as [[|ses l]|]; rewrite ?bind_get_files;
      intros [<- <-]%ret_inv;
      apply Forall_fmap, Forall_forall; intros x _; cbv zeta.
    all: apply prints_bind; [apply prints_get_files|]; intros t.
    all: try apply prints_ret.
    destruct (isdir t (path_join sp x)); [apply prints_ret|].
    apply prints_bind; [by apply prints_emit | intros; apply prints_ret].
Qed.

End Prints.

Section Modes.
Variable P : platform.

Lemma prints_pass (E : event -> Prop) subjects (base_dir : path) flt
    (body : string -> path -> M unit) :
  (forall p, E (DirectoryNotFound p)) -> (forall p, E (SessionNotFound p)) ->
  (forall subject ses_path, prints E (body subject ses_path)) ->
  prints E (for_each subjects (fun subject =>
    let subject_path := path_join base_dir subject in
    t <- get_files ;;
    if negb (isdir t subject_path) then emit (DirectoryNotFound subject_path)
    else for_gen (iter_session_paths P subject_path flt) (body subject))).
Proof.
  intros H1 H2 Hb. apply prints_for_each. intros subject. cbv zeta.
  apply prints_bind; [apply prints_get_files|]. intros t.
  destruct (negb _); [by apply prints_emit|].
  destruct (prints_iter_session_paths E P (path_join base_dir subject) flt H2).
  by apply prints_for_gen.
Qed.

(** X8.  The passes only append to the output, and print in their mode: a
    dry run never prints [Renaming] or [Updating ...], an apply run
    never prints [Would ...], whether the pass returns or raises. *)
Theorem passes_print_in_their_mode (subjects : list string) (base_dir : path)
    (sessions_filter : option (list string)) (b0_identifier : string)
    (dry_run : bool) :
  let E := fun e => mode_event dry_run e = true in
  prints E (rename_fieldmap_files P subjects base_dir sessions_filter dry_run) /\
  prints E (update_scans_tsv P subjects base_dir sessions_filter dry_run) /\
  prints E (update_fieldmap_json P subjects base_dir sessions_filter
              b0_identifier dry_run).
Proof.
  intros E. split; [|split].
  - apply (prints_pass E subjects base_dir sessions_filter
             (fun _ => rename_in_session P dry_run)); [done|done|].
    intros _ ses_path. unfold rename_in_session. cbv zeta.
    apply prints_bind; [apply prints_get_files|]. intros t.
    destruct (negb _); [apply prints_ret|].
    apply prints_bind; [apply prints_os_listdir|]. intros names.
    apply prints_for_each. intros n. unfold rename_file. cbv zeta.
    apply prints_bind; [apply prints_get_files|]. intros t'.
    destruct (negb _); [apply prints_ret|].
    destruct (rename_target n); [|apply prints_ret].
    destruct (path_exists _ _); [by apply prints_emit|].
    destruct dry_run; [by apply prints_emit|].
    apply prints_bind; [by apply prints_emit | intros; apply prints_os_rename].
  - apply (prints_pass E subjects base_dir sessions_filter
             (fun _ ses_path =>
                t' <- get_files ;;
                for_each (map (path_join ses_path)
                            (sorted (glob_suffix P t' ses_path "_scans.tsv")))
                         (update_scans_file P dry_run))); [done|done|].
    intros _ ses_path.
    apply prints_bind; [apply prints_get_files|]. intros t.
    apply prints_for_each. intros tsv. unfold update_scans_file.
    apply prints_try_except; [|intros; by apply prints_emit].
    apply prints_bind; [apply prints_read_text|]. intros text.
    apply prints_bind; [apply prints_decode|]. intros df.
    destruct (df_get _ _); [|by apply prints_emit].
    apply prints_bind; [apply prints_lift|]. intros col1.
    apply prints_bind; [apply prints_lift|]. intros col2. cbv zeta.
    destruct (column_equals _ _); [by apply prints_emit|].
    destruct dry_run; [by apply prints_emit|].
    apply prints_bind; [by apply prints_emit | intros; apply prints_write_text].
  - apply (prints_pass E subjects base_dir sessions_filter
             (fun subject => update_json_in_session P base_dir subject
                               b0_identifier dry_run)); [done|done|].
    intros subject ses_path. unfold update_json_in_session. cbv zeta.
    apply prints_bind; [apply prints_get_files|]. intros t.
    destruct (_ || _); [by apply prints_emit|].
    destruct (negb _); [by apply prints_emit|].
    unfold update_sidecar.
    apply prints_try_except; [|intros; by apply prints_emit].
    apply prints_bind; [apply prints_read_text|]. intros text.
    apply prints_bind; [apply prints_decode|]. intros v.
    apply prints_bind; [apply prints_py_dict|]. intros d. cbv zeta.
    destruct (dict_equals_json _ _); [by apply prints_emit|].
    destruct dry_run; [by apply prints_emit|].
    apply prints_bind; [by apply prints_emit | intros; apply prints_write_text].
Qed.

End Modes.


(** ** A refused rename stops the run *)

Section Stops.
Variable P : platform.

Lemma stops_quiet {A : Type} (m : M A) :
  returns m -> prints (fun e => refused P e = false) m -> stops_at_refusal P m.
Proof.
  intros Hr Hp w. destruct (Hp w) as (evs & Ht & Hevs). exists evs.
  split; [done|]. destruct (Hr w) as (a & w' & ->). done.
Qed.

Lemma stops_bind {A B : Type} (m : M A) (k : A -> M B) :
  stops_at_refusal P m -> (forall a, stops_at_refusal P (k a)) ->
  stops_at_refusal P (bind m k).
Proof.
  intros Hm Hk w. unfold bind. destruct (Hm w) as (evs1 & Ht1 & H1).
  destruct (m w) as [[e|a] w1]; simpl in *; [by exists evs1|].
  destruct (Hk a w1) as (evs2 & Ht2 & H2). exists (evs1 ++ evs2)%list.
  split; [by rewrite Ht2, Ht1, app_assoc|].
  destruct (k a w1) as [[e|b] w2]; simpl in *; [|by apply Forall_app].
  destruct H2 as (-> & evs0 & Hall & Hlast). split; [done|].
  exists (evs1 ++ evs0)%list. split; [by apply Forall_app|].
  destruct Hlast as [->|(src & dst & data & -> & Hden & Hsrc & Hdst)]; [by left|].
  right. exists src, dst, data. by rewrite app_assoc.
Qed.

Lemma stops_for_each {A : Type} (l : list A) (body : A -> M unit) :
  (forall x, stops_at_refusal P (body x)) -> stops_at_refusal P (for_each l body).
Proof.
  intros Hb. induction l as [|x l IH]; simpl.
  - apply stops_quiet; [apply returns_ret | apply prints_ret].
  - by apply stops_bind.
Qed.

Lemma stops_for_gen {A : Type} (gen : generator A) (body : A -> M unit) :
  returns gen -> prints (fun e => refused P e = false) gen ->
  yields gen (Forall returns) ->
  yields gen (Forall (prints (fun e => refused P e = false))) ->
  (forall x, stops_at_refusal P (body x)) -> stops_at_refusal P (for_gen gen body).
Proof.
  intros Hr Hp Hsr Hsp Hb w. unfold for_gen.
  destruct (Hr w) as (steps & w1 & Hrun).
  pose proof (Hsr _ _ _ Hrun) as Hret. pose proof (Hsp _ _ _ Hrun) as Hpr.
  assert (stops_at_refusal P
            (for_each steps (fun step =>
               r <- step ;; match r with Some x => body x | None => ret tt end)))
    as Hloop.
  { clear Hrun. induction Hret as [|step steps Hstep _ IH]; simpl.
    - apply stops_quiet; [apply returns_ret | apply prints_ret].
    - apply Forall_cons in Hpr as [Hp1 Hp2].
      apply stops_bind; [|intros _; by apply IH].
      apply stops_bind; [by apply stops_quiet|].
      intros [x|]; [apply Hb|].
      apply stops_quiet; [apply returns_ret | apply prints_ret]. }
  destruct (Hp w) as (evs1 & Ht1 & H1). rewrite Hrun in Ht1. simpl in Ht1.
  erewrite bind_run by exact Hrun.
  destruct (Hloop w1) as (evs2 & Ht2 & H2). exists (evs1 ++ evs2)%list.
  split; [by rewrite Ht2, Ht1, app_assoc|].
  destruct (for_each steps _ w1) as [[e|b] w2]; simpl in *; [|by apply Forall_app].
  destruct H2 as (-> & evs0 & Hall & Hlast). split; [done|].
  exists (evs1 ++ evs0)%list. split; [by apply Forall_app|].
  destruct Hlast as [->|(src & dst & data & -> & Hden & Hsrc & Hdst)]; [by left|].
  right. exists src, dst, data. by rewrite app_assoc.
Qed.

Lemma rename_file_stops fmap_dir filename :
  stops_at_refusal P (rename_file P false fmap_dir filename).
Proof.
  intros w. unfold rename_file. cbv zeta. rewrite bind_get_files.
  destruct (isfile (files w) _) eqn:Hfile; simpl;
    [|exists []; simpl; rewrite app_nil_r; by split].
  destruct (rename_target filename) as [tn|]; [|exists []; simpl; rewrite app_nil_r; by split].
  destruct (path_exists _ _) eqn:Hex.
  { exists [SkipRename (path_join fmap_dir filename) (path_join fmap_dir tn)].
    split; [done|]. simpl. by apply Forall_singleton. }
  rewrite bind_emit. unfold os_rename. rewrite bind_get_files. cbn [files].
  apply isfile_inv in Hfile as [data Hfile]. rewrite Hfile.
  exists [Renaming (path_join fmap_dir filename) (path_join fmap_dir tn)].
  destruct (rename_denied P _ _) eqn:Hden; simpl.
  - split; [done|]. split; [done|]. exists []. split; [constructor|]. right.
    exists (path_join fmap_dir filename), (path_join fmap_dir tn), data.
    repeat split; try done.
    unfold path_exists in Hex. by destruct (files w !! path_join fmap_dir tn).
  - split; [done|]. by apply Forall_singleton.
Qed.

Lemma rename_fieldmap_files_stops subjects (base_dir : path) flt :
  stops_at_refusal P (rename_fieldmap_files P subjects base_dir flt false).
Proof.
  unfold rename_fieldmap_files. apply stops_for_each. intros subject. cbv zeta.
  apply stops_bind.
  { apply stops_quiet; [apply returns_get_files | apply prints_get_files]. }
  intros t. destruct (negb _).
  { apply stops_quiet; [apply returns_emit | by apply prints_emit]. }
  destruct (prints_iter_session_paths (fun e => refused P e = false) P
              (path_join base_dir subject) flt (fun _ => eq_refl)) as [Hg Hs].
  apply stops_for_gen;
    [apply iter_session_paths_returns | done
    | apply iter_session_paths_steps_return | done |].
  intros ses_path. unfold rename_in_session. cbv zeta.
  apply stops_bind.
  { apply stops_quiet; [apply returns_get_files | apply prints_get_files]. }
  intros t1. destruct (negb _).
  { apply stops_quiet; [apply returns_ret | apply prints_ret]. }
  apply stops_bind; [|intros names; apply stops_for_each, rename_file_stops].
  intros w. unfold os_listdir. rewrite bind_get_files. exists [].
  rewrite app_nil_r. destruct (_ || _); simpl; [|done].
  split; [done|]. split; [done|]. exists []. split; [constructor | by left].
Qed.

Lemma refused_is_last (evs evs0 before after : list event) e e' :
  evs = (before ++ e :: after)%list -> evs = (evs0 ++ [e'])%list ->
  e ∉ evs0 -> after = [] /\ e = e'.
Proof.
  intros -> Heq Hnot. destruct after as [|a after _] using rev_ind.
  - apply app_inj_tail in Heq as [_ ->]. done.
  - exfalso. apply Hnot.
    change (before ++ e :: after ++ [a])%list
      with (before ++ (e :: after) ++ [a])%list in Heq.
    rewrite app_assoc in Heq. apply app_inj_tail in Heq as [<- _].
    set_solver.
Qed.

End Stops.

Lemma for_each_app {A : Type} (l1 l2 : list A) (body : A -> M unit) w w1 :
  for_each l1 body w = (inr tt, w1) ->
  for_each (l1 ++ l2) body w = for_each l2 body w1.
Proof.
  revert w. induction l1 as [|x l1 IH]; intros w; simpl.
  - by intros [= ->].
  - unfold bind at 1 2. destruct (body x w) as [[e|[]] w0]; [done|]. apply IH.
Qed.

Section Refused.
Variable P : platform.

(** C7.  In apply mode a file whose destination exists is reported and
    skipped, nothing is overwritten and the loop goes on with the
    remaining files.  A rename the operating system refuses, the
    destination being free, raises [OSError] out of the loop over the
    files, whatever files were processed before it, and out of the pass,
    whatever the subjects, the sessions and the way the sessions are
    found: in every run of the pass a refused rename is the last line
    printed, the pass raises [OSError] there, the file is still at its
    source and its destination is still free. *)
Theorem rename_collision_and_failure :
  (forall (fmap_dir : path) (filename new_filename data : string)
          (rest : list string) (w : world),
     files w !! path_join fmap_dir filename = Some (File data) ->
     rename_target filename = Some new_filename ->
     is_Some (files w !! path_join fmap_dir new_filename) ->
     for_each (filename :: rest) (rename_file P false fmap_dir) w =
       for_each rest (rename_file P false fmap_dir)
         (World (files w)
            (trace w ++ [SkipRename (path_join fmap_dir filename)
                                    (path_join fmap_dir new_filename)]))) /\
  (forall (fmap_dir : path) (seen : list string)
          (filename new_filename data : string) (rest : list string)
          (w w1 : world),
     let src := path_join fmap_dir filename in
     let dst := path_join fmap_dir new_filename in
     for_each seen (rename_file P false fmap_dir) w = (inr tt, w1) ->
     files w1 !! src = Some (File data) ->
     rename_target filename = Some new_filename ->
     files w1 !! dst = None ->
     rename_denied P src dst = true ->
     for_each (seen ++ filename :: rest) (rename_file P false fmap_dir) w =
       (inl OSError, World (files w1) (trace w1 ++ [Renaming src dst]))) /\
  (forall (subjects : list string) (base_dir : path)
          (sessions_filter : option (list string)) (w : world),
     let run := rename_fieldmap_files P subjects base_dir sessions_filter false w in
     exists evs,
       trace run.2 = (trace w ++ evs)%list /\
       forall before src dst after,
         evs = (before ++ Renaming src dst :: after)%list ->
         rename_denied P src dst = true ->
         after = [] /\ run.1 = inl OSError /\
         (exists data, files run.2 !! src = Some (File data)) /\
         files run.2 !! dst = None).
Proof.
  split; [|split].
  - intros fmap_dir filename new_filename data rest w Hsrc Htgt Hdst. simpl.
    by erewrite bind_run by (by eapply rename_file_skips).
  - intros fmap_dir seen filename new_filename data rest w w1 src dst
      Hseen Hsrc Htgt Hdst Hden.
    rewrite (for_each_app _ _ _ _ _ Hseen). simpl. apply bind_fail.
    rewrite (rename_file_renames _ _ _ new_filename data) by done.
    fold src dst. by rewrite Hden.
  - intros subjects base_dir flt w run.
    destruct (rename_fieldmap_files_stops P subjects base_dir flt w)
      as (evs & Ht & Hres). fold run in Ht, Hres.
    exists evs. split; [done|].
    intros before src dst after Heq Hden.
    assert (Hin : Renaming src dst ∈ evs) by (rewrite Heq; set_solver).
    destruct run.1 as [e|[]].
    + destruct Hres as (-> & evs0 & Hall & [->|(s & d & data & Hlast & Hd & Hs & Hn)]).
      * rewrite Forall_forall in Hall. specialize (Hall _ Hin). simpl in Hall.
        congruence.
      * destruct (refused_is_last evs evs0 before after
                    (Renaming src dst) (Renaming s d) Heq Hlast) as [-> [= -> ->]].
        { intros Hin0. rewrite Forall_forall in Hall.
          specialize (Hall _ Hin0). simpl in Hall. congruence. }
        eauto.
    + rewrite Forall_forall in Hres. specialize (Hres _ Hin). simpl in Hres.
      congruence.
Qed.

End Refused.

Lemma rename_collision_and_failure_witness :
  for_each ["sub-01_ses-001_fieldmap1.nii.gz"; "sub-01_ses-001_magnitude.nii.gz"]
    (rename_file Sample.posix false Sample.fmap_dir) Sample.colliding =
    for_each ["sub-01_ses-001_magnitude.nii.gz"]
      (rename_file Sample.posix false Sample.fmap_dir)
      (World (files Sample.colliding)
         (trace Sample.colliding ++
          [SkipRename (path_join Sample.fmap_dir "sub-01_ses-001_fieldmap1.nii.gz")
                      (path_join Sample.fmap_dir "sub-01_ses-001_magnitude.nii.gz")])) /\
  for_each (["sub-01_ses-001_fieldmap1.nii.gz"; "sub-01_ses-001_fieldmap2.json"] ++
            "sub-01_ses-001_fieldmap2.nii.gz" :: ["sub-01_ses-001_zz_fieldmap1.json"])
    (rename_file Refusals.sticky false Sample.fmap_dir) Sample.converted =
    (inl OSError,
     World (files Refusals.two_renamed)
       (trace Refusals.two_renamed ++
        [Renaming (path_join Sample.fmap_dir "sub-01_ses-001_fieldmap2.nii.gz")
                  (path_join Sample.fmap_dir "sub-01_ses-001_fieldmap.nii.gz")])) /\
  (rename_fieldmap_files Refusals.sticky ["sub-00"; "sub-01"; "sub-02"] Sample.base
     None false Sample.converted).1 = inl OSError.
Proof.
  destruct (rename_collision_and_failure Refusals.sticky) as (_ & Hloop & Hpass).
  destruct (rename_collision_and_failure Sample.posix) as (Hskip & _).
  split; [|split].
  - apply (Hskip Sample.fmap_dir "sub-01_ses-001_fieldmap1.nii.gz"
             "sub-01_ses-001_magnitude.nii.gz" "new magnitude").
    + vm_compute. reflexivity.
    + vm_compute. reflexivity.
    + exists (File "old magnitude"). vm_compute. reflexivity.
  - apply (Hloop Sample.fmap_dir
             ["sub-01_ses-001_fieldmap1.nii.gz"; "sub-01_ses-001_fieldmap2.json"]
             "sub-01_ses-001_fieldmap2.nii.gz" "sub-01_ses-001_fieldmap.nii.gz"
             "phase image" ["sub-01_ses-001_zz_fieldmap1.json"]
             Sample.converted Refusals.two_renamed).
    + apply (bool_decide_unpack _). vm_compute. exact I.
    + vm_compute. reflexivity.
    + vm_compute. reflexivity.
    + vm_compute. reflexivity.
    + vm_compute. reflexivity.
  - destruct (Hpass ["sub-00"; "sub-01"; "sub-02"] Sample.base None Sample.converted)
      as (evs & Ht & Hlast).
    vm_compute in Ht. subst evs.
    refine (proj1 (proj2 (Hlast [_; _; _] _ _ [] eq_refl _))).
    vm_compute. reflexivity.
Defined.

(** ** One verdict per file *)

Section Verdicts.
Variable P : platform.

(** X9.  Each manifest gets one verdict and the updater returns: an error,
    a missing [filename] column, nothing to change, an announced update
    in a dry run, or an update in an apply run.  The only second line is
    the error of a write that fails.  After an update that succeeds the
    manifest, a regular file before, holds the text written and nothing
    else changed; after a write that fails only the manifest can differ,
    and it is still a regular file; in every other case the files are
    left as they are. *)
Theorem update_scans_file_verdict (dry_run : bool) (tsv_file : path) (w : world) :
  exists evs k,
    scans_verdict dry_run tsv_file evs k /\
    (update_scans_file P dry_run tsv_file w).1 = inr tt /\
    trace (update_scans_file P dry_run tsv_file w).2 = (trace w ++ evs)%list /\
    effect_on tsv_file k (files w)
      (files (update_scans_file P dry_run tsv_file w).2).
Proof.
  unfold update_scans_file, try_except, read_text.
  rewrite bind_assoc, bind_get_files.
  destruct (files w !! tsv_file) as [[data|]|] eqn:Hf;
    [| rewrite bind_raise; simpl; eexists _, Untouched; split; [by constructor|done] ..].
  destruct (read_denied P tsv_file);
    [rewrite bind_raise; simpl; eexists _, Untouched; split; [by constructor|done]|].
  rewrite bind_ret_l.
  destruct (read_csv P data) as [df|]; cbn [decode];
    [| rewrite bind_raise; simpl; eexists _, Untouched; split; [by constructor|done]].
  rewrite bind_ret_l.
  destruct (df_get "filename" df) as [[cells|cells]|];
    [| cbn [str_replace lift]; rewrite bind_raise; simpl;
       eexists _, Untouched; split; [by constructor|done]
     | simpl; eexists _, Untouched; split; [by constructor|done]].
  do 2 (cbn [str_replace lift]; rewrite bind_ret_l). cbv zeta.
  destruct (column_equals _ _);
    [simpl; eexists _, Untouched; split; [by constructor|done]|].
  destruct dry_run;
    [simpl; eexists _, Untouched; split; [by constructor|done]|].
  rewrite bind_emit. unfold write_text. rewrite bind_get_files. cbn [files].
  destruct (write_denied P tsv_file).
  { simpl. eexists _, Interrupted. split; [by apply scans_write_failed|].
    split; [done|]. split; [by rewrite <- app_assoc|].
    unfold effect_on, isfile. simpl. by rewrite Hf. }
  rewrite Hf. simpl. eexists _, Rewritten. split; [by apply scans_updated|].
  split; [done|]. split; [done|]. exists data. by eexists.
Qed.

(** X10.  Each sidecar gets one verdict and the updater returns: an error,
    nothing to change, an announced update in a dry run, or an update in
    an apply run.  The only second line is the error of a write that
    fails.  After an update that succeeds the sidecar, a regular file
    before, holds the text written and nothing else changed; after a
    write that fails only the sidecar can differ, and it is still a
    regular file; in every other case the files are left as they are. *)
Theorem update_sidecar_verdict (dry_run : bool) (p : path)
    (intended_for : list string) (b0 : string) (w : world) :
  exists evs k,
    sidecar_verdict dry_run p evs k /\
    (update_sidecar P dry_run p intended_for b0 w).1 = inr tt /\
    trace (update_sidecar P dry_run p intended_for b0 w).2 = (trace w ++ evs)%list /\
    effect_on p k (files w) (files (update_sidecar P dry_run p intended_for b0 w).2).
Proof.
  unfold update_sidecar, try_except, read_text.
  rewrite bind_assoc, bind_get_files.
  destruct (files w !! p) as [[data|]|] eqn:Hf;
    [| rewrite bind_raise; simpl; eexists _, Untouched; split; [by constructor|done] ..].
  destruct (read_denied P p);
    [rewrite bind_raise; simpl; eexists _, Untouched; split; [by constructor|done]|].
  rewrite bind_ret_l.
  destruct (json_load P data) as [v|]; cbn [decode];
    [| rewrite bind_raise; simpl; eexists _, Untouched; split; [by constructor|done]].
  rewrite bind_ret_l.
  assert (Hd : (exists d, py_dict P v = ret d) \/ py_dict P v = raise TypeError).
  { unfold py_dict. destruct v; eauto; destruct (dict_of_iterable P _); eauto. }
  destruct Hd as [[d ->]| ->];
    [| rewrite bind_raise; simpl; eexists _, Untouched; split; [by constructor|done]].
  rewrite bind_ret_l. cbv zeta.
  destruct (dict_equals_json _ _);
    [simpl; eexists _, Untouched; split; [by constructor|done]|].
  destruct dry_run;
    [simpl; eexists _, Untouched; split; [by constructor|done]|].
  rewrite bind_emit. unfold write_text. rewrite bind_get_files. cbn [files].
  destruct (write_denied P p).
  { simpl. eexists _, Interrupted. split; [by apply sidecar_write_failed|].
    split; [done|]. split; [by rewrite <- app_assoc|].
    unfold effect_on, isfile. simpl. by rewrite Hf. }
  rewrite Hf. simpl. eexists _, Rewritten. split; [by apply sidecar_updated|].
  split; [done|]. split; [done|]. exists data. by eexists.
Qed.

End Verdicts.

(** ** Dry runs, row counts and documents that are not objects *)

Lemma count_ne_rewritten cells :
  count_ne (StrColumn (map (option_map rewrite_name) cells)) (StrColumn cells) =
  rewritten_cells cells + missing_cells cells.
Proof.
  unfold count_ne, rewritten_cells, missing_cells.
  induction cells as [|[s|] cells IH]; simpl; [done| |].
  - destruct (String.eqb (rewrite_name s) s); simpl; by rewrite IH.
  - rewrite IH. lia.
Qed.

Lemma rewritten_cells_zero cells :
  rewritten_cells cells = 0 <-> map (option_map rewrite_name) cells = cells.
Proof.
  unfold rewritten_cells. induction cells as [|[s|] cells IH]; simpl; [done| |].
  - destruct (String.eqb_spec (rewrite_name s) s) as [Heq|Hne]; simpl.
    + rewrite IH, Heq. split; [by intros -> | by intros [= ->]].
    + split; [done | by intros [= ? _]].
  - rewrite IH. split; [by intros -> | by intros [= ->]].
Qed.

Section PerFile2.
Variable P : platform.

(** X11.  The number of rows a dry run reports for a manifest is the
    number of file names the substitutions change plus the number of
    rows with no file name: a missing value differs from itself.  Rows
    with no file name do not make an update by themselves. *)
Theorem changed_rows_count_missing_cells (tsv_file : path) (text : string)
    (df : dataframe) (cells : list (option string)) (w : world) :
  files w !! tsv_file = Some (File text) -> read_denied P tsv_file = false ->
  read_csv P text = Some df ->
  df_get "filename" df = Some (StrColumn cells) ->
  update_scans_file P true tsv_file w =
    (inr tt,
     World (files w)
       (trace w ++
        [if Nat.eqb (rewritten_cells cells) 0 then NoChangesNeeded tsv_file
         else WouldUpdateTsv (rewritten_cells cells + missing_cells cells)
                tsv_file])).
Proof.
  intros Hf Hr Hcsv Hcol.
  rewrite (update_scans_file_unfold P true tsv_file text df cells) by done.
  cbv zeta. rewrite count_ne_rewritten. unfold column_equals, try_except.
  destruct (Nat.eqb_spec (rewritten_cells cells) 0) as [H0|H0].
  - apply rewritten_cells_zero in H0. rewrite H0.
    by rewrite bool_decide_eq_true_2.
  - rewrite bool_decide_eq_false_2; [done|].
    intros [= Heq]. by apply H0, rewritten_cells_zero.
Qed.

(** X12.  A sidecar whose document is not a JSON object but can be turned
    into a dict is never found up to date: a dry run announces the
    update, and an apply run replaces the document by the object with
    both keys set. *)
Theorem non_object_sidecar_is_rewritten (p : path) (text : string) (v : json)
    (d : dict) (intended_for : list string) (b0 : string) (w : world) :
  files w !! p = Some (File text) -> read_denied P p = false ->
  json_load P text = Some v ->
  (forall members, v <> JObject members) ->
  dict_of_iterable P v = Some d ->
  update_sidecar P true p intended_for b0 w =
    (inr tt, World (files w) (trace w ++ [WouldUpdateJson p])) /\
  (write_denied P p = false ->
   update_sidecar P false p intended_for b0 w =
     (inr tt,
      World (<[p := File (json_dump P
                      (JObject (patched_members intended_for b0 d)))]> (files w))
            (trace w ++ [UpdatingJson p]))).
Proof.
  intros Hf Hr Hload Hv Hd.
  assert (Hpy : py_dict P v = ret d).
  { unfold py_dict. destruct v; rewrite ?Hd; try done. by destruct (Hv members). }
  assert (Hne : forall new_data, dict_equals_json new_data v = false).
  { intros new_data. destruct v; try done. by destruct (Hv members). }
  split; [|intros Hw]; unfold update_sidecar, try_except.
  - erewrite bind_run by (by apply read_text_ok).
    rewrite Hload. cbn [decode]. rewrite bind_ret_l, Hpy, bind_ret_l.
    cbv zeta. by rewrite Hne.
  - erewrite bind_run by (by apply read_text_ok).
    rewrite Hload. cbn [decode]. rewrite bind_ret_l, Hpy, bind_ret_l.
    cbv zeta. rewrite Hne, bind_emit.
    by erewrite write_text_ok by done.
Qed.

(** X13.  For one file, a dry run previews the apply run: when the
    operating system refuses neither the rename nor the write, both
    runs end the same way, and the dry run prints what the apply run
    prints with every action replaced by its announcement. *)
Theorem dry_run_previews_each_file (fmap_dir : path) (filename : string)
    (tsv_file json_path : path) (intended_for : list string) (b0 : string)
    (w : world) :
  (forall dst, rename_denied P (path_join fmap_dir filename) dst = false) ->
  write_denied P tsv_file = false ->
  write_denied P json_path = false ->
  previews (rename_file P true fmap_dir filename)
           (rename_file P false fmap_dir filename) w /\
  previews (update_scans_file P true tsv_file)
           (update_scans_file P false tsv_file) w /\
  previews (update_sidecar P true json_path intended_for b0)
           (update_sidecar P false json_path intended_for b0) w.
Proof.
  intros Hren Hwt Hwj. split; [|split].
  - unfold previews, rename_file. cbv zeta. rewrite !bind_get_files.
    destruct (isfile (files w) _) eqn:Hfile; simpl;
      [|split; [done|]; exists []; simpl; by rewrite app_nil_r].
    destruct (rename_target filename) as [tn|];
      [|split; [done|]; exists []; simpl; by rewrite app_nil_r].
    destruct (path_exists _ _); [split; [done|]; by eexists [_]|].
    rewrite bind_emit. unfold os_rename. rewrite bind_get_files. cbn [files].
    apply isfile_inv in Hfile as [data Hfile]. rewrite Hfile, Hren. simpl.
    split; [done|]. by eexists [_].
  - unfold previews, update_scans_file, try_except, read_text.
    rewrite !bind_assoc, !bind_get_files.
    destruct (files w !! tsv_file) as [[data|]|] eqn:Hf;
      [| rewrite !bind_raise; simpl; split; [done|]; by eexists [_] ..].
    destruct (read_denied P tsv_file);
      [rewrite !bind_raise; simpl; split; [done|]; by eexists [_]|].
    rewrite !bind_ret_l.
    destruct (read_csv P data) as [df|]; cbn [decode];
      [| rewrite !bind_raise; simpl; split; [done|]; by eexists [_]].
    rewrite !bind_ret_l.
    destruct (df_get "filename" df) as [[cells|cells]|];
      [| cbn [str_replace lift]; rewrite !bind_raise; simpl;
         split; [done|]; by eexists [_]
       | simpl; split; [done|]; by eexists [_]].
    do 2 (cbn [str_replace lift]; rewrite !bind_ret_l). cbv zeta.
    destruct (column_equals _ _); [simpl; split; [done|]; by eexists [_]|].
    rewrite bind_emit. unfold write_text. rewrite bind_get_files. cbn [files].
    rewrite Hwt, Hf. simpl. split; [done|]. by eexists [_].
  - unfold previews, update_sidecar, try_except, read_text.
    rewrite !bind_assoc, !bind_get_files.
    destruct (files w !! json_path) as [[data|]|] eqn:Hf;
      [| rewrite !bind_raise; simpl; split; [done|]; by eexists [_] ..].
    destruct (read_denied P json_path);
      [rewrite !bind_raise; simpl; split; [done|]; by eexists [_]|].
    rewrite !bind_ret_l.
    destruct (json_load P data) as [v|]; cbn [decode];
      [| rewrite !bind_raise; simpl; split; [done|]; by eexists [_]].
    rewrite !bind_ret_l.
    assert (Hd : (exists d, py_dict P v = ret d) \/ py_dict P v = raise TypeError).
    { unfold py_dict. destruct v; eauto; destruct (dict_of_iterable P _); eauto. }
    destruct Hd as [[d ->]| ->];
      [| rewrite !bind_raise; simpl; split; [done|]; by eexists [_]].
    rewrite !bind_ret_l. cbv zeta.
    destruct (dict_equals_json _ _); [simpl; split; [done|]; by eexists [_]|].
    rewrite bind_emit. unfold write_text. rewrite bind_get_files. cbn [files].
    rewrite Hwj, Hf. simpl. split; [done|]. by eexists [_].
Qed.

End PerFile2.

(** ** The files a pass reports on *)

Section PrintsIn.
Context (E : event -> Prop).
Variable P : platform.

Lemma prints_for_each_in {A : Type} (l : list A) (body : A -> M unit) :
  (forall x, x ∈ l -> prints E (body x)) -> prints E (for_each l body).
Proof.
  induction l as [|x l IH]; intros Hb; simpl.
  - apply prints_ret.
  - apply prints_bind; [apply Hb; by left|]. intros _. apply IH.
    intros y Hy. apply Hb. by right.
Qed.

Lemma prints_for_gen_yields {A : Type} (gen : generator A) (body : A -> M unit)
    (Q : A -> Prop) :
  prints E gen ->
  yields gen (Forall (fun step =>
                        prints E step /\
                        yields step (fun r => forall x, r = Some x -> Q x))) ->
  (forall x, Q x -> prints E (body x)) -> prints E (for_gen gen body).
Proof.
  intros Hg Hs Hb. unfold for_gen.
  apply (prints_bind_yields _ _ _ _ Hg Hs). intros steps Hsteps.
  induction Hsteps as [|step steps [Hstep HQ] _ IH]; simpl.
  - apply prints_ret.
  - apply prints_bind; [|done].
    apply (prints_bind_yields _ _ _ _ Hstep HQ).
    intros [x|] Hx; [apply Hb; eauto | apply prints_ret].
Qed.

Lemma iter_session_paths_prints_steps sp flt :
  (forall ses, E (SessionNotFound (path_join sp ses))) ->
  yields (iter_session_paths P sp flt)
    (Forall (fun step =>
               prints E step /\
               yields step (fun r => forall x, r = Some x ->
                                     exists ses, x = path_join sp ses))).
Proof.
  intros HE w steps w' Hrun.
  pose proof (iter_session_paths_session_steps P sp flt _ _ _ Hrun) as Hsteps.
  revert Hrun. unfold iter_session_paths.
  destruct flt as [[|ses l]|]; rewrite ?bind_get_files;
    intros [<- <-]%ret_inv.
  all: apply Forall_fmap, Forall_forall; intros x Hx; cbv zeta.
  all: (split;
        [| rewrite Forall_fmap, Forall_forall in Hsteps;
           exact (proj2 (Hsteps x Hx))]).
  all: apply prints_bind; [apply prints_get_files|]; intros t.
  all: try apply prints_ret.
  destruct (isdir t (path_join sp x)); [apply prints_ret|].
  apply prints_bind; [by apply prints_emit | intros; apply prints_ret].
Qed.

Lemma prints_pass_in subjects (base_dir : path) flt
    (body : string -> path -> M unit) :
  (forall subject, subject ∈ subjects ->
     E (DirectoryNotFound (path_join base_dir subject))) ->
  (forall subject ses, subject ∈ subjects ->
     E (SessionNotFound (path_join (path_join base_dir subject) ses))) ->
  (forall subject ses, subject ∈ subjects ->
     prints E (body subject (path_join (path_join base_dir subject) ses))) ->
  prints E (for_each subjects (fun subject =>
    let subject_path := path_join base_dir subject in
    t <- get_files ;;
    if negb (isdir t subject_path) then emit (DirectoryNotFound subject_path)
    else for_gen (iter_session_paths P subject_path flt) (body subject))).
Proof.
  intros H1 H2 Hb. apply prints_for_each_in. intros subject Hsub. cbv zeta.
  apply prints_bind; [apply prints_get_files|]. intros t.
  destruct (negb _); [by apply prints_emit, H1|].
  eapply prints_for_gen_yields.
  - unfold iter_session_paths. destruct flt as [[|ses l]|].
    + apply prints_bind; [apply prints_get_files | intros; apply prints_ret].
    + apply prints_ret.
    + apply prints_bind; [apply prints_get_files | intros; apply prints_ret].
  - apply iter_session_paths_prints_steps. intros ses. by apply H2.
  - intros x [ses ->]. by apply Hb.
Qed.

End PrintsIn.

Section Reports.
Variable P : platform.

Lemma reports_of_the_passes (subjects : list string) (base_dir : path)
    (sessions_filter : option (list string)) (b0_identifier : string)
    (dry_run : bool) :
  prints (rename_report subjects base_dir)
    (rename_fieldmap_files P subjects base_dir sessions_filter dry_run) /\
  prints (scans_report subjects base_dir)
    (update_scans_tsv P subjects base_dir sessions_filter dry_run) /\
  prints (json_report subjects base_dir)
    (update_fieldmap_json P subjects base_dir sessions_filter
       b0_identifier dry_run).
Proof.
  split; [|split].
  - apply (prints_pass_in _ P subjects base_dir sessions_filter
             (fun _ => rename_in_session P dry_run)).
    { intros subject Hsub. simpl. eauto. }
    { intros subject ses Hsub. simpl. eauto. }
    intros subject ses Hsub. unfold rename_in_session. cbv zeta.
    apply prints_bind; [apply prints_get_files|]. intros t.
    destruct (negb _); [apply prints_ret|].
    apply prints_bind; [apply prints_os_listdir|]. intros names.
    apply prints_for_each. intros n. unfold rename_file. cbv zeta.
    apply prints_bind; [apply prints_get_files|]. intros t'.
    destruct (negb _); [apply prints_ret|].
    destruct (rename_target n) as [tn|] eqn:Htn; [|apply prints_ret].
    assert (rename_report subjects base_dir
              (SkipRename (path_join (path_join (path_join (path_join base_dir subject) ses) "fmap") n)
                          (path_join (path_join (path_join (path_join base_dir subject) ses) "fmap") tn)))
      as Hrep by (simpl; eauto 10).
    destruct (path_exists _ _); [by apply prints_emit|].
    destruct dry_run; [by apply prints_emit|].
    apply prints_bind; [by apply prints_emit | intros; apply prints_os_rename].
  - apply (prints_pass_in _ P subjects base_dir sessions_filter
             (fun _ ses_path =>
                t' <- get_files ;;
                for_each (map (path_join ses_path)
                            (sorted (glob_suffix P t' ses_path "_scans.tsv")))
                         (update_scans_file P dry_run))).
    { intros subject Hsub. simpl. eauto. }
    { intros subject ses Hsub. simpl. eauto. }
    intros subject ses Hsub.
    apply prints_bind; [apply prints_get_files|]. intros t.
    apply prints_for_each_in. intros tsv Htsv.
    assert (scans_manifest subjects base_dir tsv) as Hman.
    { apply list_elem_of_fmap in Htsv as (name & -> & Hname).
      apply elem_of_sorted, elem_of_glob_suffix_inv in Hname as [? ?].
      by exists subject, ses, name. }
    unfold update_scans_file.
    apply prints_try_except; [|intros; by apply prints_emit].
    apply prints_bind; [apply prints_read_text|]. intros text.
    apply prints_bind; [apply prints_decode|]. intros df.
    destruct (df_get _ _); [|by apply prints_emit].
    apply prints_bind; [apply prints_lift|]. intros col1.
    apply prints_bind; [apply prints_lift|]. intros col2. cbv zeta.
    destruct (column_equals _ _); [by apply prints_emit|].
    destruct dry_run; [by apply prints_emit|].
    apply prints_bind; [by apply prints_emit | intros; apply prints_write_text].
  - apply (prints_pass_in _ P subjects base_dir sessions_filter
             (fun subject => update_json_in_session P base_dir subject
                               b0_identifier dry_run)).
    { intros subject Hsub. simpl. eauto. }
    { intros subject ses Hsub. simpl. eauto. }
    intros subject ses Hsub. unfold update_json_in_session. cbv zeta.
    rewrite basename_path_join.
    assert (fieldmap_sidecar subjects base_dir
              (path_join (path_join (path_join (path_join base_dir subject) ses) "fmap")
                         (subject ++ "_" ++ ses ++ "_fieldmap.json")))
      as Hside by (by exists subject, ses).
    apply prints_bind; [apply prints_get_files|]. intros t.
    destruct (_ || _); [apply prints_emit; simpl; eauto|].
    destruct (negb _); [apply prints_emit; simpl; eauto|].
    unfold update_sidecar.
    apply prints_try_except; [|intros; by apply prints_emit].
    apply prints_bind; [apply prints_read_text|]. intros text.
    apply prints_bind; [apply prints_decode|]. intros v.
    apply prints_bind; [apply prints_py_dict|]. intros d. cbv zeta.
    destruct (dict_equals_json _ _); [by apply prints_emit|].
    destruct dry_run; [by apply prints_emit|].
    apply prints_bind; [by apply prints_emit | intros; apply prints_write_text].
Qed.

(** X14.  On a dataset of plain names each pass reports on its own files
    only.  The renamer names a file of the [fmap] directory of a session
    of a listed subject together with the name its rule gives in the same
    directory; the manifest pass names manifests of such sessions; the
    sidecar pass names the session or its expected sidecar. *)
Theorem passes_report_on_their_files (subjects : list string) (base_dir : path)
    (sessions_filter : option (list string)) (b0_identifier : string)
    (dry_run : bool) (w : world) :
  well_named P base_dir subjects sessions_filter (files w) ->
  (exists evs,
     trace (rename_fieldmap_files P subjects base_dir sessions_filter
              dry_run w).2 = (trace w ++ evs)%list /\
     Forall (rename_report subjects base_dir) evs) /\
  (exists evs,
     trace (update_scans_tsv P subjects base_dir sessions_filter
              dry_run w).2 = (trace w ++ evs)%list /\
     Forall (scans_report subjects base_dir) evs) /\
  (exists evs,
     trace (update_fieldmap_json P subjects base_dir sessions_filter
              b0_identifier dry_run w).2 = (trace w ++ evs)%list /\
     Forall (json_report subjects base_dir) evs).
Proof.
  intros _.
  destruct (reports_of_the_passes subjects base_dir sessions_filter
              b0_identifier dry_run) as (H1 & H2 & H3).
  split; [apply H1 | split; [apply H2 | apply H3]].
Qed.

End Reports.

(** ** Exceptions of the renamer *)

Section Throws.
Context (X : exn -> Prop).

Lemma throws_never {A : Type} (m : M A) : returns m -> throws X m.
Proof. intros H w e w' Hrun. destruct (H w) as (a & w1 & Hw). congruence. Qed.

Lemma throws_raise {A : Type} e : X e -> throws X (raise e : M A).
Proof. by intros He w e' w' [= <- _]. Qed.

Lemma throws_bind_yields {A B : Type} (m : M A) (k : A -> M B) (Q : A -> Prop) :
  throws X m -> yields m Q -> (forall a, Q a -> throws X (k a)) ->
  throws X (bind m k).
Proof.
  intros Hm HQ Hk w e w'. unfold bind. specialize (Hm w). specialize (HQ w).
  destruct (m w) as [[e1|a] w1]; [intros [= <- <-]; eauto | apply Hk; eauto].
Qed.

Lemma throws_bind {A B : Type} (m : M A) (k : A -> M B) :
  throws X m -> (forall a, throws X (k a)) -> throws X (bind m k).
Proof.
  intros Hm Hk. apply (throws_bind_yields m k (fun _ => True)); [done|done|auto].
Qed.

Lemma throws_for_each {A : Type} (l : list A) (body : A -> M unit) :
  Forall (fun x => throws X (body x)) l -> throws X (for_each l body).
Proof.
  induction 1 as [|x l Hx Hl IH]; simpl.
  - apply throws_never, returns_ret.
  - by apply throws_bind.
Qed.

Lemma throws_for_gen {A : Type} (gen : generator A) (body : A -> M unit) :
  returns gen -> yields gen (Forall returns) ->
  (forall x, throws X (body x)) -> throws X (for_gen gen body).
Proof.
  intros Hg Hs Hb. unfold for_gen.
  apply (throws_bind_yields _ _ _ (throws_never _ Hg) Hs). intros steps Hsteps.
  apply throws_for_each. eapply Forall_impl; [exact Hsteps|].
  intros step Hstep. apply throws_bind; [by apply throws_never|].
  intros [x|]; [apply Hb | apply throws_never, returns_ret].
Qed.

End Throws.

Section RenameThrows.
Variable P : platform.

Lemma rename_fieldmap_files_throws subjects (base_dir : path) flt dry_run :
  throws (fun e => e = OSError)
         (rename_fieldmap_files P subjects base_dir flt dry_run).
Proof.
  unfold rename_fieldmap_files. apply throws_for_each, Forall_true.
  intros subject. cbv zeta.
  apply throws_bind; [apply throws_never, returns_get_files|]. intros t.
  destruct (negb _); [apply throws_never, returns_emit|].
  apply throws_for_gen;
    [apply iter_session_paths_returns | apply iter_session_paths_steps_return|].
  intros ses_path. unfold rename_in_session. cbv zeta.
  apply throws_bind; [apply throws_never, returns_get_files|]. intros t1.
  destruct (negb _); [apply throws_never, returns_ret|].
  apply throws_bind.
  { unfold os_listdir. apply throws_bind; [apply throws_never, returns_get_files|].
    intros t2. destruct (_ || _); [by apply throws_raise|].
    apply throws_never, returns_ret. }
  intros names. apply throws_for_each, Forall_true.
  intros n. unfold rename_file. cbv zeta.
  apply throws_bind; [apply throws_never, returns_get_files|]. intros t2.
  destruct (negb _); [apply throws_never, returns_ret|].
  destruct (rename_target n); [|apply throws_never, returns_ret].
  destruct (path_exists _ _); [apply throws_never, returns_emit|].
  destruct dry_run; [apply throws_never, returns_emit|].
  apply throws_bind; [apply throws_never, returns_emit|]. intros _.
  unfold os_rename. apply throws_bind; [apply throws_never, returns_get_files|].
  intros t3. destruct (t3 !! _); [|by apply throws_raise].
  destruct (rename_denied P _ _); [by apply throws_raise|].
  apply throws_never. intros w. by eexists _, _.
Qed.

End RenameThrows.

(** ** The command line *)

Lemma normalize_subject_twice x :
  normalize_subject (normalize_subject x) = normalize_subject x.
Proof.
  unfold normalize_subject.
  destruct (startswith x "sub-") eqn:E; [by rewrite E|]. by rewrite startswith_app.
Qed.

Lemma normalize_session_twice x :
  normalize_session (normalize_session x) = normalize_session x.
Proof.
  unfold normalize_session.
  destruct (startswith x "ses-") eqn:E; [by rewrite E|]. by rewrite startswith_app.
Qed.

Lemma optional_steps_return (b1 b2 : bool) (m1 m2 : M unit) (w : world) :
  returns m1 -> returns m2 ->
  exists w', ((if b1 then m1 else ret tt) >>
              (if b2 then m2 else ret tt) >> ret 0) w = (inr 0, w').
Proof.
  intros H1 H2.
  assert (returns (if b1 then m1 else ret tt)) as R1
    by (destruct b1; [done | apply returns_ret]).
  assert (returns (if b2 then m2 else ret tt)) as R2
    by (destruct b2; [done | apply returns_ret]).
  destruct (R1 w) as ([] & w1 & Hrun1). destruct (R2 w1) as ([] & w2 & Hrun2).
  exists w2. erewrite bind_run by exact Hrun1. by erewrite bind_run by exact Hrun2.
Qed.

Section MainProperties.
Variable P : platform.

(** X15.  On the command line, selecting no step is selecting all three:
    a run with no step flag that is not handed over to [sudo] is the run
    with the three flags set. *)
Theorem main_default_runs_every_step (H : Cli.host) (args : Cli.namespace)
    (w : world) :
  Cli._maybe_rerun_with_sudo H args w = None ->
  Cli.rename_files args = false ->
  Cli.update_scans args = false ->
  Cli.update_json args = false ->
  Cli.main P H args w = Cli.main P H (Cli.with_steps true true true args) w.
Proof.
  intros _ Hr Hs Hj. unfold Cli.main.
  assert (Cli._maybe_rerun_with_sudo H (Cli.with_steps true true true args) w =
          Cli._maybe_rerun_with_sudo H args w) as -> by done.
  assert (Cli.main_steps P (Cli.with_steps true true true args) =
          Cli.main_steps P args) as ->; [|done].
  unfold Cli.main_steps. by rewrite Hr, Hs, Hj.
Qed.

(** X16.  The command line accepts identifiers with or without their
    prefix: when the run is not handed over to [sudo], a run on the
    normalised subject and session identifiers is the run on the
    identifiers as given. *)
Theorem main_accepts_bare_and_prefixed_ids (H : Cli.host) (args : Cli.namespace)
    (w : world) :
  Cli._maybe_rerun_with_sudo H args w = None ->
  Cli.main P H
    (Cli.with_ids (map normalize_subject (Cli.subjects args))
                  (option_map (map normalize_session) (Cli.sessions args)) args) w =
  Cli.main P H args w.
Proof.
  intros _. unfold Cli.main.
  assert (Cli.main_steps P
            (Cli.with_ids (map normalize_subject (Cli.subjects args))
               (option_map (map normalize_session) (Cli.sessions args)) args) =
          Cli.main_steps P args) as ->; [|done].
  unfold Cli.main_steps. cbn [Cli.with_ids Cli.subjects Cli.sessions Cli.base_dir
    Cli.b0_identifier Cli.dry_run Cli.rename_files Cli.update_scans Cli.update_json].
  rewrite map_map.
  rewrite (map_ext (fun x => normalize_subject (normalize_subject x))
             normalize_subject) by (intros; apply normalize_subject_twice).
  destruct (Cli.sessions args) as [[|x l]|]; try done.
  cbn [option_map]. cbn [map].
  by rewrite normalize_session_twice, map_map,
    (map_ext (fun x => normalize_session (normalize_session x))
             normalize_session) by (intros; apply normalize_session_twice).
Qed.

Lemma preserves_main_steps args :
  Cli.dry_run args = true -> preserves_files (Cli.main_steps P args).
Proof.
  intros Hdry. unfold Cli.main_steps. cbv zeta. rewrite Hdry.
  apply preserves_bind.
  { destruct (_ || _); [apply rename_dry_run | apply preserves_ret]. }
  intros _. apply preserves_bind.
  { destruct (_ || _); [apply scans_dry_run | apply preserves_ret]. }
  intros _. apply preserves_bind.
  { destruct (_ || _); [apply json_dry_run | apply preserves_ret]. }
  intros _. apply preserves_ret.
Qed.

(** X17.  A dry run of the command line that is not handed over to [sudo]
    leaves the files as they are, whichever steps are selected. *)
Theorem main_dry_run_keeps_files (H : Cli.host) (args : Cli.namespace)
    (w : world) :
  Cli.dry_run args = true ->
  Cli._maybe_rerun_with_sudo H args w = None ->
  files (Cli.after (Cli.main P H args w)) = files w.
Proof.
  intros Hdry Hnone. unfold Cli.main. rewrite Hnone.
  pose proof (preserves_main_steps args Hdry w) as Hkeep.
  by destruct (Cli.main_steps P args w) as [[e|code] w'].
Qed.

(** X18.  When the command line is not handed over to [sudo]: if the
    renamer is selected and raises, the exception is an [OSError], it
    escapes [main], and the run stops in the world the renamer left, so
    that neither manifests nor sidecars are processed; in every other
    case [main] returns 0. *)
Theorem main_exit_status (H : Cli.host) (args : Cli.namespace) (w : world) :
  Cli._maybe_rerun_with_sudo H args w = None ->
  let subjects := map normalize_subject (Cli.subjects args) in
  let sessions_filter :=
    match Cli.sessions args with
    | Some ((_ :: _) as requested) => Some (map normalize_session requested)
    | _ => None
    end in
  let run_any :=
    Cli.rename_files args || Cli.update_scans args || Cli.update_json args in
  let renamer :=
    rename_fieldmap_files P subjects (Cli.base_dir args) sessions_filter
      (Cli.dry_run args) in
  if Cli.rename_files args || negb run_any
  then match renamer w with
       | (inl e, w1) =>
           e = OSError /\ Cli.main P H args w = Cli.Run (Cli.Uncaught OSError) [] w1
       | (inr _, _) =>
           Cli.status (Cli.main P H args w) = Cli.Returned 0
       end
  else Cli.status (Cli.main P H args w) = Cli.Returned 0.
Proof.
  intros Hnone. cbv zeta. unfold Cli.main. rewrite Hnone.
  unfold Cli.main_steps. cbv zeta.
  set (subjects := map normalize_subject (Cli.subjects args)).
  set (flt := match Cli.sessions args with
              | Some ((_ :: _) as requested) => Some (map normalize_session requested)
              | _ => None
              end).
  set (run_any := Cli.rename_files args || Cli.update_scans args || Cli.update_json args).
  assert (Hrest : forall w0, exists w',
            ((if Cli.update_scans args || negb run_any
              then update_scans_tsv P subjects (Cli.base_dir args) flt (Cli.dry_run args)
              else ret tt) >>
             (if Cli.update_json args || negb run_any
              then update_fieldmap_json P subjects (Cli.base_dir args) flt
                     (Cli.b0_identifier args) (Cli.dry_run args)
              else ret tt) >>
             ret 0) w0 = (inr 0, w')).
  { intros w0. apply optional_steps_return;
      [apply update_scans_tsv_returns | apply update_fieldmap_json_returns]. }
  destruct (Cli.rename_files args || negb run_any).
  - pose proof (rename_fieldmap_files_throws P subjects (Cli.base_dir args) flt
                  (Cli.dry_run args) w) as Hth.
    destruct (rename_fieldmap_files P subjects (Cli.base_dir args) flt
                (Cli.dry_run args) w) as [[e|[]] w1] eqn:E.
    + erewrite bind_fail by exact E. by rewrite (Hth e w1 eq_refl).
    + erewrite bind_run by exact E. destruct (Hrest w1) as [w' ->]. done.
  - rewrite bind_ret_l. destruct (Hrest w) as [w' ->]. done.
Qed.

End MainProperties.

Lemma main_default_runs_every_step_witness :
  Cli.main Sample.posix Fixtures.workstation Fixtures.preview_all Sample.converted =
  Cli.main Sample.posix Fixtures.workstation
    (Cli.with_steps true true true Fixtures.preview_all) Sample.converted.
Proof.
  apply (main_default_runs_every_step Sample.posix Fixtures.workstation
           Fixtures.preview_all Sample.converted); reflexivity.
Defined.

Lemma main_accepts_bare_and_prefixed_ids_witness :
  Cli.main Sample.posix Fixtures.workstation
    (Cli.with_ids (map normalize_subject (Cli.subjects Fixtures.rename_only))
       (option_map (map normalize_session) (Cli.sessions Fixtures.rename_only))
       Fixtures.rename_only) Sample.converted =
  Cli.main Sample.posix Fixtures.workstation Fixtures.rename_only Sample.converted.
Proof.
  apply (main_accepts_bare_and_prefixed_ids Sample.posix Fixtures.workstation
           Fixtures.rename_only Sample.converted); reflexivity.
Defined.

Lemma main_dry_run_keeps_files_witness :
  files (Cli.after (Cli.main Sample.posix Fixtures.workstation Fixtures.preview_all
                      Sample.converted)) = files Sample.converted.
Proof.
  apply (main_dry_run_keeps_files Sample.posix Fixtures.workstation
           Fixtures.preview_all Sample.converted); reflexivity.
Defined.

Lemma main_exit_status_witness :
  Cli.status (Cli.main Sample.posix Fixtures.workstation Fixtures.rename_only
                Sample.converted) = Cli.Returned 0.
Proof.
  pose proof (main_exit_status Sample.posix Fixtures.workstation
                Fixtures.rename_only Sample.converted eq_refl) as H.
  cbv zeta in H. cbn [Fixtures.rename_only Cli.rename_files orb] in H.
  destruct (rename_fieldmap_files _ _ _ _ _ _) as [[e|[]] w1] eqn:E in H.
  - exfalso. revert E. apply (bool_decide_unpack _). vm_compute. exact I.
  - exact H.
Defined.

(** ** Identifiers, the name of the sidecar, session discovery *)

(** X19.  A normalised identifier starts with its prefix, and is the token
    itself or the token with the prefix in front. *)
Theorem normalize_gives_prefixed_token (x : string) :
  (startswith (normalize_subject x) "sub-" = true /\
   (normalize_subject x = x \/ normalize_subject x = "sub-" ++ x)) /\
  (startswith (normalize_session x) "ses-" = true /\
   (normalize_session x = x \/ normalize_session x = "ses-" ++ x)).
Proof.
  unfold normalize_subject, normalize_session. split.
  - destruct (startswith x "sub-") eqn:E; [by auto|].
    split; [apply startswith_app | by right].
  - destruct (startswith x "ses-") eqn:E; [by auto|].
    split; [apply startswith_app | by right].
Qed.

(** A match of [pat] at the start of [s ++ "_" ++ t] that is not a match
    at the start of [s] runs over the underscore. *)
Lemma startswith_across pat s t :
  contains "_" pat = false ->
  startswith (s ++ String "_" t) pat = startswith s pat.
Proof.
  revert s. induction pat as [|a pat IH]; intros s Hp; [by rewrite !startswith_nil|].
  assert (a <> "_"%char /\ contains "_" pat = false) as [Ha Hp'].
  { simpl in Hp. apply orb_false_iff in Hp as [H1 H2]. split; [|done].
    intros ->. simpl in H1. by rewrite ?startswith_nil in H1. }
  destruct s as [|b s].
  - change ("" ++ String "_" t) with (String "_" t). simpl.
    destruct (Ascii.eqb_spec a "_"); [done|done].
  - rewrite str_app_cons. simpl. destruct (Ascii.eqb a b); [by apply IH | done].
Qed.

Lemma contains_across pat s t :
  contains "_" pat = false -> pat <> "" ->
  contains pat (s ++ String "_" t) = contains pat s || contains pat (String "_" t).
Proof.
  intros Hp Hne. induction s as [|c s IH].
  - change ("" ++ String "_" t) with (String "_" t).
    destruct pat; [done|]. done.
  - rewrite str_app_cons. cbn [contains]. rewrite <- str_app_cons.
    rewrite (startswith_across pat (String c s) t Hp), IH.
    by rewrite orb_assoc.
Qed.

Lemma replace_across old new s t :
  contains "_" old = false -> old <> "" -> contains old s = false ->
  replace (s ++ String "_" t) old new = s ++ replace (String "_" t) old new.
Proof.
  intros Hp Hne. unfold replace. induction s as [|c s IH]; intros Hs.
  - done.
  - rewrite !str_app_cons. cbn [replace_from]. rewrite <- str_app_cons.
    rewrite (startswith_across old (String c s) t Hp).
    cbn [contains] in Hs. apply orb_false_iff in Hs as [H1 H2].
    rewrite H1, IH by done. done.
Qed.

(** X20.  The sidecar the sidecar pass looks for is the one the renamer
    makes of the second field-map output: for a subject and session
    free of both tokens, the second rule turns
    [<subject>_<session>_fieldmap2.json] into
    [<subject>_<session>_fieldmap.json], which no rule renames again. *)
Theorem renamed_sidecar_is_found (subject ses_id : string) :
  contains "fieldmap1" (subject ++ "_" ++ ses_id) = false ->
  contains "fieldmap2" (subject ++ "_" ++ ses_id) = false ->
  rename_target (subject ++ "_" ++ ses_id ++ "_fieldmap2.json") =
    Some (subject ++ "_" ++ ses_id ++ "_fieldmap.json") /\
  rename_target (subject ++ "_" ++ ses_id ++ "_fieldmap.json") = None.
Proof.
  intros H1 H2.
  assert (Happ : forall tail, subject ++ "_" ++ ses_id ++ String "_" tail =
                              (subject ++ "_" ++ ses_id) ++ String "_" tail).
  { intros tail. by rewrite !str_app_assoc. }
  change "_fieldmap2.json" with (String "_" "fieldmap2.json").
  change "_fieldmap.json" with (String "_" "fieldmap.json").
  rewrite !Happ. unfold rename_target.
  rewrite !(contains_across "fieldmap1") by done.
  rewrite !(contains_across "fieldmap2") by done.
  rewrite H1, H2. cbn [orb].
  change (contains "fieldmap1" (String "_" "fieldmap2.json")) with false.
  change (contains "fieldmap2" (String "_" "fieldmap2.json")) with true.
  change (contains "fieldmap1" (String "_" "fieldmap.json")) with false.
  change (contains "fieldmap2" (String "_" "fieldmap.json")) with false.
  split; [|done].
  by rewrite replace_across.
Qed.

Lemma renamed_sidecar_is_found_witness :
  rename_target ("sub-01" ++ "_" ++ "ses-001" ++ "_fieldmap2.json") =
    Some ("sub-01" ++ "_" ++ "ses-001" ++ "_fieldmap.json") /\
  rename_target ("sub-01" ++ "_" ++ "ses-001" ++ "_fieldmap.json") = None.
Proof.
  apply (renamed_sidecar_is_found "sub-01" "ses-001"); reflexivity.
Defined.

Section Discovery.
Variable P : platform.

(** X21.  Session discovery in a subject directory whose path is made of
    plain names and that is missing or cannot be listed yields no
    session, prints nothing and raises nothing. *)
Theorem discovery_in_unreadable_directory (sp : path) (w : world) :
  forallb (plain_name P) sp = true ->
  isdir (files w) sp = false \/ listdir_denied P sp = true ->
  collect (iter_session_paths P sp None) w = (inr [], w) /\
  collect (iter_session_paths P sp (Some [])) w = (inr [], w).
Proof.
  intros _ Hbad.
  assert (glob_prefix P (files w) sp "ses-" = []) as Hglob.
  { unfold glob_prefix. destruct Hbad as [-> | ->]; [done|].
    by rewrite andb_false_r. }
  unfold collect, iter_session_paths.
  rewrite !bind_assoc, !bind_get_files, !bind_ret_l, Hglob. done.
Qed.

End Discovery.

Lemma discovery_in_unreadable_directory_witness :
  collect (iter_session_paths Sample.posix ["bids"; "sub-99"] None) Sample.converted =
    (inr [], Sample.converted) /\
  collect (iter_session_paths Sample.posix ["bids"; "sub-99"] (Some [])) Sample.converted =
    (inr [], Sample.converted).
Proof.
  apply (discovery_in_unreadable_directory Sample.posix ["bids"; "sub-99"]
           Sample.converted).
  - reflexivity.
  - left. vm_compute. reflexivity.
Defined.

(** ** The further theorems at work *)

Lemma update_scans_tsv_rewrites_manifests_in_place_witness :
  let t' := files (update_scans_tsv Sample.posix ["sub-01"] Sample.base None false
                     Sample.converted).2 in
  dom t' = dom (files Sample.converted) /\
  (forall p, isdir t' p = isdir (files Sample.converted) p) /\
  (forall p, t' !! p <> files Sample.converted !! p ->
     scans_manifest ["sub-01"] Sample.base p /\
     isfile (files Sample.converted) p = true /\ isfile t' p = true).
Proof.
  apply (update_scans_tsv_rewrites_manifests_in_place Sample.posix ["sub-01"]
           Sample.base None false Sample.converted).
  repeat split; try reflexivity.
  apply (bool_decide_unpack _). vm_compute. exact I.
Defined.

Lemma update_fieldmap_json_rewrites_sidecars_in_place_witness :
  let t' := files (update_fieldmap_json Sample.posix ["sub-01"] Sample.base
                     (Some ["ses-001"]) "b0map_fmap0" false Sample.renamed_once).2 in
  dom t' = dom (files Sample.renamed_once) /\
  (forall p, isdir t' p = isdir (files Sample.renamed_once) p) /\
  (forall p, t' !! p <> files Sample.renamed_once !! p ->
     fieldmap_sidecar ["sub-01"] Sample.base p /\
     isfile (files Sample.renamed_once) p = true /\ isfile t' p = true).
Proof.
  apply (update_fieldmap_json_rewrites_sidecars_in_place Sample.posix ["sub-01"]
           Sample.base (Some ["ses-001"]) "b0map_fmap0" false Sample.renamed_once).
  repeat split; try reflexivity.
  apply (bool_decide_unpack _). vm_compute. exact I.
Defined.

Lemma passes_report_on_their_files_witness :
  (exists evs,
     trace (rename_fieldmap_files Sample.posix ["sub-01"; "sub-02"] Sample.base
              (Some ["ses-001"; "ses-404"]) false Sample.converted).2 =
       (trace Sample.converted ++ evs)%list /\
     Forall (rename_report ["sub-01"; "sub-02"] Sample.base) evs) /\
  (exists evs,
     trace (update_scans_tsv Sample.posix ["sub-01"; "sub-02"] Sample.base
              (Some ["ses-001"; "ses-404"]) false Sample.converted).2 =
       (trace Sample.converted ++ evs)%list /\
     Forall (scans_report ["sub-01"; "sub-02"] Sample.base) evs) /\
  (exists evs,
     trace (update_fieldmap_json Sample.posix ["sub-01"; "sub-02"] Sample.base
              (Some ["ses-001"; "ses-404"]) "b0map_fmap0" false Sample.converted).2 =
       (trace Sample.converted ++ evs)%list /\
     Forall (json_report ["sub-01"; "sub-02"] Sample.base) evs).
Proof.
  apply (passes_report_on_their_files Sample.posix ["sub-01"; "sub-02"] Sample.base
           (Some ["ses-001"; "ses-404"]) "b0map_fmap0" false Sample.converted).
  repeat split; try reflexivity.
  apply (bool_decide_unpack _). vm_compute. exact I.
Defined.

Lemma update_sidecar_converges_witness :
  update_sidecar Fixtures.lab true Fixtures.sidecar_path
    [Sample.fmap_intended] "b0map_fmap0"
    (update_sidecar Fixtures.lab false Fixtures.sidecar_path
       [Sample.fmap_intended] "b0map_fmap0" Fixtures.lone_sidecar).2 =
  (inr tt,
   World (files (update_sidecar Fixtures.lab false Fixtures.sidecar_path
                   [Sample.fmap_intended] "b0map_fmap0" Fixtures.lone_sidecar).2)
         (trace (update_sidecar Fixtures.lab false Fixtures.sidecar_path
                   [Sample.fmap_intended] "b0map_fmap0" Fixtures.lone_sidecar).2 ++
          [NoChangesNeeded Fixtures.sidecar_path])).
Proof.
  refine (update_sidecar_converges Fixtures.lab Fixtures.sidecar_path
            "sidecar with echo times" Fixtures.echo_times
            [Sample.fmap_intended] "b0map_fmap0" Fixtures.lone_sidecar
            _ _ _ _ _ _ true).
  - vm_compute. reflexivity.
  - reflexivity.
  - reflexivity.
  - reflexivity.
  - apply (bool_decide_unpack _). vm_compute. exact I.
  - vm_compute. reflexivity.
Defined.

Lemma scan_rewrite_agrees_with_renamer_witness :
  rewrite_name "sub-01_ses-001_fieldmap1.nii.gz" =
  default "sub-01_ses-001_fieldmap1.nii.gz"
          (rename_target "sub-01_ses-001_fieldmap1.nii.gz").
Proof.
  apply (scan_rewrite_agrees_with_renamer "sub-01_ses-001_fieldmap1.nii.gz").
  intros tn Htn _. vm_compute in Htn. injection Htn as <-. vm_compute. reflexivity.
Defined.

Lemma changed_rows_count_missing_cells_witness :
  update_scans_file Fixtures.lab true Fixtures.scans_path Fixtures.gappy_manifest =
  (inr tt,
   World (files Fixtures.gappy_manifest)
         [WouldUpdateTsv 2 Fixtures.scans_path]).
Proof.
  exact (changed_rows_count_missing_cells Fixtures.lab Fixtures.scans_path
           "scans with a gap" Fixtures.gap_table
           [Some "fmap/sub-01_ses-001_fieldmap1.nii.gz"; None;
            Some "anat/sub-01_ses-001_T1w.nii.gz"]
           Fixtures.gappy_manifest eq_refl eq_refl eq_refl eq_refl).
Defined.

Lemma non_object_sidecar_is_rewritten_witness :
  update_sidecar Fixtures.lab true Fixtures.sidecar_path
    [Sample.fmap_intended] "b0map_fmap0" Fixtures.array_sidecar =
  (inr tt, World (files Fixtures.array_sidecar)
                 [WouldUpdateJson Fixtures.sidecar_path]).
Proof.
  refine (proj1 (non_object_sidecar_is_rewritten Fixtures.lab Fixtures.sidecar_path
                   "[]" (JArray []) [] [Sample.fmap_intended] "b0map_fmap0"
                   Fixtures.array_sidecar _ _ _ _ _)).
  - vm_compute. reflexivity.
  - reflexivity.
  - reflexivity.
  - intros members. discriminate.
  - reflexivity.
Defined.

Lemma dry_run_previews_each_file_witness :
  previews (rename_file Sample.posix true Sample.fmap_dir
              "sub-01_ses-001_fieldmap1.nii.gz")
           (rename_file Sample.posix false Sample.fmap_dir
              "sub-01_ses-001_fieldmap1.nii.gz") Sample.converted /\
  previews (update_scans_file Sample.posix true Fixtures.scans_path)
           (update_scans_file Sample.posix false Fixtures.scans_path)
           Sample.converted /\
  previews (update_sidecar Sample.posix true Fixtures.sidecar_path
              [Sample.fmap_intended] "b0map_fmap0")
           (update_sidecar Sample.posix false Fixtures.sidecar_path
              [Sample.fmap_intended] "b0map_fmap0") Sample.converted.
Proof.
  apply (dry_run_previews_each_file Sample.posix Sample.fmap_dir
           "sub-01_ses-001_fieldmap1.nii.gz" Fixtures.scans_path
           Fixtures.sidecar_path [Sample.fmap_intended] "b0map_fmap0"
           Sample.converted).
  - intros dst. reflexivity.
  - reflexivity.
  - reflexivity.
Defined.

(** ** Runs that nothing refuses, and runs handed over to [sudo] *)

Section Unrefused.
Variable P : platform.

Lemma rename_file_returns dry_run fmap_dir filename :
  (dry_run = false -> forall src dst, rename_denied P src dst = false) ->
  returns (rename_file P dry_run fmap_dir filename).
Proof.
  intros Hren w. unfold rename_file. cbv zeta. rewrite bind_get_files.
  destruct (isfile (files w) _) eqn:Hfile; simpl; [|by eexists _, _].
  destruct (rename_target filename) as [tn|]; [|by eexists _, _].
  destruct (path_exists _ _); [by eexists _, _|].
  destruct dry_run; [by eexists _, _|].
  rewrite bind_emit. unfold os_rename. rewrite bind_get_files. cbn [files].
  apply isfile_inv in Hfile as [data Hfile]. rewrite Hfile, Hren by done.
  by eexists _, _.
Qed.

Lemma rename_in_session_returns dry_run ses_path :
  (forall dir, listdir_denied P dir = false) ->
  (dry_run = false -> forall src dst, rename_denied P src dst = false) ->
  returns (rename_in_session P dry_run ses_path).
Proof.
  intros Hlist Hren w. unfold rename_in_session. cbv zeta.
  rewrite bind_get_files.
  destruct (isdir (files w) _) eqn:Hdir; simpl; [|by eexists _, _].
  unfold os_listdir. rewrite bind_assoc, bind_get_files, Hlist, Hdir. simpl.
  rewrite bind_ret_l.
  apply returns_for_each, Forall_forall. intros n _.
  by apply rename_file_returns.
Qed.

(** X22.  When the operating system refuses no listing and, in an apply
    run, no rename, the renamer returns: collisions, missing directories
    and files that change name along the way never make it raise. *)
Theorem rename_returns_when_nothing_is_refused (subjects : list string)
    (base_dir : path) (sessions_filter : option (list string)) (dry_run : bool)
    (w : world) :
  (forall dir, listdir_denied P dir = false) ->
  (dry_run = false -> forall src dst, rename_denied P src dst = false) ->
  exists w', rename_fieldmap_files P subjects base_dir sessions_filter dry_run w =
             (inr tt, w').
Proof.
  intros Hlist Hren.
  enough (returns (rename_fieldmap_files P subjects base_dir sessions_filter
                     dry_run)) as H by (destruct (H w) as ([] & w' & Hrun); eauto).
  unfold rename_fieldmap_files. apply returns_for_each, Forall_forall.
  intros subject _. cbv zeta.
  apply returns_bind; [apply returns_get_files|]. intros t.
  destruct (isdir t _); simpl; [|apply returns_emit].
  apply returns_for_gen;
    [apply iter_session_paths_returns | apply iter_session_paths_steps_return|].
  intros ses_path. by apply rename_in_session_returns.
Qed.

End Unrefused.

(** X23.  A run handed over to [sudo] does nothing itself: when the user
    is not root and [--sudo] is given, the outcome does not depend on
    the other arguments nor on the platform, the world left is the one
    the child process left, the exit is [SystemExit(0)] exactly when
    the child exits with 0, and [main] never returns. *)
Theorem sudo_rerun_hands_over (P P' : platform) (H : Cli.host)
    (args args' : Cli.namespace) (w : world) :
  Cli.has_geteuid H = true -> Cli.geteuid H <> 0 ->
  Cli.sudo args = true -> Cli.sudo args' = true ->
  Cli.main P H args w = Cli.main P' H args' w /\
  Cli.after (Cli.main P H args w) =
    (Cli.subprocess_run H (Cli.rerun_command H) w).2 /\
  (Cli.status (Cli.main P H args w) = Cli.SystemExit 0 <->
   (Cli.subprocess_run H (Cli.rerun_command H) w).1 = Some 0) /\
  (forall code, Cli.status (Cli.main P H args w) <> Cli.Returned code).
Proof.
  intros Hg He Hs Hs'. unfold Cli.main, Cli._maybe_rerun_with_sudo.
  rewrite Hg, Hs, Hs'. apply Nat.eqb_neq in He. rewrite He. cbn [negb].
  destruct (Cli.subprocess_run H (Cli.rerun_command H) w) as [[[|code]|] w'];
    cbn [fst snd Cli.status Cli.after]; repeat split; try done.
Qed.

Lemma sudo_rerun_hands_over_witness :
  Cli.main Sample.posix Fixtures.workstation Fixtures.elevated Sample.converted =
    Cli.main Sample.read_only Fixtures.workstation
      (Cli.with_steps true false false Fixtures.elevated) Sample.converted /\
  Cli.after (Cli.main Sample.posix Fixtures.workstation Fixtures.elevated
               Sample.converted) =
    (Cli.subprocess_run Fixtures.workstation
       (Cli.rerun_command Fixtures.workstation) Sample.converted).2 /\
  (Cli.status (Cli.main Sample.posix Fixtures.workstation Fixtures.elevated
                 Sample.converted) = Cli.SystemExit 0 <->
   (Cli.subprocess_run Fixtures.workstation
      (Cli.rerun_command Fixtures.workstation) Sample.converted).1 = Some 0) /\
  (forall code,
     Cli.status (Cli.main Sample.posix Fixtures.workstation Fixtures.elevated
                   Sample.converted) <> Cli.Returned code).
Proof.
  apply (sudo_rerun_hands_over Sample.posix Sample.read_only Fixtures.workstation
           Fixtures.elevated (Cli.with_steps true false false Fixtures.elevated)
           Sample.converted); [reflexivity | discriminate | reflexivity | reflexivity].
Defined.

Lemma rename_returns_when_nothing_is_refused_witness :
  exists w', rename_fieldmap_files Sample.posix ["sub-01"] Sample.base None false
               Sample.converted = (inr tt, w').
Proof.
  apply (rename_returns_when_nothing_is_refused Sample.posix ["sub-01"]
           Sample.base None false Sample.converted).
  - intros dir. reflexivity.
  - intros _ src dst. reflexivity.
Defined.
